(** * Audio preview pipeline: request handler and command-line script

    A shallow embedding of the two entry points that produce a 30 second MP3
    preview of a stored audio object: the request handler ([handler]) and
    the operator script ([main] and [parseArgs], scripts/generate_preview.js).

    Everything the two functions do to the outside world (child processes,
    the storage client, the network, the file system, the console) is
    answered by a [World] of replies and recorded as a list of [Event]s, in
    program order.  The state that survives an invocation is a [Sys]: the
    scratch directories that exist on the host, the files in them, and the
    objects held by the destination store.

    [handler] is the function as it is written in api/generate-preview.ts;
    the module that exports it is looked at separately, in
    [deployed_handler]. *)

From stdpp Require Import gmap strings list pretty.
From Stdlib Require Import ZArith.
From Stdlib.Strings Require Import Ascii Byte.

Set Warnings "-register-all".

Local Open Scope Z_scope.
Local Open Scope string_scope.

(** ** JavaScript values *)

(** The values that flow through the two entry points: the fields of a parsed
    JSON body, and the strings and [true] that the flag parser produces.
    An integer of magnitude below 10^21, which prints as its digits, is kept
    by its value; any other number ([2500.5], [1e+21], [NaN], [Infinity]) by
    the text the host prints for it. *)
Inductive value : Type :=
| VUndefined
| VNull
| VBool (b : bool)
| VNum (n : Z)
| VFloat (printed : string)
| VStr (s : string)
| VArr (items : list value)
| VObj (props : list (string * value)).

(** [!!v] *)
Definition truthy (v : value) : bool :=
  match v with
  | VUndefined | VNull => false
  | VBool b => b
  | VNum n => negb (Z.eqb n 0)
  | VFloat printed => negb (String.eqb printed "NaN")
  | VStr s => negb (String.eqb s "")
  | VArr _ | VObj _ => true
  end.

(** [a || b] on values. *)
Definition js_or (a b : value) : value := if truthy a then a else b.

(** Truthiness of [process.env.X] and of optional strings in replies:
    [undefined], [null] and the empty string are falsy. *)
Definition truthy_str (o : option string) : bool :=
  match o with
  | Some s => negb (String.eqb s "")
  | None => false
  end.

(** [body.name] for a destructuring pattern [{ name } = body]: an own property
    of an object, [undefined] on anything else (the names read here are on no
    prototype). *)
Fixpoint get_prop (name : string) (props : list (string * value)) : value :=
  match props with
  | [] => VUndefined
  | (k, v) :: rest => if String.eqb k name then v else get_prop name rest
  end.

Definition field (body : value) (name : string) : value :=
  match body with
  | VObj props => get_prop name props
  | _ => VUndefined
  end.

(** [s.startsWith(p)] and [s.slice(2)]. *)
Fixpoint startsWith (p s : string) : bool :=
  match p, s with
  | "", _ => true
  | String a p', String b s' => Ascii.eqb a b && startsWith p' s'
  | String _ _, "" => false
  end.

Definition slice2 (s : string) : string :=
  match s with
  | String _ (String _ rest) => rest
  | _ => ""
  end.

(** ** The flag parser of the script *)

(** [out[key] = val] on an object literal.  Assigning a string or [true] to
    [__proto__] goes to the prototype setter, which ignores it, so no own
    property is created for that key. *)
Definition set_prop (key : string) (val : value) (out : gmap string value)
  : gmap string value :=
  if String.eqb key "__proto__" then out else <[key := val]> out.

(** The loop of [parseArgs] over [args] from index [i] on. *)
Fixpoint parseArgs_from (args : list string) (out : gmap string value)
  : gmap string value :=
  match args with
  | [] => out
  | a :: rest =>
      if startsWith "--" a then
        let key := slice2 a in
        match rest with
        | b :: rest' =>
            if negb (String.eqb b "") && negb (startsWith "--" b)
            then parseArgs_from rest' (set_prop key (VStr b) out)
            else parseArgs_from rest (set_prop key (VBool true) out)
        | [] => set_prop key (VBool true) out
        end
      else parseArgs_from rest out
  end.

(** [parseArgs()], with [argv] standing for [process.argv.slice(2)]. *)
Definition parseArgs (argv : list string) : gmap string value :=
  parseArgs_from argv ∅.

(** [args.name] *)
Definition arg (args : gmap string value) (name : string) : value :=
  default VUndefined (args !! name).


(** Equality of values is decidable; the store below compares bucket names and
    object keys with it. *)
Fixpoint value_eq_dec (x y : value) {struct x} : {x = y} + {x <> y}.
Proof.
  decide equality.
  - apply bool_dec.
  - apply Z.eq_dec.
  - apply String.string_dec.
  - apply String.string_dec.
  - apply (List.list_eq_dec value_eq_dec).
  - apply List.list_eq_dec. intros [k1 v1] [k2 v2].
    destruct (String.string_dec k1 k2) as [->|Hk]; [|right; congruence].
    destruct (value_eq_dec v1 v2) as [->|Hv]; [left; reflexivity|right; congruence].
Defined.

#[global] Instance value_eq : EqDecision value := value_eq_dec.

(** ** Replies of the outside world *)

Definition bytes := list byte.

(** A call either returns or throws (for a promise: resolves or rejects). *)
Inductive reply (A : Type) : Type :=
| Returns (a : A)
| Throws (e : string).
Arguments Returns {A} a.
Arguments Throws {A} e.

(** What [spawnSync] returns: [error] is set when the child could not be
    spawned, [status] is the exit code, [null] when there is none. *)
Record SpawnSyncReturns := {
  sp_error : option string;
  sp_status : option Z
}.

(** [{ data, error }] of [createSignedUrl]; [su_signedUrl] is
    [data?.signedUrl]. *)
Record SignedUrlReply := {
  su_signedUrl : option string;
  su_error : option string
}.

(** The [Response] of [fetch]: [ok], [status] and what [arrayBuffer()]
    gives. *)
Record FetchResponse := {
  res_ok : bool;
  res_status : Z;
  res_arrayBuffer : reply bytes
}.

(** The third argument of [upload]. *)
Record FileOptions := {
  cacheControl : option string;
  contentType : option string;
  upsert : option bool
}.

(** One invocation's environment: configuration, host library functions, and
    the reply of every external call the pipeline makes, in the order the
    calls appear in the source. *)
Record World := {
  env_SUPABASE_URL : option string;
  env_SUPABASE_SERVICE_ROLE_KEY : option string;
  Date_now : Z;
  os_tmpdir : string;
  path_join : string -> string -> string;
  path_extname : string -> string;
  ffmpeg_version : SpawnSyncReturns;
  createClient_reply : option string;
  createSignedUrl_reply : reply SignedUrlReply;
  fetch_reply : reply FetchResponse;
  mkdtemp_reply : reply string;
  writeFile_reply : option string;
  ffmpeg_run : SpawnSyncReturns;
  (** what the encoder writes to its output path when it exits with 0 *)
  preview_file : bytes;
  upload_reply : reply (option string);
  publicUrl_of : value -> value -> string;
  rmSync_reply : option string
}.

(** ** Observable events *)

(** One event per external call, with its arguments; a child process is
    recorded with what [spawnSync] returned, and [EvMkdtemp prefix dir] says
    that the host created [dir] for [mkdtempSync(prefix)]. *)
Inductive Event : Type :=
| EvReadBody
| EvConsoleLog (items : list string)
| EvConsoleError (items : list string)
| EvSpawn (cmd : string) (args : list string) (r : SpawnSyncReturns)
| EvCreateClient (url key : string)
| EvCreateSignedUrl (bucket path : value) (expiresIn : Z)
| EvFetch (url : string)
| EvMkdtemp (prefix dir : string)
| EvWriteFile (file : string) (data : bytes)
| EvCreateReadStream (file : string)
| EvUpload (bucket path : value) (body : bytes) (opts : FileOptions)
| EvGetPublicUrl (bucket path : value)
| EvRmSync (dir : string) (recursive : bool).

(** ** Persistent state: scratch directories, files and the destination
    store *)

Record StoredObject := {
  obj_bucket : value;
  obj_key : value;
  obj_body : bytes
}.

Record Sys := {
  dirs : gset string;
  files : gmap string bytes;
  store : list StoredObject
}.

(** Reading and writing a file by its path. *)
Definition fs_read (file : string) (fs : gmap string bytes) : option bytes :=
  fs !! file.

Definition fs_write (file : string) (data : bytes) (fs : gmap string bytes)
  : gmap string bytes :=
  <[file := data]> fs.

Arguments fs_read : simpl never.
Arguments fs_write : simpl never.

Definition at_key (b k : value) (o : StoredObject) : bool :=
  bool_decide (obj_bucket o = b) && bool_decide (obj_key o = k).

(** The objects the store holds under a bucket and key. *)
Definition objects_at (st : list StoredObject) (b k : value) : list StoredObject :=
  List.filter (at_key b k) st.

(** Modelled from the spec: the object store is an external service and no
    code of it is in the repository.  "Upsert: a write that creates the object
    if absent or overwrites it if present, at a given key"; without the
    option a write to an occupied key is refused. *)
Definition store_upload (st : list StoredObject) (b k : value) (body : bytes)
    (opts : FileOptions) : list StoredObject * option string :=
  let o := {| obj_bucket := b; obj_key := k; obj_body := body |} in
  if default false (upsert opts) then
    (o :: List.filter (fun x => negb (at_key b k x)) st, None)
  else if existsb (at_key b k) st then
    (st, Some "The resource already exists")
  else (o :: st, None).

(** ** Effects: state, events, exceptions and early exit *)

(** A computation ends with a value, with a thrown exception, or by leaving
    the entry point for good: [return new Response(...)] in the handler,
    [process.exit(code)] in the script.  [catch] blocks see only the second. *)
Inductive step (R A : Type) : Type :=
| Val (a : A)
| Thrown (e : string)
| Done (r : R).
Arguments Val {R A} a.
Arguments Thrown {R A} e.
Arguments Done {R A} r.

Definition M (R A : Type) : Type := Sys -> step R A * Sys * list Event.

Section Monad.
Context {R : Type}.

Definition ret {A} (a : A) : M R A := fun s => (Val a, s, []).

Definition bind {A B} (m : M R A) (k : A -> M R B) : M R B :=
  fun s =>
    match m s with
    | (Val a, s1, l1) =>
        match k a s1 with
        | (r, s2, l2) => (r, s2, (l1 ++ l2)%list)
        end
    | (Thrown e, s1, l1) => (Thrown e, s1, l1)
    | (Done r, s1, l1) => (Done r, s1, l1)
    end.

Definition throw {A} (e : string) : M R A := fun s => (Thrown e, s, []).

(** [return r] from the handler, [process.exit(r)] in the script. *)
Definition finish {A} (r : R) : M R A := fun s => (Done r, s, []).

Definition emit (e : Event) : M R unit := fun s => (Val tt, s, [e]).

(** [if (c) { m }] *)
Definition when (c : bool) (m : M R unit) : M R unit :=
  if c then m else ret tt.

(** [try { m } catch (error) { h error }] *)
Definition try_catch {A} (m : M R A) (h : string -> M R A) : M R A :=
  fun s =>
    match m s with
    | (Thrown e, s1, l1) =>
        match h e s1 with
        | (r, s2, l2) => (r, s2, (l1 ++ l2)%list)
        end
    | other => other
    end.

(** [try { m } catch (e) { /* ignore */ }] *)
Definition try_ignore (m : M R unit) : M R unit :=
  try_catch m (fun _ => ret tt).
End Monad.

Declare Scope io_scope.
Delimit Scope io_scope with io.
Notation "x <- m ;; k" := (bind m (fun x => k))
  (at level 100, m at next level, k at level 200, right associativity) : io_scope.
Notation "m ;; k" := (bind m (fun _ => k))
  (at level 100, k at level 200, right associativity) : io_scope.
Local Open Scope io_scope.

(** ** The external calls *)

Definition is_some {A} (o : option A) : bool :=
  match o with Some _ => true | None => false end.

(** How an error object or [null] prints. *)
Definition show_error (o : option string) : string := default "null" o.

(** How an exit status or [null] prints. *)
Definition show_status (o : option Z) : string :=
  match o with Some n => pretty n | None => "null" end.

(** What [fs.createReadStream] returns: a stream over a file that has not
    been opened yet. *)
Record ReadStream := {
  stream_file : string
}.

(** The output path of an encoder run [ffmpeg ... -i <input> ... <output>]:
    its last argument.  The version probe has none. *)
Definition encoder_output (args : list string) : option string :=
  if existsb (String.eqb "-i") args then List.last (map Some args) None else None.

(** [!ff.error && ff.status === 0] *)
Definition exited_ok (r : SpawnSyncReturns) : bool :=
  negb (is_some (sp_error r)) && bool_decide (sp_status r = Some 0).

(** What a child process leaves behind.  An encoder run that was spawned and
    exited with status 0 has written its output file; what a failed run
    leaves at that path, if anything, is not recorded. *)
Definition child_writes (w : World) (args : list string) (r : SpawnSyncReturns)
    (fs : gmap string bytes) : gmap string bytes :=
  if exited_ok r then
    match encoder_output args with
    | Some output => fs_write output (preview_file w) fs
    | None => fs
    end
  else fs.

(** A file is inside a directory when its path is the path of the directory,
    a separator, and more. *)
Definition inside (dir file : string) : bool :=
  startsWith (dir ++ "/") file || startsWith (dir ++ "\") file.

Definition remove_inside (dir : string) (fs : gmap string bytes)
  : gmap string bytes :=
  filter (fun entry => inside dir (fst entry) = false) fs.

Arguments remove_inside : simpl never.

Section Calls.
Context {R : Type} (w : World).

Definition console_log (items : list string) : M R unit :=
  emit (EvConsoleLog items).

Definition console_error (items : list string) : M R unit :=
  emit (EvConsoleError items).

(** [spawnSync(cmd, args)], answered by [r]; the child leaves the files as
    [child_writes] says. *)
Definition spawnSync (cmd : string) (args : list string) (r : SpawnSyncReturns)
  : M R SpawnSyncReturns :=
  emit (EvSpawn cmd args r) ;;
  (fun s => (Val r,
             {| dirs := dirs s;
                files := child_writes w args r (files s);
                store := store s |}, [])).

(** [createClient(url, key)]; the constructor throws on arguments it
    rejects. *)
Definition createClient (url key : string) : M R unit :=
  emit (EvCreateClient url key) ;;
  match createClient_reply w with
  | Some e => throw e
  | None => ret tt
  end.

(** [await supabase.storage.from(bucket).createSignedUrl(path, expiresIn)] *)
Definition createSignedUrl (bucket path : value) (expiresIn : Z)
  : M R SignedUrlReply :=
  emit (EvCreateSignedUrl bucket path expiresIn) ;;
  match createSignedUrl_reply w with
  | Returns r => ret r
  | Throws e => throw e
  end.

(** [await fetch(url)] *)
Definition fetch (url : string) : M R FetchResponse :=
  emit (EvFetch url) ;;
  match fetch_reply w with
  | Returns r => ret r
  | Throws e => throw e
  end.

(** [fs.mkdtempSync(prefix)]: the host appends a suffix of its choice and
    creates the directory. *)
Definition mkdtempSync (prefix : string) : M R string :=
  match mkdtemp_reply w with
  | Returns suffix =>
      let dir := prefix ++ suffix in
      emit (EvMkdtemp prefix dir) ;;
      (fun s => (Val dir,
                 {| dirs := {[dir]} ∪ dirs s; files := files s; store := store s |},
                 []))
  | Throws e => throw e
  end.

(** [path.extname(p)]: a [TypeError] on anything but a string. *)
Definition extname (p : value) : M R string :=
  match p with
  | VStr s => ret (path_extname w s)
  | _ => throw "TypeError [ERR_INVALID_ARG_TYPE]"
  end.

(** [await res.arrayBuffer()] *)
Definition arrayBuffer (res : FetchResponse) : M R bytes :=
  match res_arrayBuffer res with
  | Returns b => ret b
  | Throws e => throw e
  end.

(** [fs.writeFileSync(file, data)] *)
Definition writeFileSync (file : string) (data : bytes) : M R unit :=
  emit (EvWriteFile file data) ;;
  match writeFile_reply w with
  | Some e => throw e
  | None =>
      fun s => (Val tt,
                {| dirs := dirs s;
                   files := fs_write file data (files s);
                   store := store s |}, [])
  end.

(** [fs.createReadStream(file)]: the file is opened and read when the stream
    is consumed. *)
Definition createReadStream (file : string) : M R ReadStream :=
  emit (EvCreateReadStream file) ;; ret {| stream_file := file |}.

(** [await supabase.storage.from(bucket).upload(path, body, opts)], giving
    the [error] of the reply.  The request carries what the stream reads
    from its file; a stream whose file does not exist fails, and the request
    with it.  A request that reaches the store is decided by
    [store_upload]. *)
Definition upload (bucket path : value) (body : ReadStream) (opts : FileOptions)
  : M R (option string) :=
  fun s =>
    match fs_read (stream_file body) (files s) with
    | None =>
        (Thrown ("ENOENT: no such file or directory, open " ++ stream_file body),
         s, [])
    | Some data =>
        match upload_reply w with
        | Throws e => (Thrown e, s, [EvUpload bucket path data opts])
        | Returns (Some err) => (Val (Some err), s, [EvUpload bucket path data opts])
        | Returns None =>
            match store_upload (store s) bucket path data opts with
            | (st, err) =>
                (Val err, {| dirs := dirs s; files := files s; store := st |},
                 [EvUpload bucket path data opts])
            end
        end
    end.

(** [supabase.storage.from(bucket).getPublicUrl(path).data.publicUrl] *)
Definition getPublicUrl (bucket path : value) : M R string :=
  emit (EvGetPublicUrl bucket path) ;; ret (publicUrl_of w bucket path).

(** [fs.rmSync(dir, { recursive: true })]: the directory goes, and the files
    in it. *)
Definition rmSync (dir : string) : M R unit :=
  emit (EvRmSync dir true) ;;
  match rmSync_reply w with
  | Some e => throw e
  | None =>
      fun s => (Val tt,
                {| dirs := dirs s ∖ {[dir]};
                   files := remove_inside dir (files s);
                   store := store s |}, [])
  end.
End Calls.

(** ** The fixed parts of both entry points *)

(** The argument list of the transcoding run. *)
Definition ffmpeg_args (inputPath outputPath : string) : list string :=
  ["-y"; "-i"; inputPath; "-ss"; "0"; "-t"; "30"; "-vn";
   "-acodec"; "libmp3lame"; "-b:a"; "192k"; outputPath].

(** [ff.error || ff.status !== 0] *)
Definition spawn_failed (ff : SpawnSyncReturns) : bool :=
  is_some (sp_error ff) || negb (bool_decide (sp_status ff = Some 0)).

(** [signedErr || !signed?.signedUrl] *)
Definition sign_failed (r : SignedUrlReply) : bool :=
  is_some (su_error r) || negb (truthy_str (su_signedUrl r)).

(** [{ upsert: true }] *)
Definition upload_options : FileOptions :=
  {| cacheControl := None; contentType := None; upsert := Some true |}.

(** [`previews/preview_${Date.now()}.mp3`] *)
Definition default_dest (w : World) : value :=
  VStr ("previews/preview_" ++ pretty (Date_now w) ++ ".mp3").

(** [path.extname(sourcePath) || '.mp3'] *)
Definition ext_or_mp3 (e : string) : string :=
  if String.eqb e "" then ".mp3" else e.

(** ** The request handler *)

Record Request := {
  method : string;
  (** what [req.json()] resolves to, [None] when it rejects *)
  json : option value
}.

Inductive ResponseBody : Type :=
| BText (s : string)
| BJson (v : value).

Record Response := {
  status : Z;
  body : ResponseBody
}.

Definition text_response (code : Z) (s : string) : Response :=
  {| status := code; body := BText s |}.

(** The [try] block of [handler]. *)
Definition handler_try (w : World)
    (sourceBucket sourcePath destBucket destPath : value) : M Response Response :=
  signed <- createSignedUrl w sourceBucket sourcePath 60 ;;
  when (sign_failed signed)
    (console_error ["Failed to create signed URL:"; show_error (su_error signed)] ;;
     finish (text_response 500 "Could not access source object")) ;;
  res <- fetch w (default "" (su_signedUrl signed)) ;;
  when (negb (res_ok res))
    (console_error ["Failed to download source file"] ;;
     finish (text_response 500 "Failed to download source")) ;;
  tmpDir <- mkdtempSync w (path_join w (os_tmpdir w) "preview-") ;;
  e <- extname w sourcePath ;;
  let ext := ext_or_mp3 e in
  let inputPath := path_join w tmpDir ("input" ++ ext) in
  let outputPath := path_join w tmpDir "preview.mp3" in
  buf <- arrayBuffer res ;;
  writeFileSync w inputPath buf ;;
  ff <- spawnSync w "ffmpeg" (ffmpeg_args inputPath outputPath) (ffmpeg_run w) ;;
  when (spawn_failed ff)
    (console_error ["ffmpeg failed:";
                    match sp_error ff with
                    | Some err => err
                    | None => show_status (sp_status ff)
                    end] ;;
     finish (text_response 500 "ffmpeg processing failed")) ;;
  let finalDestPath := js_or destPath (default_dest w) in
  fileStream <- createReadStream outputPath ;;
  uploadError <- upload w destBucket finalDestPath fileStream upload_options ;;
  when (is_some uploadError)
    (console_error ["Upload error:"; show_error uploadError] ;;
     finish (text_response 500 "Failed to upload preview")) ;;
  public <- getPublicUrl w destBucket finalDestPath ;;
  try_ignore (rmSync w tmpDir) ;;
  finish {| status := 200;
            body := BJson (VObj [("publicUrl", VStr public);
                                 ("path", finalDestPath)]) |}.

(** The body of [handler], as written. *)
Definition handler_body (w : World) (req : Request) : M Response Response :=
  when (negb (String.eqb (method req) "POST"))
    (finish (text_response 405 "Method Not Allowed")) ;;
  let SUPABASE_URL := env_SUPABASE_URL w in
  let SUPABASE_SERVICE_ROLE_KEY := env_SUPABASE_SERVICE_ROLE_KEY w in
  when (negb (truthy_str SUPABASE_URL) || negb (truthy_str SUPABASE_SERVICE_ROLE_KEY))
    (console_error ["Missing SUPABASE_URL or SUPABASE_SERVICE_ROLE_KEY"] ;;
     finish (text_response 500 "Server misconfigured")) ;;
  emit EvReadBody ;;
  let body := default VNull (json req) in
  when (negb (truthy body)) (finish (text_response 400 "Bad request")) ;;
  let sourceBucket := field body "sourceBucket" in
  let sourcePath := field body "sourcePath" in
  let destBucket :=
    match field body "destBucket" with
    | VUndefined => VStr "beat-previews"
    | v => v
    end in
  let destPath := field body "destPath" in
  when (negb (truthy sourceBucket) || negb (truthy sourcePath))
    (finish (text_response 400 "Missing sourceBucket or sourcePath")) ;;
  ffCheck <- spawnSync w "ffmpeg" ["-version"] (ffmpeg_version w) ;;
  when (is_some (sp_error ffCheck))
    (console_error ["ffmpeg not found on PATH"] ;;
     finish (text_response 501 "ffmpeg not available on server")) ;;
  createClient w (default "" SUPABASE_URL) (default "" SUPABASE_SERVICE_ROLE_KEY) ;;
  try_catch (handler_try w sourceBucket sourcePath destBucket destPath)
    (fun error =>
       console_error ["Error generating preview:"; error] ;;
       finish (text_response 500 "Error generating preview")).

(** How a call of the handler ends: with a response, or with a rejected
    promise when an exception escapes. *)
Inductive HandlerOutcome : Type :=
| Responds (r : Response)
| Rejects (e : string).

Record Run (O : Type) := {
  outcome : O;
  after : Sys;
  events : list Event
}.
Arguments outcome {O} r.
Arguments after {O} r.
Arguments events {O} r.

(** A call of the function [handler] as it is written. *)
Definition handler (w : World) (req : Request) (s : Sys) : Run HandlerOutcome :=
  match handler_body w req s with
  | (Val r, s', l) | (Done r, s', l) =>
      {| outcome := Responds r; after := s'; events := l |}
  | (Thrown e, s', l) =>
      {| outcome := Rejects e; after := s'; events := l |}
  end.

(** ** The module of the handler, as shipped

    The handler is the default export of an ECMAScript module: the file
    begins with [import] declarations.  Module code is strict mode code, in
    which [implements], [interface], [let], [package], [private],
    [protected], [public], [static] and [yield] are reserved words; a binding
    with one of these names is an early error, and a module with an early
    error is never evaluated, so it exports nothing. *)
Definition strict_reserved_words : list string :=
  ["implements"; "interface"; "let"; "package"; "private"; "protected";
   "public"; "static"; "yield"].

(** The identifiers api/generate-preview.ts binds, each with the line of its
    declaration: the imports, the function and its parameter, and the
    [const] and [catch] bindings of its body. *)
Definition handler_module_bindings : list (nat * string) :=
  [(1, "createClient"); (2, "spawnSync"); (3, "fs"); (4, "path"); (5, "os");
   (7, "handler"); (7, "req");
   (10, "SUPABASE_URL"); (11, "SUPABASE_SERVICE_ROLE_KEY");
   (18, "body");
   (21, "sourceBucket"); (21, "sourcePath"); (21, "destBucket"); (21, "destPath");
   (26, "ffCheck"); (32, "supabase");
   (36, "signed"); (36, "signedErr"); (43, "res");
   (49, "tmpDir"); (50, "ext"); (51, "inputPath"); (52, "outputPath");
   (54, "arrayBuffer");
   (58, "ff"); (64, "finalDestPath"); (67, "fileStream");
   (68, "uploadData"); (68, "uploadError");
   (74, "public"); (77, "e"); (80, "error")]%nat.

Definition is_reserved (name : string) : bool :=
  existsb (String.eqb name) strict_reserved_words.

(** The first early error of a module with these bindings, if any. *)
Definition early_error (bindings : list (nat * string)) : option string :=
  match List.filter (fun b => is_reserved (snd b)) bindings with
  | _ :: _ => Some "SyntaxError: Unexpected strict mode reserved word"
  | [] => None
  end.

(** What a request meets: a module that failed to load, or a call of its
    handler. *)
Inductive Deployed : Type :=
| LoadFails (e : string)
| Answers (r : Run HandlerOutcome).

Definition deployed_handler (w : World) (req : Request) (s : Sys) : Deployed :=
  match early_error handler_module_bindings with
  | Some e => LoadFails e
  | None => Answers (handler w req s)
  end.

(** ** The script *)

(** The [try] block of [main]. *)
Definition main_try (w : World)
    (sourceBucket sourcePath destBucket destPath : value) : M Z unit :=
  console_log ["Creating signed URL for source file..."] ;;
  signed <- createSignedUrl w sourceBucket sourcePath 60 ;;
  when (sign_failed signed)
    (throw (default "Failed to create signed URL" (su_error signed))) ;;
  response <- fetch w (default "" (su_signedUrl signed)) ;;
  when (negb (res_ok response))
    (throw ("Failed to fetch source file: " ++ pretty (res_status response))) ;;
  tmpDir <- mkdtempSync w (path_join w (os_tmpdir w) "preview-") ;;
  e <- extname w sourcePath ;;
  let ext := ext_or_mp3 e in
  let inputPath := path_join w tmpDir ("input" ++ ext) in
  let outputPath := path_join w tmpDir "preview.mp3" in
  arr <- arrayBuffer response ;;
  writeFileSync w inputPath arr ;;
  console_log ["Running ffmpeg to create 30s preview..."] ;;
  ff <- spawnSync w "ffmpeg" (ffmpeg_args inputPath outputPath) (ffmpeg_run w) ;;
  when (spawn_failed ff)
    (throw (default ("ffmpeg exited with " ++ show_status (sp_status ff))
                    (sp_error ff))) ;;
  console_log ["Uploading preview to Supabase storage..."] ;;
  fileStream <- createReadStream outputPath ;;
  uploadError <- upload w destBucket destPath fileStream upload_options ;;
  match uploadError with
  | Some err => throw err
  | None => ret tt
  end ;;
  publicData <- getPublicUrl w destBucket destPath ;;
  console_log ["Preview uploaded successfully!"] ;;
  console_log ["Public URL:"; publicData] ;;
  try_ignore (rmSync w tmpDir) ;;
  finish 0.

(** The body of [main]; [argv] is [process.argv.slice(2)]. *)
Definition main_body (w : World) (argv : list string) : M Z unit :=
  let args := parseArgs argv in
  let sourceBucket := arg args "bucket" in
  let sourcePath := arg args "path" in
  let destBucket := js_or (arg args "destBucket") (VStr "beat-previews") in
  let destPath := js_or (arg args "dest") (default_dest w) in
  when (negb (truthy sourceBucket) || negb (truthy sourcePath))
    (console_error ["ERROR: --bucket and --path are required"] ;;
     finish 2) ;;
  let SUPABASE_URL := env_SUPABASE_URL w in
  let SUPABASE_SERVICE_ROLE_KEY := env_SUPABASE_SERVICE_ROLE_KEY w in
  when (negb (truthy_str SUPABASE_URL) || negb (truthy_str SUPABASE_SERVICE_ROLE_KEY))
    (console_error ["ERROR: SUPABASE_URL and SUPABASE_SERVICE_ROLE_KEY must be set in env"] ;;
     finish 2) ;;
  ffCheck <- spawnSync w "ffmpeg" ["-version"] (ffmpeg_version w) ;;
  when (is_some (sp_error ffCheck))
    (console_error ["ERROR: ffmpeg not found on PATH. Install ffmpeg first (brew/apt/winget/choco)"] ;;
     finish 2) ;;
  createClient w (default "" SUPABASE_URL) (default "" SUPABASE_SERVICE_ROLE_KEY) ;;
  try_catch (main_try w sourceBucket sourcePath destBucket destPath)
    (fun error =>
       console_error ["Error generating preview:"; error] ;;
       finish 1).

(** How a run of the script ends: [process.exit(code)], an exception that
    nothing catches, or falling off the end of [main]. *)
Inductive CliOutcome : Type :=
| Exits (code : Z)
| Unhandled (e : string)
| Returned.

Definition main (w : World) (argv : list string) (s : Sys) : Run CliOutcome :=
  match main_body w argv s with
  | (Done code, s', l) => {| outcome := Exits code; after := s'; events := l |}
  | (Thrown e, s', l) => {| outcome := Unhandled e; after := s'; events := l |}
  | (Val _, s', l) => {| outcome := Returned; after := s'; events := l |}
  end.

(** ** Sample worlds *)

(** [path.extname] of a POSIX host: trailing slashes are dropped; in the
    last segment that is left, the extension runs from the last dot to the
    end, and there is none when the segment has no dot, begins with its last
    dot, or is [..]. *)
Fixpoint drop_slashes (r : list ascii) : list ascii :=
  match r with
  | c :: rest => if Ascii.eqb c "/" then drop_slashes rest else r
  | [] => []
  end.

Fixpoint last_segment (r : list ascii) : list ascii :=
  match r with
  | c :: rest => if Ascii.eqb c "/" then [] else c :: last_segment rest
  | [] => []
  end.

(** On a reversed segment: the part after the last dot, and the reversed
    part before it. *)
Fixpoint split_last_dot (r after : list ascii) : option (list ascii * list ascii) :=
  match r with
  | c :: rest =>
      if Ascii.eqb c "." then Some (after, rest)
      else split_last_dot rest (c :: after)
  | [] => None
  end.

Definition posix_extname (p : string) : string :=
  let segment := last_segment (drop_slashes (rev (String.list_ascii_of_string p))) in
  match split_last_dot segment [] with
  | Some (after, before) =>
      match before, after with
      | [], _ => ""
      | ["."%char], [] => ""
      | _, _ => String.string_of_list_ascii ("."%char :: after)
      end
  | None => ""
  end.

(** [path.join] of a POSIX host, for segments that need no normalising. *)
Definition sample_join (a b : string) : string := a ++ "/" ++ b.

Definition sample_publicUrl (bucket path : value) : string :=
  match bucket, path with
  | VStr b, VStr p => "https://demo.supabase.co/storage/v1/object/public/" ++ b ++ "/" ++ p
  | _, _ => "https://demo.supabase.co/storage/v1/object/public/"
  end.

Definition exit_ok : SpawnSyncReturns := {| sp_error := None; sp_status := Some 0 |}.
Definition exit_1 : SpawnSyncReturns := {| sp_error := None; sp_status := Some 1 |}.
Definition enoent : SpawnSyncReturns :=
  {| sp_error := Some "spawnSync ffmpeg ENOENT"; sp_status := None |}.

Definition source_bytes : bytes := [x52; x49; x46; x46].
Definition preview_bytes : bytes := [x49; x44; x33; x04].
Definition other_preview_bytes : bytes := [x49; x44; x33; x03; x00].

(** Every call succeeds. *)
Definition world_ok : World := {|
  env_SUPABASE_URL := Some "https://demo.supabase.co";
  env_SUPABASE_SERVICE_ROLE_KEY := Some "service-role-key";
  Date_now := 1700000000000;
  os_tmpdir := "/tmp";
  path_join := sample_join;
  path_extname := posix_extname;
  ffmpeg_version := exit_ok;
  createClient_reply := None;
  createSignedUrl_reply :=
    Returns {| su_signedUrl := Some "https://demo.supabase.co/sign/beats/mp3/track1.wav?token=t";
               su_error := None |};
  fetch_reply :=
    Returns {| res_ok := true; res_status := 200;
               res_arrayBuffer := Returns source_bytes |};
  mkdtemp_reply := Returns "a1B2c3";
  writeFile_reply := None;
  ffmpeg_run := exit_ok;
  preview_file := preview_bytes;
  upload_reply := Returns None;
  publicUrl_of := sample_publicUrl;
  rmSync_reply := None
|}.

Definition with_ffmpeg_run (r : SpawnSyncReturns) (w : World) : World := {|
  env_SUPABASE_URL := env_SUPABASE_URL w;
  env_SUPABASE_SERVICE_ROLE_KEY := env_SUPABASE_SERVICE_ROLE_KEY w;
  Date_now := Date_now w;
  os_tmpdir := os_tmpdir w;
  path_join := path_join w;
  path_extname := path_extname w;
  ffmpeg_version := ffmpeg_version w;
  createClient_reply := createClient_reply w;
  createSignedUrl_reply := createSignedUrl_reply w;
  fetch_reply := fetch_reply w;
  mkdtemp_reply := mkdtemp_reply w;
  writeFile_reply := writeFile_reply w;
  ffmpeg_run := r;
  preview_file := preview_file w;
  upload_reply := upload_reply w;
  publicUrl_of := publicUrl_of w;
  rmSync_reply := rmSync_reply w
|}.

Definition with_ffmpeg_version (r : SpawnSyncReturns) (w : World) : World := {|
  env_SUPABASE_URL := env_SUPABASE_URL w;
  env_SUPABASE_SERVICE_ROLE_KEY := env_SUPABASE_SERVICE_ROLE_KEY w;
  Date_now := Date_now w;
  os_tmpdir := os_tmpdir w;
  path_join := path_join w;
  path_extname := path_extname w;
  ffmpeg_version := r;
  createClient_reply := createClient_reply w;
  createSignedUrl_reply := createSignedUrl_reply w;
  fetch_reply := fetch_reply w;
  mkdtemp_reply := mkdtemp_reply w;
  writeFile_reply := writeFile_reply w;
  ffmpeg_run := ffmpeg_run w;
  preview_file := preview_file w;
  upload_reply := upload_reply w;
  publicUrl_of := publicUrl_of w;
  rmSync_reply := rmSync_reply w
|}.


Definition with_createSignedUrl (r : reply SignedUrlReply) (w : World) : World := {|
  env_SUPABASE_URL := env_SUPABASE_URL w;
  env_SUPABASE_SERVICE_ROLE_KEY := env_SUPABASE_SERVICE_ROLE_KEY w;
  Date_now := Date_now w;
  os_tmpdir := os_tmpdir w;
  path_join := path_join w;
  path_extname := path_extname w;
  ffmpeg_version := ffmpeg_version w;
  createClient_reply := createClient_reply w;
  createSignedUrl_reply := r;
  fetch_reply := fetch_reply w;
  mkdtemp_reply := mkdtemp_reply w;
  writeFile_reply := writeFile_reply w;
  ffmpeg_run := ffmpeg_run w;
  preview_file := preview_file w;
  upload_reply := upload_reply w;
  publicUrl_of := publicUrl_of w;
  rmSync_reply := rmSync_reply w
|}.

Definition with_upload (r : reply (option string)) (w : World) : World := {|
  env_SUPABASE_URL := env_SUPABASE_URL w;
  env_SUPABASE_SERVICE_ROLE_KEY := env_SUPABASE_SERVICE_ROLE_KEY w;
  Date_now := Date_now w;
  os_tmpdir := os_tmpdir w;
  path_join := path_join w;
  path_extname := path_extname w;
  ffmpeg_version := ffmpeg_version w;
  createClient_reply := createClient_reply w;
  createSignedUrl_reply := createSignedUrl_reply w;
  fetch_reply := fetch_reply w;
  mkdtemp_reply := mkdtemp_reply w;
  writeFile_reply := writeFile_reply w;
  ffmpeg_run := ffmpeg_run w;
  preview_file := preview_file w;
  upload_reply := r;
  publicUrl_of := publicUrl_of w;
  rmSync_reply := rmSync_reply w
|}.

Definition with_fetch (r : reply FetchResponse) (w : World) : World := {|
  env_SUPABASE_URL := env_SUPABASE_URL w;
  env_SUPABASE_SERVICE_ROLE_KEY := env_SUPABASE_SERVICE_ROLE_KEY w;
  Date_now := Date_now w;
  os_tmpdir := os_tmpdir w;
  path_join := path_join w;
  path_extname := path_extname w;
  ffmpeg_version := ffmpeg_version w;
  createClient_reply := createClient_reply w;
  createSignedUrl_reply := createSignedUrl_reply w;
  fetch_reply := r;
  mkdtemp_reply := mkdtemp_reply w;
  writeFile_reply := writeFile_reply w;
  ffmpeg_run := ffmpeg_run w;
  preview_file := preview_file w;
  upload_reply := upload_reply w;
  publicUrl_of := publicUrl_of w;
  rmSync_reply := rmSync_reply w
|}.

(** A second invocation: another scratch directory, another encoding. *)
Definition with_second_run (w : World) : World := {|
  env_SUPABASE_URL := env_SUPABASE_URL w;
  env_SUPABASE_SERVICE_ROLE_KEY := env_SUPABASE_SERVICE_ROLE_KEY w;
  Date_now := Date_now w + 5000;
  os_tmpdir := os_tmpdir w;
  path_join := path_join w;
  path_extname := path_extname w;
  ffmpeg_version := ffmpeg_version w;
  createClient_reply := createClient_reply w;
  createSignedUrl_reply := createSignedUrl_reply w;
  fetch_reply := fetch_reply w;
  mkdtemp_reply := Returns "Zz9Yy8";
  writeFile_reply := writeFile_reply w;
  ffmpeg_run := ffmpeg_run w;
  preview_file := other_preview_bytes;
  upload_reply := upload_reply w;
  publicUrl_of := publicUrl_of w;
  rmSync_reply := rmSync_reply w
|}.

Definition sys0 : Sys := {| dirs := ∅; files := ∅; store := [] |}.

Definition request_ok : Request := {|
  method := "POST";
  json := Some (VObj [("sourceBucket", VStr "beats");
                      ("sourcePath", VStr "mp3/track1.wav");
                      ("destPath", VStr "previews/preview_track1.mp3")])
|}.

Definition argv_ok : list string :=
  ["--bucket"; "beats"; "--path"; "mp3/track1.wav"; "--dest"; "previews/preview_track1.mp3"].

Definition scratch_dir : string := "/tmp/preview-a1B2c3".

(** ** Predicates used in the statements *)

(** A property holds some truthy value. *)
Definition set_truthy (k : string) (out : gmap string value) : Prop :=
  exists v, out !! k = Some v /\ truthy v = true.

(** A call that reaches the source store: signing a URL for the source
    object, or fetching it. *)
Definition touches_source (e : Event) : bool :=
  match e with
  | EvCreateSignedUrl _ _ _ | EvFetch _ => true
  | _ => false
  end.

Definition is_upload (e : Event) : Prop :=
  exists bucket path body opts, e = EvUpload bucket path body opts.

(** A transcoding run of the encoder that was spawned and exited with
    status 0. *)
Definition transcode_succeeded (e : Event) : Prop :=
  exists inputPath outputPath r,
    e = EvSpawn "ffmpeg" (ffmpeg_args inputPath outputPath) r /\
    sp_error r = None /\ sp_status r = Some 0.

(** Every event of the second kind has an event of the first kind before
    it. *)
Definition preceded_by (P Q : Event -> Prop) (l : list Event) : Prop :=
  forall l1 e l2, l = (l1 ++ e :: l2)%list -> Q e -> exists e', In e' l1 /\ P e'.

(** No upload is among the events. *)
Definition no_upload (l : list Event) : Prop :=
  Forall (fun e => ~ is_upload e) l.

(** Every encoder run other than the version probe is the fixed transcoding
    command, writing [preview.mp3] inside a scratch directory this invocation
    created. *)
Definition fixed_policy (w : World) (l : list Event) : Prop :=
  forall cmd args r,
    In (EvSpawn cmd args r) l ->
    args <> ["-version"] ->
    exists prefix dir inputPath,
      cmd = "ffmpeg" /\
      args = ["-y"; "-i"; inputPath; "-ss"; "0"; "-t"; "30"; "-vn";
              "-acodec"; "libmp3lame"; "-b:a"; "192k";
              path_join w dir "preview.mp3"] /\
      In (EvMkdtemp prefix dir) l.

(** The command line passes every check in front of the pipeline and the
    client is constructed. *)
Definition cli_ready (w : World) (argv : list string) : Prop :=
  In "--bucket" argv /\
  In "--path" argv /\
  truthy_str (env_SUPABASE_URL w) = true /\
  truthy_str (env_SUPABASE_SERVICE_ROLE_KEY w) = true /\
  sp_error (ffmpeg_version w) = None /\
  createClient_reply w = None.

Definition is_returned {A} (r : reply A) : bool :=
  match r with Returns _ => true | Throws _ => false end.

(** Signing, fetching, creating the scratch directory and writing the input
    file all succeed, so the transcoding run is reached. *)
Definition transcode_reached (w : World) (sourcePath : value) : bool :=
  match createSignedUrl_reply w, fetch_reply w, mkdtemp_reply w, sourcePath with
  | Returns signed, Returns res, Returns _, VStr _ =>
      negb (sign_failed signed) && res_ok res &&
      is_returned (res_arrayBuffer res) && negb (is_some (writeFile_reply w))
  | _, _, _, _ => false
  end.

(** Every stage succeeds: the above, the transcoding run exits with status 0
    and the upload is accepted. *)
Definition pipeline_ok (w : World) (sourcePath : value) : bool :=
  transcode_reached w sourcePath &&
  negb (spawn_failed (ffmpeg_run w)) &&
  match upload_reply w with Returns None => true | _ => false end.

(** The scratch directory an invocation creates. *)
Definition scratch_of (w : World) : string :=
  path_join w (os_tmpdir w) "preview-" ++
  match mkdtemp_reply w with Returns suffix => suffix | Throws _ => "" end.

(** The destination the script publishes to. *)
Definition cli_destBucket (argv : list string) : value :=
  js_or (arg (parseArgs argv) "destBucket") (VStr "beat-previews").

Definition cli_destPath (w : World) (argv : list string) : value :=
  js_or (arg (parseArgs argv) "dest") (default_dest w).

(** The scratch directories after a run that got as far as removing its
    own. *)
Definition dirs_after_cleanup (w : World) (s : Sys) : gset string :=
  match rmSync_reply w with
  | Some _ => {[scratch_of w]} ∪ dirs s
  | None => ({[scratch_of w]} ∪ dirs s) ∖ {[scratch_of w]}
  end.

Definition with_env (url key : option string) (w : World) : World := {|
  env_SUPABASE_URL := url;
  env_SUPABASE_SERVICE_ROLE_KEY := key;
  Date_now := Date_now w;
  os_tmpdir := os_tmpdir w;
  path_join := path_join w;
  path_extname := path_extname w;
  ffmpeg_version := ffmpeg_version w;
  createClient_reply := createClient_reply w;
  createSignedUrl_reply := createSignedUrl_reply w;
  fetch_reply := fetch_reply w;
  mkdtemp_reply := mkdtemp_reply w;
  writeFile_reply := writeFile_reply w;
  ffmpeg_run := ffmpeg_run w;
  preview_file := preview_file w;
  upload_reply := upload_reply w;
  publicUrl_of := publicUrl_of w;
  rmSync_reply := rmSync_reply w
|}.

Definition request_get : Request := {| method := "GET"; json := None |}.

(** The object a run publishes. *)
Definition published (bucket path : value) (body : bytes) : StoredObject :=
  {| obj_bucket := bucket; obj_key := path; obj_body := body |}.

Definition argv_no_bucket : list string := ["--path"; "mp3/track1.wav"].

Definition argv_bare_bucket : list string := ["--bucket"; "--path"; "mp3/track1.wav"].

(** ** The checks and the stages of the script, by what the world answers *)

(** An environment variable is set, and not to the empty string. *)
Definition env_set (o : option string) : Prop :=
  exists v, o = Some v /\ v <> "".

(** Both flags are given, both variables are set, the version probe was
    spawned and the client was constructed. *)
Definition past_the_checks (w : World) (argv : list string) : Prop :=
  In "--bucket" argv /\
  In "--path" argv /\
  env_set (env_SUPABASE_URL w) /\
  env_set (env_SUPABASE_SERVICE_ROLE_KEY w) /\
  sp_error (ffmpeg_version w) = None /\
  createClient_reply w = None.

(** The store signs a URL for the source object. *)
Definition signing_succeeds (w : World) : Prop :=
  exists signed url,
    createSignedUrl_reply w = Returns signed /\
    su_error signed = None /\
    su_signedUrl signed = Some url /\ url <> "".

(** The store returns an error for the signed URL, returns no URL, or the
    call throws. *)
Definition signing_fails (w : World) : Prop :=
  (exists e, createSignedUrl_reply w = Throws e) \/
  (exists signed,
     createSignedUrl_reply w = Returns signed /\
     (su_error signed <> None \/
      su_signedUrl signed = None \/ su_signedUrl signed = Some "")).

(** The source object is fetched with an [ok] status and its body is read. *)
Definition fetch_succeeds (w : World) : Prop :=
  exists res buf,
    fetch_reply w = Returns res /\
    res_ok res = true /\ res_arrayBuffer res = Returns buf.

(** The fetch throws, answers with a status that is not [ok], or the body
    cannot be read. *)
Definition fetch_fails (w : World) : Prop :=
  (exists e, fetch_reply w = Throws e) \/
  (exists res,
     fetch_reply w = Returns res /\
     (res_ok res = false \/ exists e, res_arrayBuffer res = Throws e)).

(** The scratch directory is created, the source path has an extension to
    take, and the input file is written. *)
Definition scratch_succeeds (w : World) (sourcePath : value) : Prop :=
  (exists suffix, mkdtemp_reply w = Returns suffix) /\
  (exists p, sourcePath = VStr p) /\
  writeFile_reply w = None.

Definition scratch_fails (w : World) (sourcePath : value) : Prop :=
  (exists e, mkdtemp_reply w = Throws e) \/
  (forall p, sourcePath <> VStr p) \/
  writeFile_reply w <> None.

(** The encoder was spawned and exited with status 0. *)
Definition transcode_succeeds (w : World) : Prop :=
  sp_error (ffmpeg_run w) = None /\ sp_status (ffmpeg_run w) = Some 0.

(** The encoder could not be spawned, or exited with another status or
    none. *)
Definition transcode_fails (w : World) : Prop :=
  sp_error (ffmpeg_run w) <> None \/ sp_status (ffmpeg_run w) <> Some 0.

(** The store accepts the upload. *)
Definition upload_succeeds (w : World) : Prop :=
  upload_reply w = Returns None.

(** The store returns an error for the upload, or the call throws. *)
Definition upload_fails (w : World) : Prop :=
  (exists e, upload_reply w = Throws e) \/
  (exists err, upload_reply w = Returns (Some err)).

(** Every stage of the pipeline is answered with success. *)
Definition every_stage_succeeds (w : World) (sourcePath : value) : Prop :=
  signing_succeeds w /\ fetch_succeeds w /\ scratch_succeeds w sourcePath /\
  transcode_succeeds w /\ upload_succeeds w.

(** A variable is not set, or set to the empty string. *)
Definition env_unset (o : option string) : Prop :=
  o = None \/ o = Some "".

(** [SUPABASE_URL] is not set. *)
Definition world_env_unset : World :=
  with_env None (Some "service-role-key") world_ok.

(** The store refuses to sign: it returns an error and no URL. *)
Definition world_sign_refused : World :=
  with_createSignedUrl
    (Returns {| su_signedUrl := None; su_error := Some "Object not found" |})
    world_ok.

(** The source answers 404. *)
Definition world_fetch_404 : World :=
  with_fetch
    (Returns {| res_ok := false; res_status := 404;
                res_arrayBuffer := Returns [] |})
    world_ok.

(** The store returns an error for the upload. *)
Definition world_upload_refused : World :=
  with_upload (Returns (Some "Bucket not found")) world_ok.

(** * The payment webhook, the subscription service and the client helpers

    The other handler of the API ([PaystackWebhook.handler]) and the service
    it calls ([SubscriptionService]), the configuration of the storage client
    ([SupabaseConfig]) and the pure parts of the rendering helpers
    ([PerformanceOptimizations]). *)

(** ** More of JavaScript's values *)

Definition has_key (name : string) (props : list (string * value)) : bool :=
  existsb (fun kv => String.eqb (fst kv) name) props.

(** [String(v)], as template literals and property keys apply it; [None] is
    the [TypeError] of an object whose own [toString] is not a function (any
    own [toString] of a parsed JSON object).  Array elements [null] and
    [undefined] print as nothing. *)
Fixpoint to_string (v : value) : option string :=
  match v with
  | VUndefined => Some "undefined"
  | VNull => Some "null"
  | VBool b => Some (if b then "true" else "false")
  | VNum n => Some (pretty n)
  | VFloat printed => Some printed
  | VStr s => Some s
  | VArr items =>
      (fix join (l : list value) : option string :=
         match l with
         | [] => Some ""
         | x :: rest =>
             match (match x with
                    | VUndefined | VNull => Some ""
                    | _ => to_string x
                    end) with
             | None => None
             | Some sx =>
                 match rest with
                 | [] => Some sx
                 | _ :: _ =>
                     match join rest with
                     | None => None
                     | Some sr => Some (sx ++ "," ++ sr)
                     end
                 end
             end
         end) items
  | VObj props => if has_key "toString" props then None else Some "[object Object]"
  end.

(** [v.name]: a [TypeError] on [null] and [undefined], an own property of an
    object, [undefined] on the other values (the names read are on no
    prototype). *)
Definition member (v : value) (name : string) : reply value :=
  match v with
  | VUndefined | VNull => Throws "TypeError: Cannot read properties of undefined"
  | VObj props => Returns (get_prop name props)
  | _ => Returns VUndefined
  end.

(** [s.includes(needle)] *)
Fixpoint includes (s needle : string) : bool :=
  startsWith needle s ||
  match s with
  | "" => false
  | String _ rest => includes rest needle
  end.

(** ** Effects without state: events, exceptions and early return *)

Definition Eff (E R A : Type) : Type := step R A * list E.

Module Fx.
Section Fx.
Context {E R : Type}.

Definition ret {A} (a : A) : Eff E R A := (Val a, []).

Definition bind {A B} (m : Eff E R A) (k : A -> Eff E R B) : Eff E R B :=
  match m with
  | (Val a, l1) =>
      match k a with
      | (r, l2) => (r, (l1 ++ l2)%list)
      end
  | (Thrown e, l1) => (Thrown e, l1)
  | (Done r, l1) => (Done r, l1)
  end.

Definition throw {A} (e : string) : Eff E R A := (Thrown e, []).

(** [return r] *)
Definition finish {A} (r : R) : Eff E R A := (Done r, []).

Definition emit (e : E) : Eff E R unit := (Val tt, [e]).

(** [if (c) { m }] *)
Definition when (c : bool) (m : Eff E R unit) : Eff E R unit :=
  if c then m else ret tt.

(** [try { m } catch (error) { h error }] *)
Definition try_catch {A} (m : Eff E R A) (h : string -> Eff E R A) : Eff E R A :=
  match m with
  | (Thrown e, l1) =>
      match h e with
      | (r, l2) => (r, (l1 ++ l2)%list)
      end
  | other => other
  end.

(** A call that returns or throws. *)
Definition of_reply {A} (r : reply A) : Eff E R A :=
  match r with
  | Returns a => ret a
  | Throws e => throw e
  end.
End Fx.

(** [await f(...)]: the callee's [return] ends the callee, not the caller. *)
Definition call {E R A : Type} (m : Eff E A A) : Eff E R A :=
  match m with
  | (Val a, l) | (Done a, l) => (Val a, l)
  | (Thrown e, l) => (Thrown e, l)
  end.
End Fx.

Declare Scope fx_scope.
Delimit Scope fx_scope with fx.
Notation "x <- m ;; k" := (Fx.bind m (fun x => k))
  (at level 100, m at next level, k at level 200, right associativity) : fx_scope.
Notation "m ;; k" := (Fx.bind m (fun _ => k))
  (at level 100, k at level 200, right associativity) : fx_scope.

(** ** The database and the console, as the services see them *)

Inductive SvcEvent : Type :=
| SvReadBody
| SvConsoleLog (items : list string)
| SvConsoleWarn (items : list string)
| SvConsoleError (items : list string)
| SvSelect (table columns column : string) (v : value)
| SvInsert (table : string) (row : value)
| SvUpdate (table : string) (patch : value) (column : string) (v : value)
| SvRpc (fn : string) (params : value).

(** The replies to one webhook delivery: the clock, the host's arithmetic and
    printing, and the answer of the database to each query, by the place of
    the query in the source. *)
Record SvcWorld := {
  (** [new Date().toISOString()] when the named column is filled *)
  toISOString : string -> string;
  (** [getNextBillingDate()] for the profile update and for the result *)
  nextBillingDate_update : string;
  nextBillingDate_result : string;
  (** [Number(v) / 100] for what is not an integer below 10^15: host
      arithmetic *)
  divide_by_100 : value -> value;
  (** how the host prints [Object.prototype[name]] *)
  inherited_text : string -> string;
  env_PAYSTACK_SECRET_KEY : option string;
  profiles_select : reply (value * option string);
  payments_insert : reply (option string);
  profiles_update_plan : reply (option string);
  profiles_reset_count : reply (option string);
  subscription_logs_insert : reply (option string);
  profiles_update_failed : reply (option string);
  affiliate_payouts_insert : reply (option string);
  upgrades_select : reply value
}.

(** The replies to a cancellation or to the activation of the free plan:
    the clock and the answers to the update of the profile and to the insert
    into the log. *)
Record AccountWorld := {
  log_timestamp : string;
  account_update : reply (option string);
  account_log_insert : reply (option string)
}.

(** ** The subscription service *)

Module SubscriptionService.
Local Open Scope fx_scope.

Record UpgradeResult := {
  success : bool;
  message : string;
  newPlan : option value;
  nextBillingDate : option string
}.

Definition failure (msg : string) : UpgradeResult :=
  {| success := false; message := msg; newPlan := None; nextBillingDate := None |}.

(** What [levels[plan]] can be: one of the three numbers, [undefined], or
    something inherited from [Object.prototype]. *)
Inductive level : Type :=
| LNumber (n : Z)
| LUndefined
| LInherited (name : string).

Definition object_prototype_names : list string :=
  ["constructor"; "__defineGetter__"; "__defineSetter__"; "hasOwnProperty";
   "__lookupGetter__"; "__lookupSetter__"; "isPrototypeOf";
   "propertyIsEnumerable"; "toString"; "valueOf"; "__proto__";
   "toLocaleString"].

(** [{ 'Basic': 1, 'Pro': 2, 'Exclusive': 3 }[key]] *)
Definition levels (key : string) : level :=
  if String.eqb key "Basic" then LNumber 1
  else if String.eqb key "Pro" then LNumber 2
  else if String.eqb key "Exclusive" then LNumber 3
  else if existsb (String.eqb key) object_prototype_names then LInherited key
  else LUndefined.

(** [a <= b] and [a > b] on what [getPlanLevel] returns: numbers compare as
    numbers, two inherited members as the strings they print as, and every
    other pair involves [NaN]. *)
Definition level_le (w : SvcWorld) (a b : level) : bool :=
  match a, b with
  | LNumber x, LNumber y => Z.leb x y
  | LInherited p, LInherited q => String.leb (inherited_text w p) (inherited_text w q)
  | _, _ => false
  end.

Definition level_gt (w : SvcWorld) (a b : level) : bool :=
  match a, b with
  | LNumber x, LNumber y => Z.ltb y x
  | LInherited p, LInherited q => String.ltb (inherited_text w q) (inherited_text w p)
  | _, _ => false
  end.

Section Methods.
Context {R : Type} (w : SvcWorld).

Definition console_log (items : list string) : Eff SvcEvent R unit :=
  Fx.emit (SvConsoleLog items).

Definition console_error (items : list string) : Eff SvcEvent R unit :=
  Fx.emit (SvConsoleError items).

(** [`${v}`] *)
Definition str (v : value) : Eff SvcEvent R string :=
  match to_string v with
  | Some s => Fx.ret s
  | None => Fx.throw "TypeError: Cannot convert object to primitive value"
  end.

(** [this.getPlanLevel(plan)] *)
Definition getPlanLevel (plan : value) : Eff SvcEvent R level :=
  key <- str plan ;; Fx.ret (levels key).

(** [await supabase.from(table).select(columns).eq(column, v).single()] *)
Definition select_single {A} (table columns column : string) (v : value)
    (r : reply A) : Eff SvcEvent R A :=
  Fx.emit (SvSelect table columns column v) ;; Fx.of_reply r.

(** [await supabase.from(table).insert(row)], giving [error] *)
Definition insert (table : string) (row : value) (r : reply (option string))
  : Eff SvcEvent R (option string) :=
  Fx.emit (SvInsert table row) ;; Fx.of_reply r.

(** [await supabase.from(table).update(patch).eq(column, v)], giving [error] *)
Definition update (table : string) (patch : value) (column : string) (v : value)
    (r : reply (option string)) : Eff SvcEvent R (option string) :=
  Fx.emit (SvUpdate table patch column v) ;; Fx.of_reply r.

(** [this.sendUpgradeEmail(email, from, to)] *)
Definition sendUpgradeEmail (email from to : value) : Eff SvcEvent R unit :=
  e <- str email ;;
  f <- str from ;;
  t <- str to ;;
  console_log ["Upgrade email sent to " ++ e ++ ": " ++ f ++ " → " ++ t].
End Methods.

(** The [try] block of [upgradeUserPlan]. *)
Definition upgradeUserPlan_try (w : SvcWorld)
    (userId newPlan paymentReference amount : value)
  : Eff SvcEvent UpgradeResult UpgradeResult :=
  r <- select_single "profiles" "*" "id" userId (profiles_select w) ;;
  let user := fst r in
  let userError := snd r in
  Fx.when (is_some userError || negb (truthy user))
    (Fx.finish (failure "User not found")) ;;
  let currentPlan := field user "plan_tier" in
  newLevel <- getPlanLevel newPlan ;;
  currentLevel <- getPlanLevel currentPlan ;;
  Fx.when (level_le w newLevel currentLevel)
    (current <- str currentPlan ;;
     Fx.finish (failure ("You can only upgrade to a higher plan. Current: " ++ current))) ;;
  paymentError <-
    insert "payments"
      (VObj [("user_id", userId);
             ("plan", newPlan);
             ("amount", amount);
             ("payment_reference", paymentReference);
             ("status", VStr "completed");
             ("previous_plan", currentPlan);
             ("payment_date", VStr (toISOString w "payment_date"))])
      (payments_insert w) ;;
  Fx.when (is_some paymentError)
    (console_error ["Payment recording error:"; show_error paymentError] ;;
     Fx.finish (failure "Payment recording failed")) ;;
  updateError <-
    update "profiles"
      (VObj [("plan_tier", newPlan);
             ("subscription_status", VStr "active");
             ("last_payment_date", VStr (toISOString w "last_payment_date"));
             ("next_billing_date", VStr (nextBillingDate_update w))])
      "id" userId (profiles_update_plan w) ;;
  Fx.when (is_some updateError)
    (console_error ["Plan update error:"; show_error updateError] ;;
     Fx.finish (failure "Plan update failed")) ;;
  Fx.when (bool_decide (currentPlan = VStr "Basic") &&
           negb (bool_decide (newPlan = VStr "Basic")))
    (update "profiles" (VObj [("download_count_this_month", VNum 0)])
       "id" userId (profiles_reset_count w) ;;
     Fx.ret tt) ;;
  insert "subscription_logs"
    (VObj [("user_id", userId);
           ("action", VStr "upgrade");
           ("from_plan", currentPlan);
           ("to_plan", newPlan);
           ("timestamp", VStr (toISOString w "timestamp"))])
    (subscription_logs_insert w) ;;
  sendUpgradeEmail (field user "email") currentPlan newPlan ;;
  plan <- str newPlan ;;
  Fx.finish {| success := true;
               message := "Successfully upgraded to " ++ plan ++ " plan!";
               newPlan := Some newPlan;
               nextBillingDate := Some (nextBillingDate_result w) |}.

Definition upgradeUserPlan {R : Type} (w : SvcWorld)
    (userId newPlan paymentReference amount : value)
  : Eff SvcEvent R UpgradeResult :=
  Fx.call
    (Fx.try_catch (upgradeUserPlan_try w userId newPlan paymentReference amount)
       (fun error =>
          console_error ["Upgrade error:"; error] ;;
          Fx.finish (failure "Upgrade failed. Please contact support."))).

(** [if (error) throw error] *)
Definition throw_if {R : Type} (error : option string) : Eff SvcEvent R unit :=
  match error with
  | Some e => Fx.throw e
  | None => Fx.ret tt
  end.

(** The [try] block of [cancelSubscription]. *)
Definition cancelSubscription_try (a : AccountWorld) (userId : value)
  : Eff SvcEvent UpgradeResult UpgradeResult :=
  error <-
    update "profiles"
      (VObj [("subscription_status", VStr "cancelled");
             ("plan_tier", VStr "Basic");
             ("next_billing_date", VNull)])
      "id" userId (account_update a) ;;
  throw_if error ;;
  insert "subscription_logs"
    (VObj [("user_id", userId);
           ("action", VStr "cancel");
           ("timestamp", VStr (log_timestamp a))])
    (account_log_insert a) ;;
  Fx.finish {| success := true;
               message := "Subscription cancelled. You will keep access until the end of your billing period.";
               newPlan := None;
               nextBillingDate := None |}.

Definition cancelSubscription {R : Type} (a : AccountWorld) (userId : value)
  : Eff SvcEvent R UpgradeResult :=
  Fx.call
    (Fx.try_catch (cancelSubscription_try a userId)
       (fun error =>
          console_error ["Cancel error:"; error] ;;
          Fx.finish (failure "Cancellation failed"))).

(** The [try] block of [activateFreeBasicPlan]. *)
Definition activateFreeBasicPlan_try (a : AccountWorld) (userId : value)
  : Eff SvcEvent UpgradeResult UpgradeResult :=
  error <-
    update "profiles"
      (VObj [("plan_tier", VStr "Basic");
             ("subscription_status", VStr "active");
             ("download_count_this_month", VNum 0)])
      "id" userId (account_update a) ;;
  throw_if error ;;
  insert "subscription_logs"
    (VObj [("user_id", userId);
           ("action", VStr "activate");
           ("to_plan", VStr "Basic");
           ("timestamp", VStr (log_timestamp a))])
    (account_log_insert a) ;;
  Fx.finish {| success := true;
               message := "Free Basic plan activated! Enjoy 30 MP3 downloads this month.";
               newPlan := Some (VStr "Basic");
               nextBillingDate := None |}.

Definition activateFreeBasicPlan {R : Type} (a : AccountWorld) (userId : value)
  : Eff SvcEvent R UpgradeResult :=
  Fx.call
    (Fx.try_catch (activateFreeBasicPlan_try a userId)
       (fun error =>
          console_error ["Activate free plan error:"; error] ;;
          Fx.finish (failure "Failed to activate free plan"))).

(** [n / 100] for an integer [n] of at most 15 digits: the quotient when it
    is an integer; otherwise the number with one or two decimals, which the
    host prints as the integer part, a point, and the decimals without a
    trailing zero ([2500.5] for 250050, [-0.05] for -5). *)
Definition decimals (m : Z) : string :=
  if Z.eqb (m mod 10) 0 then pretty (m / 10)%Z
  else if Z.ltb m 10 then "0" ++ pretty m
  else pretty m.

Definition hundredth (n : Z) : value :=
  if Z.eqb (n mod 100) 0 then VNum (n / 100)
  else VFloat ((if Z.ltb n 0 then "-" else "") ++
               pretty (Z.abs n / 100)%Z ++ "." ++ decimals (Z.abs n mod 100)).

(** [Number(v) / 100]: converting an object to a number throws as converting
    it to a string does. *)
Definition div100 {R : Type} (w : SvcWorld) (v : value) : Eff SvcEvent R value :=
  _ <- str (R := R) v ;;
  Fx.ret (match v with
          | VNum n =>
              if Z.ltb (Z.abs n) (10 ^ 15) then hundredth n else divide_by_100 w v
          | _ => divide_by_100 w v
          end).

Definition processSuccessfulCharge (w : SvcWorld) (data : value)
  : Eff SvcEvent unit unit :=
  metadata <- Fx.of_reply (member data "metadata") ;;
  let userId := field metadata "user_id" in
  metadata' <- Fx.of_reply (member data "metadata") ;;
  let plan := field metadata' "plan" in
  Fx.when (truthy userId && truthy plan)
    (reference <- Fx.of_reply (member data "reference") ;;
     amount <- Fx.of_reply (member data "amount") ;;
     amount100 <- div100 w amount ;;
     upgradeUserPlan w userId plan reference amount100 ;;
     Fx.ret tt).

Definition handleFailedRenewal (w : SvcWorld) (data : value)
  : Eff SvcEvent unit unit :=
  metadata <- Fx.of_reply (member data "metadata") ;;
  let userId := field metadata "user_id" in
  Fx.when (truthy userId)
    (update "profiles"
       (VObj [("subscription_status", VStr "failed");
              ("next_billing_date", VNull)])
       "id" userId (profiles_update_failed w) ;;
     Fx.ret tt).

Definition processAffiliatePayout (w : SvcWorld) (data : value)
  : Eff SvcEvent unit unit :=
  metadata <- Fx.of_reply (member data "metadata") ;;
  let affiliateId := field metadata "affiliate_id" in
  raw <- Fx.of_reply (member data "amount") ;;
  amount <- div100 w raw ;;
  Fx.when (truthy affiliateId)
    (insert "affiliate_payouts"
       (VObj [("affiliate_id", affiliateId);
              ("amount", amount);
              ("status", VStr "completed");
              ("paid_at", VStr (toISOString w "paid_at"))])
       (affiliate_payouts_insert w) ;;
     Fx.ret tt).

Record WebhookResult := {
  wh_success : bool;
  wh_error : option string
}.

(** The [try] block of [handlePaymentWebhook]. *)
Definition handlePaymentWebhook_try (w : SvcWorld) (payload : value)
  : Eff SvcEvent WebhookResult WebhookResult :=
  event <- Fx.of_reply (member payload "event") ;;
  data <- Fx.of_reply (member payload "data") ;;
  (if bool_decide (event = VStr "charge.success") then
     Fx.call (processSuccessfulCharge w data)
   else if bool_decide (event = VStr "subscription.not_renew") then
     Fx.call (handleFailedRenewal w data)
   else if bool_decide (event = VStr "transfer.success") then
     Fx.call (processAffiliatePayout w data)
   else Fx.ret tt) ;;
  Fx.finish {| wh_success := true; wh_error := None |}.

Definition handlePaymentWebhook {R : Type} (w : SvcWorld) (payload : value)
  : Eff SvcEvent R WebhookResult :=
  Fx.call
    (Fx.try_catch (handlePaymentWebhook_try w payload)
       (fun error =>
          console_error ["Webhook error:"; error] ;;
          Fx.finish {| wh_success := false; wh_error := Some error |})).

(** The [try] block of [getAvailableUpgrades]. *)
Definition getAvailableUpgrades_try (w : SvcWorld) (userId : value)
  : Eff SvcEvent (list string) (list string) :=
  user <- select_single "profiles" "plan_tier" "id" userId (upgrades_select w) ;;
  Fx.when (negb (truthy user)) (Fx.finish []) ;;
  let currentPlan := field user "plan_tier" in
  let allPlans := ["Basic"; "Pro"; "Exclusive"] in
  currentLevel <- getPlanLevel currentPlan ;;
  Fx.finish (List.filter (fun plan => level_gt w (levels plan) currentLevel) allPlans).

Definition getAvailableUpgrades {R : Type} (w : SvcWorld) (userId : value)
  : Eff SvcEvent R (list string) :=
  Fx.call
    (Fx.try_catch (getAvailableUpgrades_try w userId)
       (fun error =>
          console_error ["Get upgrades error:"; error] ;;
          Fx.finish [])).
End SubscriptionService.

(** ** The payment webhook *)

Module PaystackWebhook.
Local Open Scope fx_scope.

Record WebhookRequest := {
  request : Request;
  (** [req.headers.get('x-paystack-signature')] *)
  x_paystack_signature : option string
}.

(** The [try] block of [handler]. *)
Definition handler_try (w : SvcWorld) (req : WebhookRequest)
  : Eff SvcEvent Response Response :=
  Fx.emit SvReadBody ;;
  payload <- match json (request req) with
             | Some v => Fx.ret v
             | None => Fx.throw "SyntaxError: Unexpected token in JSON"
             end ;;
  let signature := x_paystack_signature req in
  let secret := env_PAYSTACK_SECRET_KEY w in
  SubscriptionService.handlePaymentWebhook w payload ;;
  Fx.finish (text_response 200 "Webhook processed").

Definition handler (w : SvcWorld) (req : WebhookRequest)
  : Eff SvcEvent Response Response :=
  Fx.call
    (Fx.when (negb (String.eqb (method (request req)) "POST"))
       (Fx.finish (text_response 405 "Method not allowed")) ;;
     Fx.try_catch (handler_try w req)
       (fun error =>
          SubscriptionService.console_error ["Webhook error:"; error] ;;
          Fx.finish (text_response 500 "Error processing webhook"))).
End PaystackWebhook.

(** ** The download service *)

Module DownloadService.
Local Open Scope fx_scope.

(** The formats a download can be asked in. *)
Inductive Format : Type := mp3 | wav | stems.

Definition format_text (f : Format) : string :=
  match f with mp3 => "mp3" | wav => "wav" | stems => "stems" end.

(** [format.toUpperCase()] *)
Definition format_upper (f : Format) : string :=
  match f with mp3 => "MP3" | wav => "WAV" | stems => "STEMS" end.

(** A number of downloads: an integer or [Infinity]. *)
Inductive Count : Type :=
| Finite (n : Z)
| Infinity.

(** [Math.max(0, max - used)] *)
Definition remaining_of (max : Count) (used : Z) : Count :=
  match max with
  | Finite m => Finite (Z.max 0 (m - used))
  | Infinity => Infinity
  end.

(** [remaining <= 0] *)
Definition none_left (c : Count) : bool :=
  match c with
  | Finite n => Z.leb n 0
  | Infinity => false
  end.

Definition is_infinity (c : Count) : bool :=
  match c with Infinity => true | Finite _ => false end.

Definition show_count (c : Count) : string :=
  match c with Finite n => pretty n | Infinity => "Infinity" end.

(** The two columns both queries select; the counter is an integer column
    that may be [null]. *)
Record ProfileRow := {
  plan_tier : value;
  download_count_this_month : option Z
}.

Record DownloadStats := {
  plan : value;
  usedThisMonth : Z;
  maxDownloads : Count;
  remaining : Count;
  resetDate : string
}.

Record DownloadPermission := {
  allowed : bool;
  reason : string;
  (** the field [remaining] of the permission *)
  remaining_downloads : Count;
  requiresUpgrade : bool
}.

Record DlWorld := {
  (** [{ data: user }] of the query in [canUserDownload] *)
  permission_select : reply (option ProfileRow);
  (** [{ data: user, error }] of the query in [getUserDownloadStats], the
      error by its message *)
  stats_select : reply (option ProfileRow * option string);
  (** [this.getNextResetDate()] *)
  nextResetDate : string;
  (** [new Date().toISOString()] *)
  created_at : string;
  downloads_insert : reply (option string);
  increment_download : reply (option string);
  increment_user_download : reply (option string)
}.

Definition getMaxDownloads (plan : value) : Count :=
  if bool_decide (plan = VStr "Basic") then Finite 30
  else if bool_decide (plan = VStr "Pro") then Infinity
  else if bool_decide (plan = VStr "Exclusive") then Infinity
  else Finite 0.

Definition canDownloadFormat (plan : value) (format : Format) : bool :=
  if bool_decide (plan = VStr "Basic") then
    match format with mp3 => true | _ => false end
  else if bool_decide (plan = VStr "Pro") then
    match format with mp3 | wav => true | stems => false end
  else if bool_decide (plan = VStr "Exclusive") then true
  else false.

Definition getRequiredPlanForFormat (format : Format) : string :=
  match format with
  | mp3 => "Basic"
  | wav => "Pro"
  | stems => "Exclusive"
  end.

Definition getPlanLevel (plan : value) : Z :=
  if bool_decide (plan = VStr "Basic") then 1
  else if bool_decide (plan = VStr "Pro") then 2
  else if bool_decide (plan = VStr "Exclusive") then 3
  else 0.

Section Methods.
Context {R : Type} (w : DlWorld).

Definition console_error (items : list string) : Eff SvcEvent R unit :=
  Fx.emit (SvConsoleError items).

(** [await supabase.from('profiles')
      .select('plan_tier, download_count_this_month').eq('id', userId)
      .maybeSingle()] *)
Definition select_profile {A} (userId : value) (r : reply A) : Eff SvcEvent R A :=
  Fx.emit (SvSelect "profiles" "plan_tier, download_count_this_month" "id" userId) ;;
  Fx.of_reply r.

(** [await supabase.from(table).insert(rows)], giving [error] *)
Definition insert (table : string) (rows : value) (r : reply (option string))
  : Eff SvcEvent R (option string) :=
  Fx.emit (SvInsert table rows) ;; Fx.of_reply r.

(** [await supabase.rpc(fn, params)], giving [error] *)
Definition rpc (fn : string) (params : value) (r : reply (option string))
  : Eff SvcEvent R (option string) :=
  Fx.emit (SvRpc fn params) ;; Fx.of_reply r.
End Methods.

Definition no_permission (why : string) (upgrade : bool) : DownloadPermission :=
  {| allowed := false; reason := why; remaining_downloads := Finite 0;
     requiresUpgrade := upgrade |}.

(** The [try] block of [getUserDownloadStats]. *)
Definition getUserDownloadStats_try (w : DlWorld) (userId : value)
  : Eff SvcEvent (option DownloadStats) (option DownloadStats) :=
  r <- select_profile userId (stats_select w) ;;
  match fst r, snd r with
  | Some user, None =>
      let maxDownloads := getMaxDownloads (plan_tier user) in
      let used :=
        match download_count_this_month user with
        | Some n => if Z.eqb n 0 then 0 else n
        | None => 0
        end in
      let remaining := remaining_of maxDownloads used in
      Fx.finish (Some {| plan := plan_tier user;
                         usedThisMonth := used;
                         maxDownloads := maxDownloads;
                         remaining := remaining;
                         resetDate := nextResetDate w |})
  | _, error =>
      console_error ["User not found:";
                     match error with
                     | Some msg => if String.eqb msg "" then "No user data" else msg
                     | None => "No user data"
                     end] ;;
      Fx.finish None
  end.

Definition getUserDownloadStats {R : Type} (w : DlWorld) (userId : value)
  : Eff SvcEvent R (option DownloadStats) :=
  Fx.call
    (Fx.try_catch (getUserDownloadStats_try w userId)
       (fun error =>
          console_error ["Error getting download stats:"; error] ;;
          Fx.finish None)).

(** [`${v}`] *)
Definition str {R : Type} (v : value) : Eff SvcEvent R string :=
  match to_string v with
  | Some s => Fx.ret s
  | None => Fx.throw "TypeError: Cannot convert object to primitive value"
  end.

(** The [try] block of [canUserDownload]. *)
Definition canUserDownload_try (w : DlWorld) (userId : value) (format : Format)
    (beatLicenseTier : value) : Eff SvcEvent DownloadPermission DownloadPermission :=
  data <- select_profile userId (permission_select w) ;;
  match data with
  | None => Fx.finish (no_permission "User profile not found" false)
  | Some user =>
      let userPlanLevel := getPlanLevel (plan_tier user) in
      let beatPlanLevel := getPlanLevel beatLicenseTier in
      Fx.when (Z.ltb userPlanLevel beatPlanLevel)
        (tier <- str beatLicenseTier ;;
         Fx.finish (no_permission
                      ("This beat requires " ++ tier ++ " plan or higher") true)) ;;
      Fx.when (negb (canDownloadFormat (plan_tier user) format))
        (Fx.finish (no_permission
                      (format_upper format ++ " downloads require " ++
                       getRequiredPlanForFormat format ++ " plan") true)) ;;
      stats <- getUserDownloadStats w userId ;;
      match stats with
      | None => Fx.finish (no_permission "Could not verify download limits" false)
      | Some stats =>
          Fx.when (none_left (remaining stats) &&
                   negb (is_infinity (maxDownloads stats)))
            (Fx.finish (no_permission
                          ("Monthly download limit reached (" ++
                           show_count (maxDownloads stats) ++ "). Reset on " ++
                           resetDate stats)
                          (bool_decide (plan_tier user = VStr "Basic")))) ;;
          Fx.finish {| allowed := true;
                       reason := "";
                       remaining_downloads := remaining stats;
                       requiresUpgrade := false |}
      end
  end.

Definition canUserDownload {R : Type} (w : DlWorld) (userId : value)
    (format : Format) (beatLicenseTier : value) : Eff SvcEvent R DownloadPermission :=
  Fx.call
    (Fx.try_catch (canUserDownload_try w userId format beatLicenseTier)
       (fun error =>
          console_error ["Error checking download permission:"; error] ;;
          Fx.finish (no_permission "System error checking download permissions" false))).

(** The [try] block of [recordDownload]. *)
Definition recordDownload_try (w : DlWorld) (userId beatId : value) (format : Format)
  : Eff SvcEvent bool bool :=
  downloadError <-
    insert "downloads"
      (VArr [VObj [("user_id", userId);
                   ("beat_id", beatId);
                   ("format", VStr (format_text format));
                   ("created_at", VStr (created_at w))]])
      (downloads_insert w) ;;
  Fx.when (is_some downloadError)
    (console_error ["Error recording download:"; show_error downloadError] ;;
     Fx.finish false) ;;
  beatError <-
    rpc "increment_download"
      (VObj [("beat_id", beatId); ("format_name", VStr (format_text format))])
      (increment_download w) ;;
  Fx.when (is_some beatError)
    (console_error ["Error updating beat download count:"; show_error beatError]) ;;
  userError <-
    rpc "increment_user_download" (VObj [("user_id", userId)])
      (increment_user_download w) ;;
  Fx.when (is_some userError)
    (console_error ["Error updating user download count:"; show_error userError]) ;;
  Fx.finish true.

Definition recordDownload {R : Type} (w : DlWorld) (userId beatId : value)
    (format : Format) : Eff SvcEvent R bool :=
  Fx.call
    (Fx.try_catch (recordDownload_try w userId beatId format)
       (fun error =>
          console_error ["Exception recording download:"; error] ;;
          Fx.finish false)).
End DownloadService.

(** ** Configuration of the storage client *)

Module SupabaseConfig.
Local Open Scope fx_scope.

(** [import.meta.env] and [process.env]; [None] when the object is missing
    (or [import.meta] or [process] itself is). *)
Record Envs := {
  import_meta_env : option (gmap string value);
  process_env : option (gmap string value)
}.

(** [env[key]] *)
Definition env_get (env : gmap string value) (key : string) : value :=
  default VUndefined (env !! key).

Definition getEnvVar (e : Envs) (viteKey nodeKey fallback : string) : string :=
  let from_process :=
    match process_env e with
    | Some env =>
        if truthy (env_get env nodeKey) then
          let value := env_get env nodeKey in
          match value with
          | VStr s => if truthy value then s else fallback
          | _ => fallback
          end
        else fallback
    | None => fallback
    end in
  match import_meta_env e with
  | Some env =>
      if truthy (env_get env viteKey) then
        let value := env_get env viteKey in
        match value with
        | VStr s => if truthy value then s else from_process
        | _ => from_process
        end
      else from_process
  | None => from_process
  end.

Definition fallback_url : string := "https://your-project.supabase.co".
Definition fallback_key : string := "your-anon-key-here".

Definition supabaseUrl (e : Envs) : string :=
  getEnvVar e "VITE_SUPABASE_URL" "SUPABASE_URL" fallback_url.

Definition supabaseAnonKey (e : Envs) : string :=
  getEnvVar e "VITE_SUPABASE_ANON_KEY" "SUPABASE_ANON_KEY" fallback_key.

Definition default_configuration_warning : list SvcEvent :=
  [SvConsoleWarn ["⚠️ Supabase is using default configuration. Please set environment variables:"];
   SvConsoleWarn ["- VITE_SUPABASE_URL / SUPABASE_URL"];
   SvConsoleWarn ["- VITE_SUPABASE_ANON_KEY / SUPABASE_ANON_KEY"]].

(** [s.length]: the UTF-16 code units of a string that is held as UTF-8
    bytes.  A byte that continues a character counts for nothing, a byte
    that begins a character of four bytes for two, any other for one. *)
Fixpoint utf16_length (s : string) : nat :=
  match s with
  | "" => 0
  | String c rest =>
      let b := Ascii.N_of_ascii c in
      ((if (b <? 128)%N then 1
        else if (b <? 192)%N then 0
        else if (b <? 240)%N then 1
        else 2) + utf16_length rest)%nat
  end.

(** What [validateConfig(url, key)] writes to the console. *)
Definition validateConfig (url key : string) : list SvcEvent :=
  ((if includes url "your-project" || includes key "your-anon-key"
    then default_configuration_warning else []) ++
   (if negb (startsWith "https://" url)
    then [SvConsoleError ["❌ Supabase URL must start with https://"]] else []) ++
   (if (utf16_length key <? 20)%nat
    then [SvConsoleWarn ["⚠️ Supabase key appears to be invalid or too short"]]
    else []))%list.

(** The check the module runs when it is loaded. *)
Definition startup (e : Envs) : list SvcEvent :=
  validateConfig (supabaseUrl e) (supabaseAnonKey e).
End SupabaseConfig.

(** ** Rendering helpers *)

Module PerformanceOptimizations.

Inductive ImageFormat : Type := webp | jpg | png.

Definition format_name (f : ImageFormat) : string :=
  match f with
  | webp => "webp"
  | jpg => "jpg"
  | png => "png"
  end.

(** A JavaScript number, as these helpers print and test it: an integer of
    magnitude below 10^21 by its value, any other number by the text
    [toString] gives for it ([0.5], [1e+21], [Infinity], [NaN]). *)
Inductive number : Type :=
| Int (n : Z)
| Other (printed : string).

(** [!!x] *)
Definition number_truthy (x : number) : bool :=
  match x with
  | Int n => negb (Z.eqb n 0)
  | Other printed => negb (String.eqb printed "NaN")
  end.

(** [x.toString()] *)
Definition number_toString (x : number) : string :=
  match x with
  | Int n => pretty n
  | Other printed => printed
  end.

(** The serializer of [URLSearchParams]: letters, digits and [* - . _] stay,
    a space becomes [+], and every other byte is written as [%] and two
    upper-case hexadecimal digits. *)
Definition hex_digit (n : N) : ascii :=
  match n with
  | 0 => "0" | 1 => "1" | 2 => "2" | 3 => "3" | 4 => "4" | 5 => "5"
  | 6 => "6" | 7 => "7" | 8 => "8" | 9 => "9" | 10 => "A" | 11 => "B"
  | 12 => "C" | 13 => "D" | 14 => "E" | _ => "F"
  end%char%N.

Definition form_safe (c : ascii) : bool :=
  let b := Ascii.N_of_ascii c in
  ((48 <=? b) && (b <=? 57) || (65 <=? b) && (b <=? 90) ||
   (97 <=? b) && (b <=? 122) ||
   (b =? 42) || (b =? 45) || (b =? 46) || (b =? 95))%N.

Fixpoint form_encode (s : string) : string :=
  match s with
  | "" => ""
  | String c rest =>
      if form_safe c then String c (form_encode rest)
      else if Ascii.eqb c " " then String "+" (form_encode rest)
      else
        let b := Ascii.N_of_ascii c in
        String "%" (String (hex_digit (b / 16)) (String (hex_digit (b mod 16))
                                                   (form_encode rest)))
  end.

(** [params.toString()]: the pairs as [name=value], each part serialized,
    joined by [&]. *)
Fixpoint params_toString (params : list (string * string)) : string :=
  match params with
  | [] => ""
  | [(k, v)] => form_encode k ++ "=" ++ form_encode v
  | (k, v) :: rest =>
      form_encode k ++ "=" ++ form_encode v ++ "&" ++ params_toString rest
  end.

(** The pairs [optimizeImageUrl] appends, in order; [width] and [height] are
    [None] when the argument is omitted. *)
Definition image_params (width height : option number) (format : option ImageFormat)
  : list (string * string) :=
  ((match width with
    | Some x => if number_truthy x then [("w", number_toString x)] else []
    | None => []
    end) ++
   (match height with
    | Some x => if number_truthy x then [("h", number_toString x)] else []
    | None => []
    end) ++
   [("format", format_name (default webp format)); ("quality", "80")])%list.

Definition optimizeImageUrl (url : string) (width height : option number)
    (format : option ImageFormat) : string :=
  if String.eqb url "" || startsWith "data:" url then url
  else
    let params := image_params width height format in
    if includes url "supabase.co"
    then url ++ "?" ++ params_toString params
    else url.

(** The numbers a window is made of when every argument and both
    measurements are integers: an integer, or what a division by 0
    leaves. *)
Inductive xnum : Type :=
| XInt (n : Z)
| XInf
| XNegInf
| XNaN.

(** [Math.floor(a / b)] and [Math.ceil(a / b)] for integers [a] and [b]. *)
Definition quotient_by_zero (a : Z) : xnum :=
  if Z.eqb a 0 then XNaN else if Z.ltb 0 a then XInf else XNegInf.

Definition floor_div (a b : Z) : xnum :=
  if Z.eqb b 0 then quotient_by_zero a else XInt (a / b).

Definition ceil_div (a b : Z) : xnum :=
  if Z.eqb b 0 then quotient_by_zero a else XInt (- ((- a) / b)).

(** [x + y], [x - y] and [x * y] *)
Definition xadd (x y : xnum) : xnum :=
  match x, y with
  | XInt a, XInt b => XInt (a + b)
  | XNaN, _ | _, XNaN => XNaN
  | XInf, XNegInf | XNegInf, XInf => XNaN
  | XInf, _ | _, XInf => XInf
  | XNegInf, _ | _, XNegInf => XNegInf
  end.

Definition xneg (x : xnum) : xnum :=
  match x with
  | XInt a => XInt (- a)
  | XInf => XNegInf
  | XNegInf => XInf
  | XNaN => XNaN
  end.

Definition xsub (x y : xnum) : xnum := xadd x (xneg y).

Definition xmul (x : xnum) (b : Z) : xnum :=
  match x with
  | XInt a => XInt (a * b)
  | XNaN => XNaN
  | XInf => if Z.eqb b 0 then XNaN else if Z.ltb 0 b then XInf else XNegInf
  | XNegInf => if Z.eqb b 0 then XNaN else if Z.ltb 0 b then XNegInf else XInf
  end.

(** [Math.max(0, x)] and [Math.min(c, x)] *)
Definition max0 (x : xnum) : xnum :=
  match x with
  | XInt a => XInt (Z.max 0 a)
  | XInf => XInf
  | XNegInf => XInt 0
  | XNaN => XNaN
  end.

Definition xmin (c : Z) (x : xnum) : xnum :=
  match x with
  | XInt a => XInt (Z.min c a)
  | XInf => XInt c
  | XNegInf => XNegInf
  | XNaN => XNaN
  end.

(** [Array.from({ length }, (_, index) => start + index)]: the length is
    taken as 0 when it is [NaN] or negative, and an array of more than
    2^32 - 1 elements is a [RangeError]. *)
Definition array_length (length : xnum) : reply nat :=
  match length with
  | XInt n =>
      if Z.leb n 0 then Returns 0%nat
      else if Z.leb n (2 ^ 32 - 1) then Returns (Z.to_nat n)
      else Throws "RangeError: Invalid array length"
  | XInf => Throws "RangeError: Invalid array length"
  | XNegInf | XNaN => Returns 0%nat
  end.

Definition array_from (length : xnum) (start : xnum) : reply (list xnum) :=
  match array_length length with
  | Returns n => Returns (map (fun index => xadd start (XInt (Z.of_nat index))) (seq 0 n))
  | Throws e => Throws e
  end.

(** What one render of [useVirtualScroll] returns. *)
Record VirtualWindow := {
  startIndex : xnum;
  endIndex : xnum;
  visibleItems : list xnum;
  totalHeight : xnum;
  offsetY : xnum;
  viewportHeight : Z
}.

(** The values [useVirtualScroll] computes in one render from the two
    measurements it keeps in state, for integer arguments and measurements
    (counts and whole pixels) whose sums and products stay below 2^53;
    [overscan] is [None] when omitted.  The render throws when the array of
    visible items cannot be made. *)
Definition useVirtualScroll (itemCount itemHeight : Z) (overscan : option Z)
    (scrollTop viewportHeight : Z) : reply VirtualWindow :=
  let overscan := default 3 overscan in
  let startIndex := max0 (xsub (floor_div scrollTop itemHeight) (XInt overscan)) in
  let visibleItemCount :=
    xadd (ceil_div viewportHeight itemHeight) (XInt (2 * overscan)) in
  let endIndex := xmin (itemCount - 1) (xadd startIndex visibleItemCount) in
  match array_from (xadd (xsub endIndex startIndex) (XInt 1)) startIndex with
  | Throws e => Throws e
  | Returns visibleItems =>
      Returns {| startIndex := startIndex;
                 endIndex := endIndex;
                 visibleItems := visibleItems;
                 totalHeight := XInt (itemCount * itemHeight);
                 offsetY := xmul startIndex itemHeight;
                 viewportHeight := viewportHeight |}
  end.
End PerformanceOptimizations.

(** ** Predicates and sample inputs for the statements *)

(** Every event of the second kind has an event of the first kind before
    it. *)
Definition comes_after {E : Type} (P Q : E -> Prop) (l : list E) : Prop :=
  forall l1 e l2, l = (l1 ++ e :: l2)%list -> Q e -> exists e', In e' l1 /\ P e'.

Definition is_profile_select (e : SvcEvent) : Prop :=
  exists v, e = SvSelect "profiles" "*" "id" v.

Definition is_payment_insert (e : SvcEvent) : Prop :=
  exists row, e = SvInsert "payments" row.

Definition is_write (e : SvcEvent) : Prop :=
  (exists table row, e = SvInsert table row) \/
  (exists table patch column v, e = SvUpdate table patch column v).

Definition is_profile_update (e : SvcEvent) : Prop :=
  exists patch column v, e = SvUpdate "profiles" patch column v.

(** The three plans the service knows, by name. *)
Definition known_plan (name : string) : Prop :=
  name = "Basic" \/ name = "Pro" \/ name = "Exclusive".

(** The row [upgradeUserPlan] records for a payment. *)
Definition payment_row (w : SvcWorld)
    (userId newPlan paymentReference amount currentPlan : value) : value :=
  VObj [("user_id", userId);
        ("plan", newPlan);
        ("amount", amount);
        ("payment_reference", paymentReference);
        ("status", VStr "completed");
        ("previous_plan", currentPlan);
        ("payment_date", VStr (toISOString w "payment_date"))].

(** The patch [upgradeUserPlan] applies to the profile. *)
Definition plan_patch (w : SvcWorld) (newPlan : value) : value :=
  VObj [("plan_tier", newPlan);
        ("subscription_status", VStr "active");
        ("last_payment_date", VStr (toISOString w "last_payment_date"));
        ("next_billing_date", VStr (nextBillingDate_update w))].

Definition profile_of (plan : value) : value :=
  VObj [("id", VStr "user-1"); ("email", VStr "fan@example.com");
        ("plan_tier", plan)].

(** A database that accepts everything, holding a profile on the given
    plan. *)
Definition svc_world (plan : value) : SvcWorld := {|
  toISOString := fun _ => "2026-01-31T10:00:00.000Z";
  nextBillingDate_update := "2026-03-03";
  nextBillingDate_result := "2026-03-03";
  divide_by_100 := fun _ => VFloat "NaN";
  inherited_text := fun name => "function " ++ name ++ "() { [native code] }";
  env_PAYSTACK_SECRET_KEY := Some "sk_test_secret";
  profiles_select := Returns (profile_of plan, None);
  payments_insert := Returns None;
  profiles_update_plan := Returns None;
  profiles_reset_count := Returns None;
  subscription_logs_insert := Returns None;
  profiles_update_failed := Returns None;
  affiliate_payouts_insert := Returns None;
  upgrades_select := Returns (profile_of plan)
|}.

Definition charge_payload (plan : value) : value :=
  VObj [("event", VStr "charge.success");
        ("data", VObj [("reference", VStr "ref_123");
                       ("amount", VNum 500000);
                       ("metadata", VObj [("user_id", VStr "user-1");
                                          ("plan", plan)])])].

Definition webhook_post (payload : option value) (signature : option string)
  : PaystackWebhook.WebhookRequest :=
  {| PaystackWebhook.request := {| method := "POST"; json := payload |};
     PaystackWebhook.x_paystack_signature := signature |}.

Definition webhook_get : PaystackWebhook.WebhookRequest :=
  {| PaystackWebhook.request := {| method := "GET"; json := None |};
     PaystackWebhook.x_paystack_signature := None |}.

(** A database that refuses the payment row. *)
Definition svc_world_payment_refused : SvcWorld := {|
  toISOString := toISOString (svc_world (VStr "Basic"));
  nextBillingDate_update := "2026-03-03";
  nextBillingDate_result := "2026-03-03";
  divide_by_100 := divide_by_100 (svc_world (VStr "Basic"));
  inherited_text := inherited_text (svc_world (VStr "Basic"));
  env_PAYSTACK_SECRET_KEY := None;
  profiles_select := Returns (profile_of (VStr "Basic"), None);
  payments_insert := Returns (Some "duplicate key value");
  profiles_update_plan := Returns None;
  profiles_reset_count := Returns None;
  subscription_logs_insert := Returns None;
  profiles_update_failed := Returns None;
  affiliate_payouts_insert := Returns None;
  upgrades_select := Returns (profile_of (VStr "Basic"))
|}.

(** A database that loses the connection when the upgrade is logged. *)
Definition svc_world_log_lost : SvcWorld := {|
  toISOString := toISOString (svc_world (VStr "Basic"));
  nextBillingDate_update := "2026-03-03";
  nextBillingDate_result := "2026-03-03";
  divide_by_100 := divide_by_100 (svc_world (VStr "Basic"));
  inherited_text := inherited_text (svc_world (VStr "Basic"));
  env_PAYSTACK_SECRET_KEY := None;
  profiles_select := Returns (profile_of (VStr "Basic"), None);
  payments_insert := Returns None;
  profiles_update_plan := Returns None;
  profiles_reset_count := Returns None;
  subscription_logs_insert := Throws "TypeError: fetch failed";
  profiles_update_failed := Returns None;
  affiliate_payouts_insert := Returns None;
  upgrades_select := Returns (profile_of (VStr "Basic"))
|}.

(** What an environment has to offer under a key: a string that is not
    empty, or nothing. *)
Definition usable (env : option (gmap string value)) (key : string) : option string :=
  match env with
  | Some m =>
      match m !! key with
      | Some (VStr s) => if String.eqb s "" then None else Some s
      | _ => None
      end
  | None => None
  end.



(** The run of integers from [start] to [stop]. *)
Definition run_of (start stop : Z) : list PerformanceOptimizations.xnum :=
  map (fun index => PerformanceOptimizations.XInt (start + Z.of_nat index))
      (seq 0 (Z.to_nat (stop - start + 1))).

Definition vite_only : SupabaseConfig.Envs :=
  {| SupabaseConfig.import_meta_env :=
       Some (<["VITE_SUPABASE_URL" := VStr "https://abc.supabase.co"]>
               (<["DEV" := VBool true]> ∅));
     SupabaseConfig.process_env := None |}.

(** A Basic profile with the given counter. *)
Definition basic_row (count : option Z) : DownloadService.ProfileRow :=
  {| DownloadService.plan_tier := VStr "Basic";
     DownloadService.download_count_this_month := count |}.

(** Both queries find the given row; every write is accepted. *)
Definition dl_world (row : DownloadService.ProfileRow) : DownloadService.DlWorld := {|
  DownloadService.permission_select := Returns (Some row);
  DownloadService.stats_select := Returns (Some row, None);
  DownloadService.nextResetDate := "2026-02-01";
  DownloadService.created_at := "2026-01-31T10:00:00.000Z";
  DownloadService.downloads_insert := Returns None;
  DownloadService.increment_download := Returns None;
  DownloadService.increment_user_download := Returns (Some "function not found")
|}.

Definition profile_select_event (userId : value) : SvcEvent :=
  SvSelect "profiles" "plan_tier, download_count_this_month" "id" userId.

(** [user.download_count_this_month || 0] *)
Definition used_of (row : DownloadService.ProfileRow) : Z :=
  default 0 (DownloadService.download_count_this_month row).

(** A database that returns an error for the update of a failed renewal and
    for the row of a payout. *)
Definition svc_world_writes_refused : SvcWorld := {|
  toISOString := toISOString (svc_world (VStr "Pro"));
  nextBillingDate_update := "2026-03-03";
  nextBillingDate_result := "2026-03-03";
  divide_by_100 := divide_by_100 (svc_world (VStr "Pro"));
  inherited_text := inherited_text (svc_world (VStr "Pro"));
  env_PAYSTACK_SECRET_KEY := None;
  profiles_select := Returns (profile_of (VStr "Pro"), None);
  payments_insert := Returns None;
  profiles_update_plan := Returns None;
  profiles_reset_count := Returns None;
  subscription_logs_insert := Returns None;
  profiles_update_failed := Returns (Some "permission denied for table profiles");
  affiliate_payouts_insert := Returns (Some "relation does not exist");
  upgrades_select := Returns (profile_of (VStr "Pro"))
|}.

(** The patch [handleFailedRenewal] applies to the profile. *)
Definition failed_patch : value :=
  VObj [("subscription_status", VStr "failed"); ("next_billing_date", VNull)].

Definition webhook_ok : SubscriptionService.WebhookResult :=
  {| SubscriptionService.wh_success := true;
     SubscriptionService.wh_error := None |}.

(** The patches [cancelSubscription] and [activateFreeBasicPlan] apply to the
    profile. *)
Definition cancel_patch : value :=
  VObj [("subscription_status", VStr "cancelled");
        ("plan_tier", VStr "Basic");
        ("next_billing_date", VNull)].

Definition activate_patch : value :=
  VObj [("plan_tier", VStr "Basic");
        ("subscription_status", VStr "active");
        ("download_count_this_month", VNum 0)].

(** A database that takes the update and loses the connection at the log. *)
Definition account_world_log_lost : AccountWorld := {|
  log_timestamp := "2026-01-31T10:00:00.000Z";
  account_update := Returns None;
  account_log_insert := Throws "TypeError: fetch failed"
|}.
(** * Properties *)

(** ** Sample runs *)

Example parseArgs_usage :
  parseArgs ["--bucket"; "beats"; "--path"; "mp3/123.mp3"; "--dest"; "previews/preview_123.mp3"]
  = <["dest" := VStr "previews/preview_123.mp3"]>
      (<["path" := VStr "mp3/123.mp3"]> (<["bucket" := VStr "beats"]> ∅)).
Proof. reflexivity. Qed.

Example parseArgs_bare_last :
  parseArgs ["--path"; "mp3/123.mp3"; "--bucket"]
  = <["bucket" := VBool true]> (<["path" := VStr "mp3/123.mp3"]> ∅).
Proof. reflexivity. Qed.

Example parseArgs_empty_value :
  parseArgs ["--bucket"; ""] = <["bucket" := VBool true]> ∅.
Proof. reflexivity. Qed.

Example parseArgs_proto :
  parseArgs ["--__proto__"; "x"; "--bucket"; "beats"] = <["bucket" := VStr "beats"]> ∅.
Proof. reflexivity. Qed.

Example main_ok_run :
  outcome (main world_ok argv_ok sys0) = Exits 0 /\
  events (main world_ok argv_ok sys0) =
    [ EvSpawn "ffmpeg" ["-version"] exit_ok;
      EvCreateClient "https://demo.supabase.co" "service-role-key";
      EvConsoleLog ["Creating signed URL for source file..."];
      EvCreateSignedUrl (VStr "beats") (VStr "mp3/track1.wav") 60;
      EvFetch "https://demo.supabase.co/sign/beats/mp3/track1.wav?token=t";
      EvMkdtemp "/tmp/preview-" scratch_dir;
      EvWriteFile "/tmp/preview-a1B2c3/input.wav" source_bytes;
      EvConsoleLog ["Running ffmpeg to create 30s preview..."];
      EvSpawn "ffmpeg"
        ["-y"; "-i"; "/tmp/preview-a1B2c3/input.wav"; "-ss"; "0"; "-t"; "30"; "-vn";
         "-acodec"; "libmp3lame"; "-b:a"; "192k"; "/tmp/preview-a1B2c3/preview.mp3"]
        exit_ok;
      EvConsoleLog ["Uploading preview to Supabase storage..."];
      EvCreateReadStream "/tmp/preview-a1B2c3/preview.mp3";
      EvUpload (VStr "beat-previews") (VStr "previews/preview_track1.mp3")
        preview_bytes upload_options;
      EvGetPublicUrl (VStr "beat-previews") (VStr "previews/preview_track1.mp3");
      EvConsoleLog ["Preview uploaded successfully!"];
      EvConsoleLog ["Public URL:";
                    "https://demo.supabase.co/storage/v1/object/public/beat-previews/previews/preview_track1.mp3"];
      EvRmSync scratch_dir true ] /\
  store (after (main world_ok argv_ok sys0))
  = [published (VStr "beat-previews") (VStr "previews/preview_track1.mp3") preview_bytes] /\
  map_to_list (files (after (main world_ok argv_ok sys0))) = [] /\
  elements (dirs (after (main world_ok argv_ok sys0))) = [].
Proof. repeat split; vm_compute; reflexivity. Qed.

(** A transcoding run that exits with 1 leaves the input file behind, in the
    scratch directory. *)
Example main_failed_run :
  outcome (main (with_ffmpeg_run exit_1 world_ok) argv_ok sys0) = Exits 1 /\
  map_to_list (files (after (main (with_ffmpeg_run exit_1 world_ok) argv_ok sys0)))
  = [("/tmp/preview-a1B2c3/input.wav", source_bytes)] /\
  elements (dirs (after (main (with_ffmpeg_run exit_1 world_ok) argv_ok sys0)))
  = [scratch_dir].
Proof. repeat split; vm_compute; reflexivity. Qed.

Example posix_extname_samples :
  map posix_extname ["mp3/track1.wav"; "a/b.tar.gz"; ".bashrc"; "a/.."; "a.b/"; "x."; "noext"]
  = [".wav"; ".gz"; ""; ""; ".b"; "."; ""].
Proof. reflexivity. Qed.

(** ** The flag parser *)

Lemma startsWith_dashes (a : string) :
  startsWith "--" a = true -> a = "--" ++ slice2 a.
Proof.
  destruct a as [|c1 [|c2 r]]; cbn [startsWith slice2]; try discriminate.
  - now rewrite andb_false_r.
  - destruct (Ascii.eqb_spec "-" c1) as [<-|]; [|discriminate].
    destruct (Ascii.eqb_spec "-" c2) as [<-|]; [|discriminate].
    reflexivity.
Qed.

Lemma startsWith_flag (k : string) : startsWith "--" ("--" ++ k) = true.
Proof.
  now destruct k.
Qed.

Lemma set_prop_lookup (key : string) (val : value) (out : gmap string value) :
  key ≠ "__proto__" -> set_prop key val out !! key = Some val.
Proof.
  intros Hk. unfold set_prop.
  destruct (String.eqb_spec key "__proto__") as [->|_]; [now destruct Hk|].
  apply lookup_insert_eq.
Qed.

Lemma set_prop_lookup_ne (key k : string) (val : value) (out : gmap string value) :
  key ≠ k -> set_prop key val out !! k = out !! k.
Proof.
  intros Hk. unfold set_prop.
  destruct (String.eqb key "__proto__"); [reflexivity|].
  now apply lookup_insert_ne.
Qed.

(** A key the remaining arguments never name keeps its value. *)
Lemma parseArgs_from_absent (k : string) (n : nat) :
  forall (args : list string) (out : gmap string value),
    (length args <= n)%nat ->
    ~ In ("--" ++ k) args ->
    parseArgs_from args out !! k = out !! k.
Proof.
  induction n as [|n IH]; intros args out Hlen Hin.
  - destruct args; [reflexivity|cbn in Hlen; lia].
  - destruct args as [|a rest]; [reflexivity|].
    cbn in Hlen. cbn [parseArgs_from].
    assert (Hrest : ~ In ("--" ++ k) rest) by (intros H; apply Hin; now right).
    destruct (startsWith "--" a) eqn:Ha.
    + assert (Hne : slice2 a ≠ k).
      { intros <-. apply Hin. left. now apply startsWith_dashes. }
      destruct rest as [|b rest'].
      * now apply set_prop_lookup_ne.
      * destruct (negb (String.eqb b "") && negb (startsWith "--" b)).
        -- rewrite IH; [now apply set_prop_lookup_ne|cbn in Hlen; lia|].
           intros H. apply Hrest. now right.
        -- rewrite IH; [now apply set_prop_lookup_ne|lia|assumption].
    + apply IH; [lia|assumption].
Qed.


Lemma set_prop_truthy (key k : string) (val : value) (out : gmap string value) :
  set_truthy k out -> truthy val = true -> set_truthy k (set_prop key val out).
Proof.
  intros [v [Hv Ht]] Hval. unfold set_prop.
  destruct (String.eqb key "__proto__"); [now exists v|].
  destruct (decide (key = k)) as [->|Hne].
  - exists val. split; [apply lookup_insert_eq|assumption].
  - exists v. split; [now rewrite lookup_insert_ne|assumption].
Qed.

Lemma consumed_truthy (b : string) :
  negb (String.eqb b "") && negb (startsWith "--" b) = true ->
  truthy (VStr b) = true.
Proof. cbn. now intros [H _]%andb_prop. Qed.

Lemma parseArgs_from_keeps (k : string) (n : nat) :
  forall (args : list string) (out : gmap string value),
    (length args <= n)%nat ->
    set_truthy k out -> set_truthy k (parseArgs_from args out).
Proof.
  induction n as [|n IH]; intros args out Hlen Hout.
  - destruct args; [assumption|cbn in Hlen; lia].
  - destruct args as [|a rest]; [assumption|].
    cbn in Hlen. cbn [parseArgs_from].
    destruct (startsWith "--" a); [|apply IH; [lia|assumption]].
    destruct rest as [|b rest']; [now apply set_prop_truthy|].
    destruct (negb (String.eqb b "") && negb (startsWith "--" b)) eqn:Hb.
    + apply IH; [cbn in Hlen; lia|].
      apply set_prop_truthy; [assumption|now apply consumed_truthy].
    + apply IH; [lia|now apply set_prop_truthy].
Qed.

(** A flag that is named gets a truthy value. *)
Lemma parseArgs_from_present (k : string) (n : nat) :
  k ≠ "__proto__" ->
  forall (args : list string) (out : gmap string value),
    (length args <= n)%nat ->
    In ("--" ++ k) args ->
    set_truthy k (parseArgs_from args out).
Proof.
  intros Hk. induction n as [|n IH]; intros args out Hlen Hin.
  - destruct args; [destruct Hin|cbn in Hlen; lia].
  - destruct args as [|a rest]; [destruct Hin|].
    cbn in Hlen. cbn [parseArgs_from].
    destruct Hin as [->|Hin].
    + rewrite startsWith_flag.
      change (slice2 ("--" ++ k)) with k.
      destruct rest as [|b rest'].
      * eexists. split; [now apply set_prop_lookup|reflexivity].
      * destruct (negb (String.eqb b "") && negb (startsWith "--" b)) eqn:Hb.
        -- apply (parseArgs_from_keeps k n); [cbn in Hlen; lia|].
           eexists. split; [now apply set_prop_lookup|now apply consumed_truthy].
        -- apply (parseArgs_from_keeps k n); [lia|].
           eexists. split; [now apply set_prop_lookup|reflexivity].
    + destruct (startsWith "--" a) eqn:Ha; [|apply IH; [lia|assumption]].
      destruct rest as [|b rest']; [destruct Hin|].
      destruct (negb (String.eqb b "") && negb (startsWith "--" b)) eqn:Hb.
      * destruct Hin as [->|Hin].
        -- rewrite startsWith_flag in Hb. rewrite andb_false_r in Hb. discriminate.
        -- apply IH; [cbn in Hlen; lia|assumption].
      * apply IH; [lia|assumption].
Qed.

(** [args.name] is truthy exactly when [--name] occurs on the command line. *)
Lemma arg_truthy_iff (k : string) (argv : list string) :
  k ≠ "__proto__" ->
  truthy (arg (parseArgs argv) k) = true <-> In ("--" ++ k) argv.
Proof.
  intros Hk. unfold arg, parseArgs. split.
  - intros Ht. destruct (In_dec String.string_dec ("--" ++ k) argv) as [|Hn]; [assumption|].
    rewrite (parseArgs_from_absent k (length argv) argv ∅ (le_n _) Hn) in Ht.
    rewrite lookup_empty in Ht. discriminate.
  - intros Hin.
    destruct (parseArgs_from_present k (length argv) Hk argv ∅ (le_n _) Hin)
      as [v [-> Hv]].
    exact Hv.
Qed.

Lemma parseArgs_from_cons (a : string) (rest : list string) (out : gmap string value) :
  parseArgs_from (a :: rest) out =
  if startsWith "--" a then
    match rest with
    | b :: rest' =>
        if negb (String.eqb b "") && negb (startsWith "--" b)
        then parseArgs_from rest' (set_prop (slice2 a) (VStr b) out)
        else parseArgs_from rest (set_prop (slice2 a) (VBool true) out)
    | [] => set_prop (slice2 a) (VBool true) out
    end
  else parseArgs_from rest out.
Proof. reflexivity. Qed.

(** The scan never skips a flag: whatever precedes it, a flag is reached as
    a flag, so what holds of every parse that starts at the flag holds of
    the whole parse. *)
Lemma parseArgs_from_reaches (f : string) (rest : list string)
    (P : gmap string value -> Prop) (n : nat) :
  startsWith "--" f = true ->
  (forall out', P (parseArgs_from (f :: rest) out')) ->
  forall (pre : list string) (out : gmap string value),
    (length pre <= n)%nat ->
    P (parseArgs_from (pre ++ f :: rest) out).
Proof.
  intros Hf HP. induction n as [|n IH]; intros pre out Hlen.
  - destruct pre; [apply HP|cbn in Hlen; lia].
  - destruct pre as [|a pre']; [apply HP|].
    cbn in Hlen. rewrite <- app_comm_cons, parseArgs_from_cons.
    destruct (startsWith "--" a); [|apply IH; lia].
    destruct pre' as [|b pre'']; cbn [app].
    + rewrite Hf, andb_false_r. apply HP.
    + destruct (negb (String.eqb b "") && negb (startsWith "--" b)).
      * apply IH. cbn in Hlen. lia.
      * rewrite app_comm_cons. apply IH. lia.
Qed.

(** A flag followed by another flag, or by nothing, is set to [true]. *)
Lemma parseArgs_flag_without_value (k : string) (pre rest : list string) :
  k ≠ "__proto__" ->
  (rest = [] \/ exists b rest', rest = b :: rest' /\ startsWith "--" b = true) ->
  ~ In ("--" ++ k) rest ->
  arg (parseArgs (pre ++ ("--" ++ k) :: rest)) k = VBool true.
Proof.
  intros Hk Hrest Hnot. unfold parseArgs.
  apply (parseArgs_from_reaches ("--" ++ k) rest
           (fun out => arg out k = VBool true) (length pre));
    [apply startsWith_flag| |apply le_n].
  intros out'. unfold arg. rewrite parseArgs_from_cons, startsWith_flag.
  change (slice2 ("--" ++ k)) with k.
  destruct Hrest as [->|(b & rest' & -> & Hb)].
  - now rewrite set_prop_lookup.
  - rewrite Hb, andb_false_r.
    rewrite (parseArgs_from_absent k (length (b :: rest'))) by (apply le_n || assumption).
    now rewrite set_prop_lookup.
Qed.

(** ** Running the entry points symbolically *)

Ltac unfold_io :=
  cbv [bind ret throw finish emit when try_catch try_ignore
       console_log console_error spawnSync createClient createSignedUrl fetch
       mkdtempSync extname arrayBuffer writeFileSync createReadStream upload
       getPublicUrl rmSync].

Ltac run_handler := unfold handler, handler_body, handler_try; unfold_io.
Ltac run_main := unfold main, main_body, main_try; unfold_io.

(** ** The files of a run *)

Lemma exited_ok_spawn_failed (r : SpawnSyncReturns) :
  exited_ok r = negb (spawn_failed r).
Proof.
  unfold exited_ok, spawn_failed.
  now destruct (sp_error r), (bool_decide (sp_status r = Some 0)).
Qed.

Lemma fs_read_write (file : string) (data : bytes) (fs : gmap string bytes) :
  fs_read file (fs_write file data fs) = Some data.
Proof. unfold fs_read, fs_write. apply lookup_insert_eq. Qed.

(** After an encoder run that exited with 0, its output path holds what the
    encoder wrote. *)
Lemma fs_read_encoded (w : World) (inputPath outputPath : string)
    (r : SpawnSyncReturns) (fs : gmap string bytes) :
  spawn_failed r = false ->
  fs_read outputPath (child_writes w (ffmpeg_args inputPath outputPath) r fs)
  = Some (preview_file w).
Proof.
  intros Hr. unfold child_writes. rewrite exited_ok_spawn_failed, Hr. cbn.
  apply fs_read_write.
Qed.

Ltac innermost x :=
  lazymatch x with
  | context [match ?y with _ => _ end] => innermost y
  | negb ?y => innermost y
  | is_some ?y => innermost y
  | orb ?y _ => innermost y
  | andb ?y _ => innermost y
  | _ => x
  end.

(** Take the first reply or test the run is waiting for: use what is known
    of it, or else split on it. *)
Ltac branch :=
  match goal with
  | |- context [match ?x with _ => _ end] =>
      let y := innermost x in
      first [ match goal with H : y = _ |- _ => rewrite H end
            | match y with
              | fs_read _ (child_writes _ (ffmpeg_args _ _) _ _) =>
                  rewrite fs_read_encoded by assumption
              end
            | destruct y eqn:? ]
  end.

Ltac branches := cbn; repeat (branch; cbn).

(** ** Order of events *)

Lemma preceded_by_nil (P Q : Event -> Prop) : preceded_by P Q [].
Proof. intros l1 e l2 H. destruct l1; discriminate. Qed.

Lemma preceded_by_skip (P Q : Event -> Prop) (e : Event) (l : list Event) :
  ~ Q e -> preceded_by P Q l -> preceded_by P Q (e :: l).
Proof.
  unfold preceded_by. intros Hq Hl l1 e0 l2 Heq Hq0.
  destruct l1 as [|x l1]; cbn in Heq; inversion Heq; subst.
  - contradiction.
  - destruct (Hl l1 e0 l2 eq_refl Hq0) as [e' [Hin Hp]].
    exists e'. split; [now right|assumption].
Qed.

Lemma preceded_by_seen (P Q : Event -> Prop) (e : Event) (l : list Event) :
  P e -> ~ Q e -> preceded_by P Q (e :: l).
Proof.
  unfold preceded_by. intros Hp Hq l1 e0 l2 Heq Hq0.
  destruct l1 as [|x l1]; cbn in Heq; inversion Heq; subst.
  - contradiction.
  - exists x. split; [now left|assumption].
Qed.

Lemma spawn_succeeded (r : SpawnSyncReturns) :
  spawn_failed r = false -> sp_error r = None /\ sp_status r = Some 0.
Proof.
  unfold spawn_failed. destruct (sp_error r); [discriminate|]. cbn.
  intros H%negb_false_iff%bool_decide_eq_true. now split.
Qed.

Ltac not_upload :=
  let H := fresh in intros (? & ? & ? & ? & H); discriminate H.

Ltac guarded :=
  repeat first
    [ apply preceded_by_nil
    | apply preceded_by_seen;
      [ do 3 eexists; split; [reflexivity|now apply spawn_succeeded] | not_upload ]
    | apply preceded_by_skip; [not_upload|] ].

Ltac no_uploads := unfold no_upload; repeat (constructor; [not_upload|]); constructor.

(** ** No source access without the encoder *)

(** C4: when the version probe of the encoder fails to spawn, neither entry
    point ever asks the source store for a signed URL or fetches the source
    object. *)
Theorem C4_no_source_access_without_encoder
    (w : World) (req : Request) (argv : list string) (s : Sys) :
  sp_error (ffmpeg_version w) <> None ->
  Forall (fun e => touches_source e = false) (events (handler w req s)) /\
  Forall (fun e => touches_source e = false) (events (main w argv s)).
Proof.
  intros Hprobe.
  destruct (sp_error (ffmpeg_version w)) as [err|] eqn:E; [clear Hprobe|congruence].
  split.
  - run_handler. rewrite E. branches; repeat constructor.
  - run_main. rewrite E. branches; repeat constructor.
Qed.

Lemma C4_witness :
  sp_error (ffmpeg_version (with_ffmpeg_version enoent world_ok)) <> None /\
  Forall (fun e => touches_source e = false)
         (events (handler (with_ffmpeg_version enoent world_ok) request_ok sys0)) /\
  Forall (fun e => touches_source e = false)
         (events (main (with_ffmpeg_version enoent world_ok) argv_ok sys0)).
Proof.
  split; [discriminate|].
  apply (C4_no_source_access_without_encoder
           (with_ffmpeg_version enoent world_ok) request_ok argv_ok sys0).
  discriminate.
Defined.

(** ** Publication only after a successful transcode *)

(** C5: in every invocation an upload is preceded by a transcoding run that
    was spawned and exited with status 0; when the transcoding run fails to
    spawn or exits with another status, no upload is attempted and the
    destination store is left as it was. *)
Theorem C5_upload_only_after_successful_transcode
    (w : World) (req : Request) (argv : list string) (s : Sys) :
  (preceded_by transcode_succeeded is_upload (events (handler w req s)) /\
   preceded_by transcode_succeeded is_upload (events (main w argv s))) /\
  (spawn_failed (ffmpeg_run w) = true ->
   (no_upload (events (handler w req s)) /\ store (after (handler w req s)) = store s) /\
   (no_upload (events (main w argv s)) /\ store (after (main w argv s)) = store s)).
Proof.
  split; [split|intros Hff; split].
  - run_handler. branches; guarded.
  - run_main. branches; guarded.
  - run_handler. rewrite Hff. branches; (split; [no_uploads|reflexivity]).
  - run_main. rewrite Hff. branches; (split; [no_uploads|reflexivity]).
Qed.

Lemma C5_witness :
  spawn_failed (ffmpeg_run (with_ffmpeg_run exit_1 world_ok)) = true /\
  (no_upload (events (handler (with_ffmpeg_run exit_1 world_ok) request_ok sys0)) /\
   store (after (handler (with_ffmpeg_run exit_1 world_ok) request_ok sys0)) = []) /\
  (no_upload (events (main (with_ffmpeg_run exit_1 world_ok) argv_ok sys0)) /\
   store (after (main (with_ffmpeg_run exit_1 world_ok) argv_ok sys0)) = []).
Proof.
  split; [reflexivity|].
  destruct (C5_upload_only_after_successful_transcode
              (with_ffmpeg_run exit_1 world_ok) request_ok argv_ok sys0) as [_ H].
  exact (H eq_refl).
Defined.

(** ** Getting past the checks in front of the pipeline *)

Lemma transcode_reached_inv (w : World) (sourcePath : value) :
  transcode_reached w sourcePath = true ->
  exists signed res suffix p buf,
    createSignedUrl_reply w = Returns signed /\
    sign_failed signed = false /\
    fetch_reply w = Returns res /\
    res_ok res = true /\
    res_arrayBuffer res = Returns buf /\
    mkdtemp_reply w = Returns suffix /\
    sourcePath = VStr p /\
    writeFile_reply w = None.
Proof.
  unfold transcode_reached.
  destruct (createSignedUrl_reply w) as [signed|]; [|discriminate].
  destruct (fetch_reply w) as [res|]; [|discriminate].
  destruct (mkdtemp_reply w) as [suffix|]; [|discriminate].
  destruct sourcePath as [| | | | |p| |]; try discriminate.
  destruct (sign_failed signed) eqn:Hs; [discriminate|].
  destruct (res_ok res) eqn:Hr; [|discriminate].
  destruct (res_arrayBuffer res) as [buf|] eqn:Hb; [|discriminate].
  destruct (writeFile_reply w); [discriminate|].
  intros _. exists signed, res, suffix, p, buf. now repeat split.
Qed.

Lemma pipeline_ok_inv (w : World) (sourcePath : value) :
  pipeline_ok w sourcePath = true ->
  transcode_reached w sourcePath = true /\
  spawn_failed (ffmpeg_run w) = false /\
  upload_reply w = Returns None.
Proof.
  unfold pipeline_ok.
  destruct (transcode_reached w sourcePath); [|discriminate].
  destruct (spawn_failed (ffmpeg_run w)); [discriminate|].
  destruct (upload_reply w) as [[e|]|]; try discriminate.
  now repeat split.
Qed.

(** A source path that is a string and truthy is not the empty string. *)
Ltac path_is_string :=
  try match goal with
      | Hs : ?sp = VStr ?p, Ht : truthy ?sp = true |- _ =>
          let Hn := fresh "Hn" in
          pose proof Ht as Hn;
          rewrite Hs in Hn; cbn in Hn; apply negb_true_iff in Hn
      end.

Ltac use_reached H :=
  apply transcode_reached_inv in H;
  destruct H as (? & ? & ? & ? & ? & ? & ? & ? & ? & ? & ? & ? & ?);
  path_is_string.

Ltac use_ok H :=
  let Hr := fresh "Hr" in
  apply pipeline_ok_inv in H;
  destruct H as (Hr & ? & ?);
  use_reached Hr.

Ltac use_cli_ready H :=
  let Hb := fresh "Hb" in
  let Hp := fresh "Hp" in
  let Hu := fresh "Hu" in
  let Hk := fresh "Hk" in
  let Hf := fresh "Hf" in
  let Hc := fresh "Hc" in
  destruct H as (Hb & Hp & Hu & Hk & Hf & Hc);
  apply (arg_truthy_iff "bucket") in Hb; [|discriminate];
  apply (arg_truthy_iff "path") in Hp; [|discriminate];
  run_main;
  rewrite Hb, Hp, Hu, Hk, Hf, Hc.

(** ** From what the world answers to the tests of the code *)

Lemma env_set_truthy (o : option string) : env_set o -> truthy_str o = true.
Proof.
  intros (v & -> & Hv). cbn. now apply negb_true_iff, String.eqb_neq.
Qed.

Lemma past_the_checks_ready (w : World) (argv : list string) :
  past_the_checks w argv -> cli_ready w argv.
Proof.
  intros (Hb & Hp & Hu & Hk & Hf & Hc).
  repeat split; try assumption; now apply env_set_truthy.
Qed.

Lemma signing_succeeds_inv (w : World) :
  signing_succeeds w ->
  exists signed, createSignedUrl_reply w = Returns signed /\ sign_failed signed = false.
Proof.
  intros (signed & url & Hr & He & Hs & Hu). exists signed. split; [assumption|].
  unfold sign_failed. rewrite He, Hs. cbn.
  now apply negb_false_iff, negb_true_iff, String.eqb_neq.
Qed.

Lemma signing_fails_inv (w : World) :
  signing_fails w ->
  (exists e, createSignedUrl_reply w = Throws e) \/
  (exists signed, createSignedUrl_reply w = Returns signed /\ sign_failed signed = true).
Proof.
  intros [He|(signed & Hr & Hbad)]; [now left|right].
  exists signed. split; [assumption|]. unfold sign_failed.
  destruct Hbad as [He|[Hs|Hs]].
  - now destruct (su_error signed).
  - rewrite Hs. apply orb_true_r.
  - rewrite Hs. apply orb_true_r.
Qed.

Lemma transcode_succeeds_inv (w : World) :
  transcode_succeeds w -> spawn_failed (ffmpeg_run w) = false.
Proof. intros [He Hs]. unfold spawn_failed. now rewrite He, Hs. Qed.

Lemma transcode_fails_inv (w : World) :
  transcode_fails w -> spawn_failed (ffmpeg_run w) = true.
Proof.
  intros [He|Hs]; unfold spawn_failed.
  - now destruct (sp_error (ffmpeg_run w)).
  - rewrite bool_decide_eq_false_2 by assumption. apply orb_true_r.
Qed.

(** When every stage is answered with success, the tests of the code all
    pass. *)
Lemma reaches_transcode (w : World) (sourcePath : value) :
  signing_succeeds w -> fetch_succeeds w -> scratch_succeeds w sourcePath ->
  transcode_reached w sourcePath = true.
Proof.
  intros (signed & Hr & Hs)%signing_succeeds_inv (res & buf & Hf & Hok & Hb)
         ([suffix Hm] & [p ->] & Hw).
  unfold transcode_reached. now rewrite Hr, Hf, Hm, Hs, Hok, Hb, Hw.
Qed.

Lemma stages_pipeline_ok (w : World) (sourcePath : value) :
  signing_succeeds w -> fetch_succeeds w -> scratch_succeeds w sourcePath ->
  transcode_succeeds w -> upload_succeeds w ->
  pipeline_ok w sourcePath = true.
Proof.
  intros Hs Hf Hd Ht%transcode_succeeds_inv Hu. unfold pipeline_ok.
  rewrite (reaches_transcode w sourcePath Hs Hf Hd), Ht, Hu. reflexivity.
Qed.

(** When a stage is answered with a failure, one of the tests fails. *)
Lemma failure_pipeline_not_ok (w : World) (sourcePath : value) :
  signing_fails w \/ fetch_fails w \/ scratch_fails w sourcePath \/
  transcode_fails w \/ upload_fails w ->
  pipeline_ok w sourcePath = false.
Proof.
  unfold pipeline_ok, transcode_reached.
  intros [Hs|[Hf|[Hd|[Ht|Hu]]]].
  - apply signing_fails_inv in Hs. destruct Hs as [[e ->]|(signed & -> & Hs)];
      [reflexivity|].
    destruct (fetch_reply w), (mkdtemp_reply w), sourcePath; try reflexivity.
    now rewrite Hs.
  - destruct (createSignedUrl_reply w); [|reflexivity].
    destruct Hf as [[e ->]|(res & -> & [Hok|[e He]])]; [reflexivity| |].
    + destruct (mkdtemp_reply w), sourcePath; try reflexivity.
      rewrite Hok. now rewrite andb_false_r.
    + destruct (mkdtemp_reply w), sourcePath; try reflexivity.
      rewrite He. cbn. now rewrite andb_false_r.
  - destruct (createSignedUrl_reply w); [|reflexivity].
    destruct (fetch_reply w); [|reflexivity].
    destruct Hd as [[e ->]|[Hp|Hw]]; [reflexivity| |].
    + destruct (mkdtemp_reply w); [|reflexivity].
      destruct sourcePath; try reflexivity. now destruct (Hp s).
    + destruct (mkdtemp_reply w), sourcePath; try reflexivity.
      destruct (writeFile_reply w); [|now destruct Hw].
      cbn. now rewrite !andb_false_r.
  - rewrite (transcode_fails_inv w Ht). cbn. now rewrite andb_false_r.
  - destruct Hu as [[e ->]|[err ->]]; now rewrite andb_false_r.
Qed.

(** ** The transcoding command *)

Ltac policy :=
  let Hne := fresh "Hne" in
  intros ? ? ? ? Hne; cbn in *;
  repeat match goal with
         | H : _ \/ _ |- _ => destruct H as [H|H]
         | H : False |- _ => destruct H
         | H : _ = EvSpawn _ _ _ |- _ =>
             first [discriminate H | injection H as <- <- <-]
         end;
  try (now destruct Hne);
  try (do 3 eexists; repeat (split; try reflexivity);
       repeat first [left; reflexivity | right]).

(** C3: in the text of the request handler and in the script alike, every
    run of the encoder other than the version probe carries exactly the
    arguments [-y -i <input> -ss 0 -t 30 -vn -acodec libmp3lame -b:a 192k
    <output>], where the output is [preview.mp3] inside the scratch directory
    the invocation created; and a run of the script that gets past its
    checks, is given a signed URL, fetches the source and writes it to the
    scratch directory does run the encoder with these arguments. *)
Theorem C3_fixed_transcode_policy
    (w : World) (req : Request) (argv : list string) (s : Sys) :
  (fixed_policy w (events (handler w req s)) /\
   fixed_policy w (events (main w argv s))) /\
  (forall inputPath,
     inputPath = path_join w (scratch_of w)
                   ("input" ++ ext_or_mp3
                      match arg (parseArgs argv) "path" with
                      | VStr p => path_extname w p
                      | _ => ""
                      end) ->
     past_the_checks w argv ->
     signing_succeeds w ->
     fetch_succeeds w ->
     scratch_succeeds w (arg (parseArgs argv) "path") ->
     In (EvSpawn "ffmpeg"
           ["-y"; "-i"; inputPath; "-ss"; "0"; "-t"; "30"; "-vn";
            "-acodec"; "libmp3lame"; "-b:a"; "192k";
            path_join w (scratch_of w) "preview.mp3"]
           (ffmpeg_run w))
        (events (main w argv s))).
Proof.
  split; [split|].
  - run_handler. branches; policy.
  - run_main. branches; policy.
  - intros inputPath -> Hready%past_the_checks_ready Hs Hf Hd.
    pose proof (reaches_transcode w _ Hs Hf Hd) as Hreach.
    unfold scratch_of.
    use_cli_ready Hready. use_reached Hreach.
    branches; repeat first [left; reflexivity | right].
Qed.

Lemma past_the_checks_ok : past_the_checks world_ok argv_ok.
Proof.
  split; [now left|]. split; [right; right; now left|].
  split; [eexists; split; [reflexivity|discriminate]|].
  split; [eexists; split; [reflexivity|discriminate]|].
  now split.
Defined.

Lemma signing_succeeds_ok : signing_succeeds world_ok.
Proof. do 2 eexists. repeat split; first [reflexivity | discriminate]. Defined.

Lemma fetch_succeeds_ok : fetch_succeeds world_ok.
Proof. do 2 eexists. repeat split; reflexivity. Defined.

Lemma scratch_succeeds_ok : scratch_succeeds world_ok (arg (parseArgs argv_ok) "path").
Proof. split; [now eexists|]. split; [now eexists|reflexivity]. Defined.

Lemma C3_witness :
  In (EvSpawn "ffmpeg"
        ["-y"; "-i"; "/tmp/preview-a1B2c3/input.wav"; "-ss"; "0"; "-t"; "30"; "-vn";
         "-acodec"; "libmp3lame"; "-b:a"; "192k"; "/tmp/preview-a1B2c3/preview.mp3"]
        exit_ok)
     (events (main world_ok argv_ok sys0)).
Proof.
  exact (proj2 (C3_fixed_transcode_policy world_ok request_ok argv_ok sys0)
           _ eq_refl past_the_checks_ok signing_succeeds_ok fetch_succeeds_ok
           scratch_succeeds_ok).
Defined.

(** ** What a successful run of the script does *)

Lemma main_success (w : World) (argv : list string) (s : Sys) :
  cli_ready w argv ->
  pipeline_ok w (arg (parseArgs argv) "path") = true ->
  outcome (main w argv s) = Exits 0 /\
  In (EvConsoleLog ["Public URL:"; publicUrl_of w (cli_destBucket argv) (cli_destPath w argv)])
     (events (main w argv s)) /\
  In (EvCreateReadStream (path_join w (scratch_of w) "preview.mp3"))
     (events (main w argv s)) /\
  In (EvUpload (cli_destBucket argv) (cli_destPath w argv)
        (preview_file w) upload_options)
     (events (main w argv s)) /\
  In (EvRmSync (scratch_of w) true) (events (main w argv s)) /\
  store (after (main w argv s))
    = fst (store_upload (store s) (cli_destBucket argv) (cli_destPath w argv)
             (preview_file w) upload_options) /\
  dirs (after (main w argv s)) = dirs_after_cleanup w s.
Proof.
  intros Hready Hok.
  unfold dirs_after_cleanup, scratch_of, cli_destBucket, cli_destPath.
  use_cli_ready Hready. use_ok Hok.
  branches;
    (split; [reflexivity|]);
    (split; [repeat first [left; reflexivity | right]|]);
    (split; [repeat first [left; reflexivity | right]|]);
    (split; [repeat first [left; reflexivity | right]|]);
    (split; [repeat first [left; reflexivity | right]|]);
    (split; reflexivity).
Qed.

(** Past its checks the script exits with 0 or with 1, by whether every
    test of the pipeline passes. *)
Lemma main_exit_code (w : World) (argv : list string) (s : Sys) :
  cli_ready w argv ->
  outcome (main w argv s)
  = Exits (if pipeline_ok w (arg (parseArgs argv) "path") then 0 else 1).
Proof.
  intros Hready.
  destruct (pipeline_ok w (arg (parseArgs argv) "path")) eqn:Hok.
  - apply (main_success w argv s Hready Hok).
  - use_cli_ready Hready.
    branches;
      first [ reflexivity
            | exfalso; unfold pipeline_ok, transcode_reached in Hok;
              repeat match goal with
                     | E : ?x = _ |- _ =>
                         tryif constr_eq E Hok then fail else rewrite E in Hok
                     end;
              cbn in Hok; discriminate Hok ].
Qed.

(** ** The scratch directory after a failure *)

Ltac in_events H :=
  cbn in H;
  repeat match type of H with
         | _ \/ _ => destruct H as [H|H]
         | False => destruct H
         | _ = _ => first [discriminate H | injection H as <- <-]
         end.

(** Whenever the handler has created its scratch directory and answers with
    anything but 200, the directory is still there afterwards. *)
Lemma handler_keeps_scratch_dir_on_failure
    (w : World) (req : Request) (s : Sys) (prefix dir : string) :
  In (EvMkdtemp prefix dir) (events (handler w req s)) ->
  (forall r, outcome (handler w req s) = Responds r -> status r <> 200) ->
  dir ∈ dirs (after (handler w req s)).
Proof.
  run_handler.
  branches; intros Hin Hfail; in_events Hin;
    try (apply elem_of_union_l, elem_of_singleton; reflexivity);
    exfalso; eapply Hfail; reflexivity.
Qed.

(** Whenever the script has created its scratch directory and exits with
    anything but 0, the directory is still there afterwards. *)
Lemma main_keeps_scratch_dir_on_failure
    (w : World) (argv : list string) (s : Sys) (prefix dir : string) :
  In (EvMkdtemp prefix dir) (events (main w argv s)) ->
  outcome (main w argv s) <> Exits 0 ->
  dir ∈ dirs (after (main w argv s)).
Proof.
  run_main.
  branches; intros Hin Hfail; in_events Hin;
    try (apply elem_of_union_l, elem_of_singleton; reflexivity);
    now destruct Hfail.
Qed.

(** C1: a run of the handler, and of the script, whose transcoding step exits
    with status 1: the scratch directory is created, no removal is attempted,
    and the directory exists after the invocation has completed. *)
Theorem C1_scratch_dir_left_after_failed_transcode :
  (outcome (handler (with_ffmpeg_run exit_1 world_ok) request_ok sys0)
     = Responds (text_response 500 "ffmpeg processing failed") /\
   In (EvMkdtemp "/tmp/preview-" scratch_dir)
      (events (handler (with_ffmpeg_run exit_1 world_ok) request_ok sys0)) /\
   ~ In (EvRmSync scratch_dir true)
        (events (handler (with_ffmpeg_run exit_1 world_ok) request_ok sys0)) /\
   scratch_dir ∈ dirs (after (handler (with_ffmpeg_run exit_1 world_ok) request_ok sys0))) /\
  (outcome (main (with_ffmpeg_run exit_1 world_ok) argv_ok sys0) = Exits 1 /\
   In (EvMkdtemp "/tmp/preview-" scratch_dir)
      (events (main (with_ffmpeg_run exit_1 world_ok) argv_ok sys0)) /\
   ~ In (EvRmSync scratch_dir true)
        (events (main (with_ffmpeg_run exit_1 world_ok) argv_ok sys0)) /\
   scratch_dir ∈ dirs (after (main (with_ffmpeg_run exit_1 world_ok) argv_ok sys0))).
Proof.
  split.
  - split; [reflexivity|]. split; [cbn; repeat first [left; reflexivity | right]|].
    split; [cbn; intros H; repeat (destruct H as [H|H]; [discriminate H|]); exact H|].
    apply (bool_decide_unpack _). vm_compute. exact I.
  - split; [reflexivity|]. split; [cbn; repeat first [left; reflexivity | right]|].
    split; [cbn; intros H; repeat (destruct H as [H|H]; [discriminate H|]); exact H|].
    apply (bool_decide_unpack _). vm_compute. exact I.
Qed.

(** ** The options of the upload *)

Lemma every_stage_pipeline_ok (w : World) (sourcePath : value) :
  every_stage_succeeds w sourcePath -> pipeline_ok w sourcePath = true.
Proof.
  intros (Hs & Hf & Hd & Ht & Hu). now apply stages_pipeline_ok.
Qed.

(** A successful run of the script: it exits with 0, and the one upload, the
    one that publishes the preview, names no content type. *)
Lemma C2_counterexample :
  outcome (main world_ok argv_ok sys0) = Exits 0 /\
  In (EvUpload (VStr "beat-previews") (VStr "previews/preview_track1.mp3")
        preview_bytes
        {| cacheControl := None; contentType := None; upsert := Some true |})
     (events (main world_ok argv_ok sys0)) /\
  (forall bucket path body opts,
     In (EvUpload bucket path body opts) (events (main world_ok argv_ok sys0)) ->
     contentType opts <> Some "audio/mpeg").
Proof.
  split; [reflexivity|]. split; [cbn; repeat first [left; reflexivity | right]|].
  intros bucket path body opts H. cbn in H.
  repeat (destruct H as [H|H]; [first [discriminate H | injection H as <- <- <- <-; discriminate]|]).
  destruct H.
Qed.

Ltac upload_opts :=
  intros ? ? ? ? ?; cbn in *;
  repeat match goal with
         | H : _ \/ _ |- _ => destruct H as [H|H]
         | H : False |- _ => destruct H
         | H : _ = EvUpload _ _ _ _ |- _ =>
             first [discriminate H | injection H as <- <- <- <-]
         end;
  try (repeat split; reflexivity).

(** Every upload carries what the encoder wrote and the one option. *)
Lemma handler_upload_shape (w : World) (req : Request) (s : Sys)
    (bucket path : value) (body : bytes) (opts : FileOptions) :
  In (EvUpload bucket path body opts) (events (handler w req s)) ->
  body = preview_file w /\ opts = upload_options.
Proof. revert bucket path body opts. run_handler. branches; upload_opts. Qed.

Lemma main_upload_shape (w : World) (argv : list string) (s : Sys)
    (bucket path : value) (body : bytes) (opts : FileOptions) :
  In (EvUpload bucket path body opts) (events (main w argv s)) ->
  body = preview_file w /\ opts = upload_options.
Proof. revert bucket path body opts. run_main. branches; upload_opts. Qed.

(** C2 (amended): every upload in the text of the handler and in the script
    carries what the encoder wrote, with exactly the options
    [{ upsert: true }], so no content type is named for the artifact; and a
    successful run of the script does publish the artifact with such an
    upload, reading it from [preview.mp3] in its scratch directory, to its
    destination bucket and key. *)
Theorem C2_upload_names_no_content_type
    (w : World) (req : Request) (argv : list string) (s : Sys) :
  (forall bucket path body opts,
     In (EvUpload bucket path body opts) (events (handler w req s)) ->
     body = preview_file w /\ opts = upload_options /\
     contentType opts = None /\ upsert opts = Some true) /\
  (forall bucket path body opts,
     In (EvUpload bucket path body opts) (events (main w argv s)) ->
     body = preview_file w /\ opts = upload_options /\
     contentType opts = None /\ upsert opts = Some true) /\
  (past_the_checks w argv ->
   every_stage_succeeds w (arg (parseArgs argv) "path") ->
   outcome (main w argv s) = Exits 0 /\
   In (EvCreateReadStream (path_join w (scratch_of w) "preview.mp3"))
      (events (main w argv s)) /\
   In (EvUpload (cli_destBucket argv) (cli_destPath w argv)
         (preview_file w) upload_options)
      (events (main w argv s))).
Proof.
  split; [|split].
  - intros bucket path body opts [-> ->]%handler_upload_shape. now repeat split.
  - intros bucket path body opts [-> ->]%main_upload_shape. now repeat split.
  - intros Hready%past_the_checks_ready Hok%every_stage_pipeline_ok.
    destruct (main_success w argv s Hready Hok) as (Ho & _ & Hr & Hu & _).
    now repeat split.
Qed.

Lemma every_stage_succeeds_ok :
  every_stage_succeeds world_ok (arg (parseArgs argv_ok) "path").
Proof.
  split; [exact signing_succeeds_ok|]. split; [exact fetch_succeeds_ok|].
  split; [exact scratch_succeeds_ok|]. now repeat split.
Defined.

Lemma C2_witness :
  outcome (main world_ok argv_ok sys0) = Exits 0 /\
  In (EvCreateReadStream "/tmp/preview-a1B2c3/preview.mp3")
     (events (main world_ok argv_ok sys0)) /\
  In (EvUpload (VStr "beat-previews") (VStr "previews/preview_track1.mp3")
        preview_bytes upload_options)
     (events (main world_ok argv_ok sys0)).
Proof.
  exact (proj2 (proj2 (C2_upload_names_no_content_type world_ok request_ok argv_ok sys0))
           past_the_checks_ok every_stage_succeeds_ok).
Defined.

(** ** The module of the handler *)

(** C6: the module that exports the handler binds the identifier [public],
    a reserved word of module code, so loading it is an early error and no
    request is answered by the handler: none gets the 405, the 500 or the
    400 that the function as written would return. *)
Theorem C6_handler_module_does_not_load (w : World) (req : Request) (s : Sys) :
  In (74%nat, "public") handler_module_bindings /\
  In "public" strict_reserved_words /\
  deployed_handler w req s
  = LoadFails "SyntaxError: Unexpected strict mode reserved word" /\
  (forall r, deployed_handler w req s <> Answers r) /\
  (method req <> "POST" ->
   outcome (handler w req s) = Responds (text_response 405 "Method Not Allowed")).
Proof.
  split; [cbn; repeat first [left; reflexivity | right]|].
  split; [cbn; repeat first [left; reflexivity | right]|].
  split; [reflexivity|]. split; [discriminate|].
  intros Hm%String.eqb_neq. run_handler. now rewrite Hm.
Qed.

Lemma C6_witness :
  method request_get <> "POST" /\
  deployed_handler world_ok request_get sys0
  = LoadFails "SyntaxError: Unexpected strict mode reserved word" /\
  outcome (handler world_ok request_get sys0)
  = Responds (text_response 405 "Method Not Allowed").
Proof.
  destruct (C6_handler_module_does_not_load world_ok request_get sys0)
    as (_ & _ & Hd & _ & Hf).
  split; [discriminate|]. split; [exact Hd|]. apply Hf. discriminate.
Defined.

(** ** Exit codes of the script *)

Lemma arg_falsy (k : string) (argv : list string) :
  k ≠ "__proto__" -> ~ In ("--" ++ k) argv ->
  truthy (arg (parseArgs argv) k) = false.
Proof.
  intros Hk Hn. destruct (truthy (arg (parseArgs argv) k)) eqn:E; [|reflexivity].
  apply arg_truthy_iff in E; [contradiction|assumption].
Qed.

Lemma env_unset_falsy (o : option string) : env_unset o -> truthy_str o = false.
Proof. now intros [-> | ->]. Qed.

(** C7: the script exits with 2 when [--bucket] or [--path] is missing, when
    [SUPABASE_URL] or [SUPABASE_SERVICE_ROLE_KEY] is unset (or empty), or
    when the version probe of the encoder cannot be spawned.  Past these
    checks it exits with 0 when the store signs a URL, the source is fetched,
    the scratch files are written, the encoder exits with 0 and the store
    accepts the upload; and with 1 when the signing returns an error or no
    URL or throws, when the fetch throws or is not [ok], when the encoder
    cannot be spawned or exits with another status, when the upload returns
    an error or throws, or when a step in between fails. *)
Theorem C7_exit_codes (w : World) (argv : list string) (s : Sys) :
  (~ In "--bucket" argv \/ ~ In "--path" argv \/
   env_unset (env_SUPABASE_URL w) \/
   env_unset (env_SUPABASE_SERVICE_ROLE_KEY w) \/
   sp_error (ffmpeg_version w) <> None ->
   outcome (main w argv s) = Exits 2) /\
  (past_the_checks w argv ->
   every_stage_succeeds w (arg (parseArgs argv) "path") ->
   outcome (main w argv s) = Exits 0) /\
  (past_the_checks w argv ->
   signing_fails w \/ fetch_fails w \/
   scratch_fails w (arg (parseArgs argv) "path") \/
   transcode_fails w \/ upload_fails w ->
   outcome (main w argv s) = Exits 1).
Proof.
  split; [|split].
  - intros [H|[H|[H|[H|H]]]].
    + apply (arg_falsy "bucket") in H; [|discriminate].
      run_main. rewrite H. branches; reflexivity.
    + apply (arg_falsy "path") in H; [|discriminate].
      run_main. rewrite H. branches; reflexivity.
    + apply env_unset_falsy in H. run_main. rewrite H. branches; reflexivity.
    + apply env_unset_falsy in H. run_main. rewrite H. branches; reflexivity.
    + destruct (sp_error (ffmpeg_version w)) eqn:E; [|congruence].
      run_main. rewrite E. branches; reflexivity.
  - intros Hready%past_the_checks_ready Hok%every_stage_pipeline_ok.
    now rewrite (main_exit_code w argv s Hready), Hok.
  - intros Hready%past_the_checks_ready Hbad%failure_pipeline_not_ok.
    now rewrite (main_exit_code w argv s Hready), Hbad.
Qed.

Lemma C7_witness :
  outcome (main world_ok argv_no_bucket sys0) = Exits 2 /\
  outcome (main world_env_unset argv_ok sys0) = Exits 2 /\
  outcome (main world_ok argv_ok sys0) = Exits 0 /\
  outcome (main world_sign_refused argv_ok sys0) = Exits 1 /\
  outcome (main world_fetch_404 argv_ok sys0) = Exits 1 /\
  outcome (main (with_ffmpeg_run exit_1 world_ok) argv_ok sys0) = Exits 1 /\
  outcome (main world_upload_refused argv_ok sys0) = Exits 1.
Proof.
  assert (Hready : forall w,
    env_SUPABASE_URL w = env_SUPABASE_URL world_ok ->
    env_SUPABASE_SERVICE_ROLE_KEY w = env_SUPABASE_SERVICE_ROLE_KEY world_ok ->
    ffmpeg_version w = ffmpeg_version world_ok ->
    createClient_reply w = createClient_reply world_ok ->
    past_the_checks w argv_ok).
  { intros w Hu Hk Hf Hc. destruct past_the_checks_ok as (Hb & Hp & H1 & H2 & H3 & H4).
    unfold past_the_checks. rewrite Hu, Hk, Hf, Hc. now repeat split. }
  split; [|split; [|split; [|split; [|split; [|split]]]]].
  - apply (C7_exit_codes world_ok argv_no_bucket sys0).
    left. intros [H|[H|[]]]; discriminate H.
  - apply (C7_exit_codes world_env_unset argv_ok sys0).
    right. right. left. now left.
  - apply (C7_exit_codes world_ok argv_ok sys0);
      [exact past_the_checks_ok|exact every_stage_succeeds_ok].
  - apply (C7_exit_codes world_sign_refused argv_ok sys0);
      [now apply Hready|].
    left. right. eexists. split; [reflexivity|]. left. discriminate.
  - apply (C7_exit_codes world_fetch_404 argv_ok sys0);
      [now apply Hready|].
    right. left. right. eexists. split; [reflexivity|]. now left.
  - apply (C7_exit_codes (with_ffmpeg_run exit_1 world_ok) argv_ok sys0);
      [now apply Hready|].
    right. right. right. left. right. discriminate.
  - apply (C7_exit_codes world_upload_refused argv_ok sys0);
      [now apply Hready|].
    right. right. right. right. right. now eexists.
Defined.

(** ** Publishing twice to one key *)

Lemma at_key_refl (b k : value) (body : bytes) :
  at_key b k {| obj_bucket := b; obj_key := k; obj_body := body |} = true.
Proof.
  unfold at_key. cbn.
  now rewrite !bool_decide_eq_true_2 by reflexivity.
Qed.

Lemma filter_out_then_in {A} (p : A -> bool) (l : list A) :
  List.filter p (List.filter (fun x => negb (p x)) l) = [].
Proof.
  induction l as [|x l IH]; [reflexivity|].
  cbn. destruct (p x) eqn:E; cbn; [assumption|].
  now rewrite E.
Qed.

(** With the upsert option, the key holds the new object and nothing else. *)
Lemma store_upload_upsert (st : list StoredObject) (b k : value) (body : bytes) :
  objects_at (fst (store_upload st b k body upload_options)) b k
  = [published b k body].
Proof.
  unfold store_upload, objects_at, published. cbn.
  now rewrite at_key_refl, filter_out_then_in.
Qed.

(** Without it, a write to an occupied key is refused and the store keeps
    what it had. *)
Lemma store_upload_no_upsert_refused
    (st : list StoredObject) (b k : value) (body : bytes) (o : StoredObject) :
  In o (objects_at st b k) ->
  store_upload st b k body
    {| cacheControl := None; contentType := None; upsert := Some false |}
  = (st, Some "The resource already exists").
Proof.
  unfold objects_at, store_upload. cbn.
  intros [Hin Hk]%filter_In.
  replace (existsb (at_key b k) st) with true; [reflexivity|].
  symmetry. apply existsb_exists. now exists o.
Qed.

(** C8: two successful runs of the script that publish to the same bucket
    and key, one after the other.  Each run reads [preview.mp3] from its own
    scratch directory and uploads what its encoder wrote there, with
    [upsert: true]; after the first run the key holds the first run's
    preview, and after the second run it holds exactly one object, the
    second run's preview. *)
Theorem C8_last_write_wins
    (w1 w2 : World) (argv1 argv2 : list string) (s : Sys) :
  upsert upload_options = Some true /\
  (past_the_checks w1 argv1 ->
   every_stage_succeeds w1 (arg (parseArgs argv1) "path") ->
   past_the_checks w2 argv2 ->
   every_stage_succeeds w2 (arg (parseArgs argv2) "path") ->
   cli_destBucket argv1 = cli_destBucket argv2 ->
   cli_destPath w1 argv1 = cli_destPath w2 argv2 ->
   let b := cli_destBucket argv2 in
   let k := cli_destPath w2 argv2 in
   let s1 := after (main w1 argv1 s) in
   let s2 := after (main w2 argv2 s1) in
   (In (EvCreateReadStream (path_join w1 (scratch_of w1) "preview.mp3"))
       (events (main w1 argv1 s)) /\
    In (EvUpload b k (preview_file w1) upload_options) (events (main w1 argv1 s))) /\
   (In (EvCreateReadStream (path_join w2 (scratch_of w2) "preview.mp3"))
       (events (main w2 argv2 s1)) /\
    In (EvUpload b k (preview_file w2) upload_options) (events (main w2 argv2 s1))) /\
   (forall bucket path body opts,
      In (EvUpload bucket path body opts) (events (main w2 argv2 s1)) ->
      body = preview_file w2) /\
   objects_at (store s1) b k = [published b k (preview_file w1)] /\
   objects_at (store s2) b k = [published b k (preview_file w2)]).
Proof.
  split; [reflexivity|].
  intros Hr1%past_the_checks_ready Hok1%every_stage_pipeline_ok
         Hr2%past_the_checks_ready Hok2%every_stage_pipeline_ok Hb Hk b k s1 s2.
  subst b k s1 s2.
  destruct (main_success w1 argv1 s Hr1 Hok1) as (_ & _ & Hc1 & Hu1 & _ & Hs1 & _).
  destruct (main_success w2 argv2 (after (main w1 argv1 s)) Hr2 Hok2)
    as (_ & _ & Hc2 & Hu2 & _ & Hs2 & _).
  rewrite Hb, Hk in Hu1, Hs1.
  rewrite Hs2, store_upload_upsert. rewrite Hs1, store_upload_upsert.
  repeat split; try assumption.
  intros bucket path body opts Hin.
  now apply main_upload_shape in Hin.
Qed.

Lemma past_the_checks_second : past_the_checks (with_second_run world_ok) argv_ok.
Proof.
  split; [now left|]. split; [right; right; now left|].
  split; [eexists; split; [reflexivity|discriminate]|].
  split; [eexists; split; [reflexivity|discriminate]|].
  now split.
Defined.

Lemma every_stage_succeeds_second :
  every_stage_succeeds (with_second_run world_ok) (arg (parseArgs argv_ok) "path").
Proof.
  split; [do 2 eexists; repeat split; first [reflexivity | discriminate]|].
  split; [do 2 eexists; repeat split; reflexivity|].
  split; [split; [now eexists|]; split; [now eexists|reflexivity]|].
  now repeat split.
Defined.

Lemma C8_witness :
  objects_at
    (store (after (main (with_second_run world_ok) argv_ok
                     (after (main world_ok argv_ok sys0)))))
    (VStr "beat-previews") (VStr "previews/preview_track1.mp3")
  = [published (VStr "beat-previews") (VStr "previews/preview_track1.mp3")
       other_preview_bytes].
Proof.
  exact (proj2 (proj2 (proj2 (proj2
    (proj2 (C8_last_write_wins world_ok (with_second_run world_ok)
              argv_ok argv_ok sys0)
       past_the_checks_ok every_stage_succeeds_ok
       past_the_checks_second every_stage_succeeds_second eq_refl eq_refl))))).
Defined.

(** ** A failing removal of the scratch directory *)



(** ** Flags without a value *)

Lemma parseArgs_bare_bucket (p : string) :
  p <> "" -> startsWith "--" p = false ->
  parseArgs ["--bucket"; "--path"; p]
  = <["path" := VStr p]> (<["bucket" := VBool true]> ∅).
Proof.
  intros Hp%String.eqb_neq Hs. unfold parseArgs.
  rewrite parseArgs_from_cons.
  change (startsWith "--" "--bucket") with true. cbv iota.
  change (negb ("--path" =? "") && negb (startsWith "--" "--path")) with false.
  cbv iota. rewrite parseArgs_from_cons.
  change (startsWith "--" "--path") with true. cbv iota.
  rewrite Hp, Hs. reflexivity.
Qed.

(** C10: a flag followed by another flag, or standing last, is given the
    boolean [true]; so [--bucket --path <p>] passes the check for required
    flags, and with the environment set and the encoder present the script
    does not exit with 2 but goes on to ask for a signed URL with [true] as
    the bucket. *)
Theorem C10_flag_without_value_is_true :
  (forall (k : string) (pre rest : list string),
     k <> "__proto__" ->
     rest = [] \/ (exists b rest', rest = b :: rest' /\ startsWith "--" b = true) ->
     ~ In ("--" ++ k) rest ->
     arg (parseArgs (pre ++ ("--" ++ k) :: rest)) k = VBool true) /\
  (forall (w : World) (p : string) (s : Sys),
     p <> "" -> startsWith "--" p = false ->
     truthy_str (env_SUPABASE_URL w) = true ->
     truthy_str (env_SUPABASE_SERVICE_ROLE_KEY w) = true ->
     sp_error (ffmpeg_version w) = None ->
     createClient_reply w = None ->
     arg (parseArgs ["--bucket"; "--path"; p]) "bucket" = VBool true /\
     truthy (arg (parseArgs ["--bucket"; "--path"; p]) "bucket") = true /\
     outcome (main w ["--bucket"; "--path"; p] s) <> Exits 2 /\
     In (EvCreateSignedUrl (VBool true) (VStr p) 60)
        (events (main w ["--bucket"; "--path"; p] s))).
Proof.
  split.
  - intros k pre rest Hk Hrest Hnot.
    now apply parseArgs_flag_without_value.
  - intros w p s Hp Hs Hu Hk Hf Hc.
    assert (Hb : arg (parseArgs ["--bucket"; "--path"; p]) "bucket" = VBool true).
    { unfold arg. now rewrite parseArgs_bare_bucket. }
    assert (Hpath : arg (parseArgs ["--bucket"; "--path"; p]) "path" = VStr p).
    { unfold arg. rewrite parseArgs_bare_bucket by assumption.
      now rewrite lookup_insert_eq. }
    split; [exact Hb|]. split; [now rewrite Hb|].
    apply String.eqb_neq in Hp.
    run_main. rewrite Hb, Hpath, Hu, Hk, Hf, Hc. cbn. rewrite Hp. 
    branches; (split; [discriminate|repeat first [left; reflexivity | right]]).
Qed.

Lemma C10_witness :
  arg (parseArgs argv_bare_bucket) "bucket" = VBool true /\
  outcome (main world_ok argv_bare_bucket sys0) <> Exits 2 /\
  In (EvCreateSignedUrl (VBool true) (VStr "mp3/track1.wav") 60)
     (events (main world_ok argv_bare_bucket sys0)).
Proof.
  destruct (proj2 C10_flag_without_value_is_true world_ok "mp3/track1.wav" sys0)
    as (Hb & _ & Hx & Hin); try reflexivity; [discriminate|].
  split; [|split].
  - exact (proj1 C10_flag_without_value_is_true "bucket" []
             ["--path"; "mp3/track1.wav"]
             ltac:(discriminate)
             (or_intror (ex_intro _ "--path" (ex_intro _ ["mp3/track1.wav"] (conj eq_refl eq_refl))))
             ltac:(intros [H|[H|[]]]; discriminate H)).
  - exact Hx.
  - exact Hin.
Defined.

(** * Properties of the webhook, the subscription service and the helpers *)

(** ** Running the services symbolically *)

Ltac unfold_fx :=
  cbv [Fx.bind Fx.ret Fx.throw Fx.finish Fx.emit Fx.when Fx.try_catch
       Fx.of_reply Fx.call
       SubscriptionService.console_log SubscriptionService.console_error
       SubscriptionService.str SubscriptionService.getPlanLevel
       SubscriptionService.select_single SubscriptionService.insert
       SubscriptionService.update SubscriptionService.sendUpgradeEmail
       SubscriptionService.div100].

Ltac run_upgrade :=
  unfold SubscriptionService.upgradeUserPlan,
    SubscriptionService.upgradeUserPlan_try; unfold_fx.

Ltac run_webhook :=
  unfold PaystackWebhook.handler, PaystackWebhook.handler_try,
    SubscriptionService.handlePaymentWebhook,
    SubscriptionService.handlePaymentWebhook_try,
    SubscriptionService.processSuccessfulCharge,
    SubscriptionService.handleFailedRenewal,
    SubscriptionService.processAffiliatePayout;
  run_upgrade.

(** ** The service never throws *)

Lemma upgradeUserPlan_returns (R : Type) (w : SvcWorld)
    (userId newPlan paymentReference amount : value) :
  exists r l,
    SubscriptionService.upgradeUserPlan (R := R) w userId newPlan paymentReference amount
    = (Val r, l).
Proof.
  run_upgrade. branches; eexists _, _; reflexivity.
Qed.

Arguments SubscriptionService.upgradeUserPlan : simpl never.

Ltac run_service :=
  unfold SubscriptionService.handlePaymentWebhook,
    SubscriptionService.handlePaymentWebhook_try,
    SubscriptionService.processSuccessfulCharge,
    SubscriptionService.handleFailedRenewal,
    SubscriptionService.processAffiliatePayout;
  unfold_fx.

(** Replace a call of [upgradeUserPlan] by the result it returns. *)
Ltac upgrade_returned :=
  match goal with
  | |- context [@SubscriptionService.upgradeUserPlan ?R ?w ?a ?b ?c ?d] =>
      let r := fresh "r" in
      let l := fresh "l" in
      let E := fresh "E" in
      destruct (upgradeUserPlan_returns R w a b c d) as (r & l & E);
      rewrite E; clear E
  end.

Ltac service_branches := cbn; repeat (first [upgrade_returned | branch]; cbn).

Lemma handlePaymentWebhook_returns (R : Type) (w : SvcWorld) (payload : value) :
  exists r l,
    SubscriptionService.handlePaymentWebhook (R := R) w payload = (Val r, l).
Proof.
  run_service. service_branches; eexists _, _; reflexivity.
Qed.

Arguments SubscriptionService.handlePaymentWebhook : simpl never.

(** ** The responses of the webhook *)

(** X1: the webhook answers 405 to any method but POST, without reading the
    body; 500 to a POST whose body is not JSON, without any call on the
    database; and 200 to every POST whose body is JSON, whatever the
    signature header, the configured secret and the outcome of processing
    are. *)
Theorem webhook_responses (w : SvcWorld) (req : PaystackWebhook.WebhookRequest) :
  (method (PaystackWebhook.request req) <> "POST" ->
   PaystackWebhook.handler w req
   = (Val (text_response 405 "Method not allowed"), [])) /\
  (method (PaystackWebhook.request req) = "POST" ->
   json (PaystackWebhook.request req) = None ->
   PaystackWebhook.handler w req
   = (Val (text_response 500 "Error processing webhook"),
      [SvReadBody;
       SvConsoleError ["Webhook error:"; "SyntaxError: Unexpected token in JSON"]])) /\
  (method (PaystackWebhook.request req) = "POST" ->
   json (PaystackWebhook.request req) <> None ->
   exists l,
     PaystackWebhook.handler w req
     = (Val (text_response 200 "Webhook processed"), SvReadBody :: l)).
Proof.
  unfold PaystackWebhook.handler, PaystackWebhook.handler_try.
  split; [|split].
  - intros Hm%String.eqb_neq. unfold_fx. now rewrite Hm.
  - intros Hm Hj. unfold_fx. now rewrite Hm, Hj.
  - intros Hm Hj. destruct (json (PaystackWebhook.request req)) as [payload|] eqn:E;
      [|congruence].
    destruct (handlePaymentWebhook_returns Response w payload) as (r & l & Hr).
    unfold_fx. rewrite Hm, Hr. cbn. now eexists.
Qed.

Lemma webhook_responses_witness :
  PaystackWebhook.handler (svc_world (VStr "Basic")) webhook_get
  = (Val (text_response 405 "Method not allowed"), []) /\
  PaystackWebhook.handler (svc_world (VStr "Basic")) (webhook_post None None)
  = (Val (text_response 500 "Error processing webhook"),
     [SvReadBody;
      SvConsoleError ["Webhook error:"; "SyntaxError: Unexpected token in JSON"]]) /\
  exists l,
    PaystackWebhook.handler (svc_world (VStr "Basic"))
      (webhook_post (Some (charge_payload (VStr "Pro"))) None)
    = (Val (text_response 200 "Webhook processed"), SvReadBody :: l).
Proof.
  split; [|split].
  - apply (webhook_responses (svc_world (VStr "Basic")) webhook_get). discriminate.
  - now apply (webhook_responses (svc_world (VStr "Basic")) (webhook_post None None)).
  - apply (webhook_responses (svc_world (VStr "Basic"))
             (webhook_post (Some (charge_payload (VStr "Pro"))) None));
      [reflexivity|discriminate].
Defined.

(** ** Events the service ignores *)

(** X2: a payload whose [event] is none of [charge.success],
    [subscription.not_renew] and [transfer.success] (or is missing) is
    reported as a success and nothing is read, written or logged. *)
Theorem webhook_ignores_other_events
    (R : Type) (w : SvcWorld) (payload event : value) :
  member payload "event" = Returns event ->
  event <> VStr "charge.success" ->
  event <> VStr "subscription.not_renew" ->
  event <> VStr "transfer.success" ->
  SubscriptionService.handlePaymentWebhook (R := R) w payload
  = (Val {| SubscriptionService.wh_success := true;
            SubscriptionService.wh_error := None |}, []).
Proof.
  intros He H1 H2 H3.
  assert (Hd : exists data, member payload "data" = Returns data).
  { destruct payload; try discriminate He; eexists; reflexivity. }
  destruct Hd as [data Hd].
  unfold SubscriptionService.handlePaymentWebhook,
    SubscriptionService.handlePaymentWebhook_try. unfold_fx.
  rewrite He, Hd.
  rewrite !bool_decide_eq_false_2 by assumption.
  reflexivity.
Qed.

Lemma webhook_ignores_other_events_witness :
  SubscriptionService.handlePaymentWebhook (R := unit) (svc_world (VStr "Basic"))
    (VObj [("event", VStr "invoice.create"); ("data", VNull)])
  = (Val {| SubscriptionService.wh_success := true;
            SubscriptionService.wh_error := None |}, []).
Proof.
  apply (webhook_ignores_other_events unit (svc_world (VStr "Basic")) _
           (VStr "invoice.create")); [reflexivity|discriminate..].
Defined.

(** X3: a [charge.success] whose data carries no [metadata.user_id] or no
    [metadata.plan] is reported as a success although nothing is read or
    written; when its [data] is [null] or missing, the failure is reported
    and again no table is touched. *)
Theorem charge_without_user_or_plan
    (R : Type) (w : SvcWorld) (payload data : value) :
  member payload "event" = Returns (VStr "charge.success") ->
  member payload "data" = Returns data ->
  (forall metadata,
     member data "metadata" = Returns metadata ->
     truthy (field metadata "user_id") && truthy (field metadata "plan") = false ->
     SubscriptionService.handlePaymentWebhook (R := R) w payload
     = (Val {| SubscriptionService.wh_success := true;
               SubscriptionService.wh_error := None |}, [])) /\
  (forall e,
     member data "metadata" = Throws e ->
     SubscriptionService.handlePaymentWebhook (R := R) w payload
     = (Val {| SubscriptionService.wh_success := false;
               SubscriptionService.wh_error := Some e |},
        [SvConsoleError ["Webhook error:"; e]])).
Proof.
  intros He Hd. split.
  - intros metadata Hm Hf. run_service. rewrite He, Hd. cbn.
    rewrite Hm. cbn. rewrite Hf. reflexivity.
  - intros e Hm. run_service. rewrite He, Hd. cbn. rewrite Hm. reflexivity.
Qed.

Lemma charge_without_user_or_plan_witness :
  SubscriptionService.handlePaymentWebhook (R := unit) (svc_world (VStr "Basic"))
    (VObj [("event", VStr "charge.success");
           ("data", VObj [("metadata", VObj [("user_id", VStr "user-1")])])])
  = (Val {| SubscriptionService.wh_success := true;
            SubscriptionService.wh_error := None |}, []) /\
  SubscriptionService.handlePaymentWebhook (R := unit) (svc_world (VStr "Basic"))
    (VObj [("event", VStr "charge.success")])
  = (Val {| SubscriptionService.wh_success := false;
            SubscriptionService.wh_error :=
              Some "TypeError: Cannot read properties of undefined" |},
     [SvConsoleError ["Webhook error:";
                      "TypeError: Cannot read properties of undefined"]]).
Proof.
  split.
  - exact (proj1 (charge_without_user_or_plan unit (svc_world (VStr "Basic"))
                    (VObj [("event", VStr "charge.success");
                           ("data", VObj [("metadata", VObj [("user_id", VStr "user-1")])])])
                    (VObj [("metadata", VObj [("user_id", VStr "user-1")])])
                    eq_refl eq_refl)
             (VObj [("user_id", VStr "user-1")]) eq_refl eq_refl).
  - exact (proj2 (charge_without_user_or_plan unit (svc_world (VStr "Basic"))
                    (VObj [("event", VStr "charge.success")]) VUndefined
                    eq_refl eq_refl)
             _ eq_refl).
Defined.

(** ** What [upgradeUserPlan] validates *)

Lemma upgrade_validation (R : Type) (w : SvcWorld)
    (userId newPlan paymentReference amount user : value) (pn pc : string) :
  profiles_select w = Returns (user, None) ->
  truthy user = true ->
  to_string newPlan = Some pn ->
  to_string (field user "plan_tier") = Some pc ->
  (SubscriptionService.level_le w (SubscriptionService.levels pn)
     (SubscriptionService.levels pc) = true ->
   SubscriptionService.upgradeUserPlan (R := R) w userId newPlan paymentReference amount
   = (Val (SubscriptionService.failure
             ("You can only upgrade to a higher plan. Current: " ++ pc)),
      [SvSelect "profiles" "*" "id" userId])) /\
  (SubscriptionService.level_le w (SubscriptionService.levels pn)
     (SubscriptionService.levels pc) = false ->
   exists r l,
     SubscriptionService.upgradeUserPlan (R := R) w userId newPlan paymentReference amount
     = (Val r,
        SvSelect "profiles" "*" "id" userId
        :: SvInsert "payments"
             (payment_row w userId newPlan paymentReference amount
                (field user "plan_tier"))
        :: l)).
Proof.
  intros Hs Hu Hn Hc. split; intros Hle.
  - run_upgrade. rewrite Hs. cbn. rewrite Hu, Hn. cbn. rewrite Hc. cbn.
    rewrite Hle. reflexivity.
  - run_upgrade. rewrite Hs. cbn. rewrite Hu, Hn. cbn. rewrite Hc. cbn.
    rewrite Hle. branches; eexists _, _; reflexivity.
Qed.

Lemma levels_known (name : string) :
  known_plan name ->
  exists n, SubscriptionService.levels name = SubscriptionService.LNumber n /\
            1 <= n <= 3.
Proof. intros [-> | [-> | ->]]; eexists; (split; [reflexivity|lia]). Qed.

Lemma level_le_numbers (w : SvcWorld) (pn pc : string) (n c : Z) :
  SubscriptionService.levels pn = SubscriptionService.LNumber n ->
  SubscriptionService.levels pc = SubscriptionService.LNumber c ->
  SubscriptionService.level_le w (SubscriptionService.levels pn)
    (SubscriptionService.levels pc) = Z.leb n c.
Proof. intros -> ->. reflexivity. Qed.

(** X4: for a profile on one of the three plans and a request for one of the
    three plans, [upgradeUserPlan] refuses exactly the plans that are not
    higher than the current one, naming the current plan and writing
    nothing; for a higher plan it goes on to record the payment. *)
Theorem upgrade_refuses_plans_not_higher (R : Type) (w : SvcWorld)
    (userId paymentReference amount user : value) (pn pc : string) (n c : Z) :
  profiles_select w = Returns (user, None) ->
  truthy user = true ->
  field user "plan_tier" = VStr pc ->
  SubscriptionService.levels pn = SubscriptionService.LNumber n ->
  SubscriptionService.levels pc = SubscriptionService.LNumber c ->
  (n <= c ->
   SubscriptionService.upgradeUserPlan (R := R) w userId (VStr pn) paymentReference amount
   = (Val (SubscriptionService.failure
             ("You can only upgrade to a higher plan. Current: " ++ pc)),
      [SvSelect "profiles" "*" "id" userId])) /\
  (c < n ->
   exists r l,
     SubscriptionService.upgradeUserPlan (R := R) w userId (VStr pn) paymentReference amount
     = (Val r,
        SvSelect "profiles" "*" "id" userId
        :: SvInsert "payments"
             (payment_row w userId (VStr pn) paymentReference amount (VStr pc))
        :: l)).
Proof.
  intros Hs Hu Hp Hn Hc.
  destruct (upgrade_validation R w userId (VStr pn) paymentReference amount user pn pc
              Hs Hu eq_refl) as [Hrej Hacc]; [now rewrite Hp|].
  rewrite (level_le_numbers w pn pc n c Hn Hc) in Hrej, Hacc. rewrite Hp in Hacc.
  split; intros H.
  - apply Hrej. now apply Z.leb_le.
  - apply Hacc. apply Z.leb_gt. lia.
Qed.

Lemma upgrade_refuses_plans_not_higher_witness :
  SubscriptionService.upgradeUserPlan (R := unit) (svc_world (VStr "Pro"))
    (VStr "user-1") (VStr "Pro") (VStr "ref_123") (VNum 5000)
  = (Val (SubscriptionService.failure
            "You can only upgrade to a higher plan. Current: Pro"),
     [SvSelect "profiles" "*" "id" (VStr "user-1")]) /\
  exists r l,
    SubscriptionService.upgradeUserPlan (R := unit) (svc_world (VStr "Basic"))
      (VStr "user-1") (VStr "Pro") (VStr "ref_123") (VNum 5000)
    = (Val r,
       SvSelect "profiles" "*" "id" (VStr "user-1")
       :: SvInsert "payments"
            (payment_row (svc_world (VStr "Basic")) (VStr "user-1") (VStr "Pro")
               (VStr "ref_123") (VNum 5000) (VStr "Basic"))
       :: l).
Proof.
  split.
  - apply (proj1 (upgrade_refuses_plans_not_higher unit (svc_world (VStr "Pro"))
                    (VStr "user-1") (VStr "ref_123") (VNum 5000)
                    (profile_of (VStr "Pro")) "Pro" "Pro" 2 2
                    eq_refl eq_refl eq_refl eq_refl eq_refl)).
    lia.
  - apply (proj2 (upgrade_refuses_plans_not_higher unit (svc_world (VStr "Basic"))
                    (VStr "user-1") (VStr "ref_123") (VNum 5000)
                    (profile_of (VStr "Basic")) "Pro" "Basic" 2 1
                    eq_refl eq_refl eq_refl eq_refl eq_refl)).
    lia.
Defined.

(** X5: when the requested plan or the profile's current plan is a name the
    service has no level for (a profile whose [plan_tier] is [null], a plan
    called [Platinum]), the comparison of levels is false and the upgrade is
    not refused: the payment is recorded under that name. *)
Theorem upgrade_accepts_unknown_plans (R : Type) (w : SvcWorld)
    (userId newPlan paymentReference amount user : value) (pn pc : string) :
  profiles_select w = Returns (user, None) ->
  truthy user = true ->
  to_string newPlan = Some pn ->
  to_string (field user "plan_tier") = Some pc ->
  SubscriptionService.levels pn = SubscriptionService.LUndefined \/
  SubscriptionService.levels pc = SubscriptionService.LUndefined ->
  exists r l,
    SubscriptionService.upgradeUserPlan (R := R) w userId newPlan paymentReference amount
    = (Val r,
       SvSelect "profiles" "*" "id" userId
       :: SvInsert "payments"
            (payment_row w userId newPlan paymentReference amount
               (field user "plan_tier"))
       :: l).
Proof.
  intros Hs Hu Hn Hc Hunknown.
  apply (upgrade_validation R w userId newPlan paymentReference amount user pn pc
           Hs Hu Hn Hc).
  destruct Hunknown as [-> | ->]; [reflexivity|].
  now destruct (SubscriptionService.levels pn).
Qed.

Lemma upgrade_accepts_unknown_plans_witness :
  exists r l,
    SubscriptionService.upgradeUserPlan (R := unit) (svc_world VNull)
      (VStr "user-1") (VStr "Basic") (VStr "ref_123") (VNum 0)
    = (Val r,
       SvSelect "profiles" "*" "id" (VStr "user-1")
       :: SvInsert "payments"
            (payment_row (svc_world VNull) (VStr "user-1") (VStr "Basic")
               (VStr "ref_123") (VNum 0) VNull)
       :: l).
Proof.
  apply (upgrade_accepts_unknown_plans unit (svc_world VNull)
           (VStr "user-1") (VStr "Basic") (VStr "ref_123") (VNum 0)
           (profile_of VNull) "Basic" "null" eq_refl eq_refl eq_refl eq_refl).
  right. reflexivity.
Defined.

(** ** The order of the writes *)

Lemma comes_after_nil {E : Type} (P Q : E -> Prop) : comes_after P Q [].
Proof. intros l1 e l2 H. destruct l1; discriminate. Qed.

Lemma comes_after_skip {E : Type} (P Q : E -> Prop) (e : E) (l : list E) :
  ~ Q e -> comes_after P Q l -> comes_after P Q (e :: l).
Proof.
  unfold comes_after. intros Hq Hl l1 e0 l2 Heq Hq0.
  destruct l1 as [|x l1]; cbn in Heq; inversion Heq; subst.
  - contradiction.
  - destruct (Hl l1 e0 l2 eq_refl Hq0) as [e' [Hin Hp]].
    exists e'. split; [now right|assumption].
Qed.

Lemma comes_after_seen {E : Type} (P Q : E -> Prop) (e : E) (l : list E) :
  P e -> ~ Q e -> comes_after P Q (e :: l).
Proof.
  unfold comes_after. intros Hp Hq l1 e0 l2 Heq Hq0.
  destruct l1 as [|x l1]; cbn in Heq; inversion Heq; subst.
  - contradiction.
  - exists x. split; [now left|assumption].
Qed.

Ltac not_write :=
  let H := fresh in
  intros [(? & ? & H)|(? & ? & ? & ? & H)]; discriminate H.

Ltac not_payment := let H := fresh in intros (? & H); discriminate H.

Ltac not_profile_update :=
  let H := fresh in intros (? & ? & ? & H); discriminate H.

Ltac ordered not_q :=
  repeat first
    [ apply comes_after_nil
    | apply comes_after_seen; [eexists; reflexivity | not_q]
    | apply comes_after_skip; [not_q|] ].

(** X6: in every run of [upgradeUserPlan] the profile is read before anything
    is written and the payment is recorded before the profile is changed; and
    when recording the payment fails, with an error or an exception, the
    profile is never changed. *)
Theorem upgrade_writes_in_order (R : Type) (w : SvcWorld)
    (userId newPlan paymentReference amount : value) :
  let events :=
    snd (SubscriptionService.upgradeUserPlan (R := R) w userId newPlan
           paymentReference amount) in
  comes_after is_profile_select is_write events /\
  comes_after is_payment_insert is_profile_update events /\
  (payments_insert w <> Returns None ->
   Forall (fun e => ~ is_profile_update e) events).
Proof.
  cbv zeta. split; [|split].
  - run_upgrade. branches; ordered not_write.
  - run_upgrade. branches; ordered not_profile_update.
  - intros Hp. run_upgrade.
    branches; try congruence;
      repeat (constructor; [not_profile_update|]); constructor.
Qed.

Lemma upgrade_writes_in_order_witness :
  payments_insert svc_world_payment_refused <> Returns None /\
  Forall (fun e => ~ is_profile_update e)
    (snd (SubscriptionService.upgradeUserPlan (R := unit) svc_world_payment_refused
            (VStr "user-1") (VStr "Pro") (VStr "ref_123") (VNum 5000))).
Proof.
  split; [discriminate|].
  apply upgrade_writes_in_order. discriminate.
Defined.

(** X7: the writes are not undone.  When the payment has been recorded and
    the profile changed, and then the log insert throws or the e-mail line
    cannot be printed, the caller is told "Upgrade failed. Please contact
    support." although both writes have been made. *)
Theorem upgrade_failure_after_writes (R : Type) (w : SvcWorld)
    (userId newPlan paymentReference amount user : value) (pn pc : string) :
  profiles_select w = Returns (user, None) ->
  truthy user = true ->
  to_string newPlan = Some pn ->
  to_string (field user "plan_tier") = Some pc ->
  SubscriptionService.level_le w (SubscriptionService.levels pn)
    (SubscriptionService.levels pc) = false ->
  payments_insert w = Returns None ->
  profiles_update_plan w = Returns None ->
  (exists e, subscription_logs_insert w = Throws e) \/
  to_string (field user "email") = None ->
  exists l,
    SubscriptionService.upgradeUserPlan (R := R) w userId newPlan paymentReference amount
    = (Val (SubscriptionService.failure "Upgrade failed. Please contact support."), l) /\
    In (SvInsert "payments"
          (payment_row w userId newPlan paymentReference amount
             (field user "plan_tier"))) l /\
    In (SvUpdate "profiles" (plan_patch w newPlan) "id" userId) l.
Proof.
  intros Hs Hu Hn Hc Hle Hp Hup Hlate.
  run_upgrade. rewrite Hs. cbn. rewrite Hu, Hn. cbn. rewrite Hc. cbn.
  rewrite Hle, Hp. cbn. rewrite Hup. cbn.
  destruct Hlate as [[e He]|He]; rewrite He;
    branches;
    (eexists; split; [reflexivity|]; cbn; split;
     repeat first [left; reflexivity | right]).
Qed.

Lemma upgrade_failure_after_writes_witness :
  exists l,
    SubscriptionService.upgradeUserPlan (R := unit) svc_world_log_lost
      (VStr "user-1") (VStr "Pro") (VStr "ref_123") (VNum 5000)
    = (Val (SubscriptionService.failure "Upgrade failed. Please contact support."), l) /\
    In (SvInsert "payments"
          (payment_row svc_world_log_lost (VStr "user-1") (VStr "Pro")
             (VStr "ref_123") (VNum 5000) (VStr "Basic"))) l /\
    In (SvUpdate "profiles" (plan_patch svc_world_log_lost (VStr "Pro")) "id"
          (VStr "user-1")) l.
Proof.
  apply (upgrade_failure_after_writes unit svc_world_log_lost
           (VStr "user-1") (VStr "Pro") (VStr "ref_123") (VNum 5000)
           (profile_of (VStr "Basic")) "Pro" "Basic");
    try reflexivity.
  left. eexists. reflexivity.
Defined.

(** ** The upgrades on offer *)

Lemma getAvailableUpgrades_found (R : Type) (w : SvcWorld) (userId user : value)
    (pc : string) :
  upgrades_select w = Returns user ->
  truthy user = true ->
  to_string (field user "plan_tier") = Some pc ->
  SubscriptionService.getAvailableUpgrades (R := R) w userId
  = (Val (List.filter
            (fun plan => SubscriptionService.level_gt w
                           (SubscriptionService.levels plan)
                           (SubscriptionService.levels pc))
            ["Basic"; "Pro"; "Exclusive"]),
     [SvSelect "profiles" "plan_tier" "id" userId]).
Proof.
  intros Hs Hu Hc.
  unfold SubscriptionService.getAvailableUpgrades,
    SubscriptionService.getAvailableUpgrades_try. unfold_fx.
  rewrite Hs. cbn. rewrite Hu. cbn. rewrite Hc. reflexivity.
Qed.

Lemma known_plan_in (p : string) :
  In p ["Basic"; "Pro"; "Exclusive"] <-> known_plan p.
Proof. unfold known_plan. cbn. intuition congruence. Qed.

Lemma higher_plans (w : SvcWorld) (c : Z) (p : string) :
  In p (List.filter
          (fun plan => SubscriptionService.level_gt w
                         (SubscriptionService.levels plan)
                         (SubscriptionService.LNumber c))
          ["Basic"; "Pro"; "Exclusive"]) <->
  known_plan p /\
  exists n, SubscriptionService.levels p = SubscriptionService.LNumber n /\ c < n.
Proof.
  rewrite filter_In, known_plan_in. split.
  - intros [Hk Hgt]. split; [assumption|].
    destruct (levels_known p Hk) as (n & Hn & _). exists n.
    split; [assumption|]. rewrite Hn in Hgt. cbn in Hgt. now apply Z.ltb_lt.
  - intros [Hk (n & Hn & Hlt)]. split; [assumption|].
    rewrite Hn. cbn. now apply Z.ltb_lt.
Qed.

(** X8: [getAvailableUpgrades] never throws; for a profile on one of the
    three plans it offers exactly the plans of a strictly higher level, so
    never the current one; and it offers nothing when the profile is
    missing, when the query throws, or when the profile's plan is a name
    without a level. *)
Theorem available_upgrades (R : Type) (w : SvcWorld) (userId : value) :
  (exists plans l,
     SubscriptionService.getAvailableUpgrades (R := R) w userId = (Val plans, l)) /\
  (forall user pc c,
     upgrades_select w = Returns user ->
     truthy user = true ->
     to_string (field user "plan_tier") = Some pc ->
     SubscriptionService.levels pc = SubscriptionService.LNumber c ->
     exists plans,
       SubscriptionService.getAvailableUpgrades (R := R) w userId
       = (Val plans, [SvSelect "profiles" "plan_tier" "id" userId]) /\
       ~ In pc plans /\
       forall p,
         In p plans <->
         known_plan p /\
         exists n, SubscriptionService.levels p = SubscriptionService.LNumber n /\ c < n) /\
  ((exists e, upgrades_select w = Throws e) \/
   (exists user, upgrades_select w = Returns user /\
      (truthy user = false \/
       exists pc, to_string (field user "plan_tier") = Some pc /\
                  SubscriptionService.levels pc = SubscriptionService.LUndefined)) ->
   exists l, SubscriptionService.getAvailableUpgrades (R := R) w userId = (Val [], l)).
Proof.
  split; [|split].
  - unfold SubscriptionService.getAvailableUpgrades,
      SubscriptionService.getAvailableUpgrades_try. unfold_fx.
    branches; eexists _, _; reflexivity.
  - intros user pc c Hs Hu Hc Hl.
    eexists. split; [exact (getAvailableUpgrades_found R w userId user pc Hs Hu Hc)|].
    rewrite Hl. split; [|exact (higher_plans w c)].
    intros Hin. apply (higher_plans w c) in Hin. destruct Hin as [_ (n & Hn & Hlt)].
    rewrite Hl in Hn. injection Hn as ->. lia.
  - intros [[e He]|(user & Hs & [Hu|(pc & Hc & Hl)])].
    + unfold SubscriptionService.getAvailableUpgrades,
        SubscriptionService.getAvailableUpgrades_try. unfold_fx.
      rewrite He. cbn. eexists. reflexivity.
    + unfold SubscriptionService.getAvailableUpgrades,
        SubscriptionService.getAvailableUpgrades_try. unfold_fx.
      rewrite Hs. cbn. rewrite Hu. cbn. eexists. reflexivity.
    + destruct (truthy user) eqn:Hu.
      * rewrite (getAvailableUpgrades_found R w userId user pc Hs Hu Hc), Hl.
        cbn. eexists. reflexivity.
      * unfold SubscriptionService.getAvailableUpgrades,
          SubscriptionService.getAvailableUpgrades_try. unfold_fx.
        rewrite Hs. cbn. rewrite Hu. cbn. eexists. reflexivity.
Qed.

Lemma available_upgrades_witness :
  (exists plans,
     SubscriptionService.getAvailableUpgrades (R := unit) (svc_world (VStr "Pro"))
       (VStr "user-1")
     = (Val plans, [SvSelect "profiles" "plan_tier" "id" (VStr "user-1")]) /\
     ~ In "Pro" plans /\
     forall p,
       In p plans <->
       known_plan p /\
       exists n, SubscriptionService.levels p = SubscriptionService.LNumber n /\ 2 < n) /\
  (exists l,
     SubscriptionService.getAvailableUpgrades (R := unit) (svc_world VNull)
       (VStr "user-1") = (Val [], l)).
Proof.
  split.
  - apply (proj1 (proj2 (available_upgrades unit (svc_world (VStr "Pro")) (VStr "user-1")))
             (profile_of (VStr "Pro")) "Pro" 2); reflexivity.
  - apply (proj2 (proj2 (available_upgrades unit (svc_world VNull) (VStr "user-1")))).
    right. exists (profile_of VNull). split; [reflexivity|].
    right. exists "null". split; reflexivity.
Defined.

(** X9: what is offered is what is accepted.  For a profile on one of the
    three plans, a plan name is among the upgrades [getAvailableUpgrades]
    offers exactly when it is one of the three plans and [upgradeUserPlan]
    does not refuse it but goes on to record the payment. *)
Theorem offered_upgrades_are_accepted (R : Type) (w : SvcWorld)
    (userId paymentReference amount user : value) (pc : string) (c : Z)
    (plans : list string) (l0 : list SvcEvent) :
  profiles_select w = Returns (user, None) ->
  upgrades_select w = Returns user ->
  truthy user = true ->
  field user "plan_tier" = VStr pc ->
  SubscriptionService.levels pc = SubscriptionService.LNumber c ->
  SubscriptionService.getAvailableUpgrades (R := R) w userId = (Val plans, l0) ->
  forall p,
    In p plans <->
    known_plan p /\
    exists r l,
      SubscriptionService.upgradeUserPlan (R := R) w userId (VStr p) paymentReference amount
      = (Val r,
         SvSelect "profiles" "*" "id" userId
         :: SvInsert "payments"
              (payment_row w userId (VStr p) paymentReference amount (VStr pc))
         :: l).
Proof.
  intros Hs Hsel Hu Hp Hc Hoffer p.
  assert (Hpc : to_string (field user "plan_tier") = Some pc) by now rewrite Hp.
  rewrite (getAvailableUpgrades_found R w userId user pc Hsel Hu Hpc), Hc in Hoffer.
  injection Hoffer as <- _.
  rewrite (higher_plans w c p).
  pose proof (upgrade_validation R w userId (VStr p) paymentReference amount user
                p pc Hs Hu eq_refl Hpc) as [Hrej Hacc].
  rewrite Hp in Hacc. split.
  - intros [Hk (n & Hn & Hlt)]. split; [assumption|].
    apply Hacc. rewrite (level_le_numbers w p pc n c Hn Hc). apply Z.leb_gt. lia.
  - intros [Hk (r & l & Hrun)]. split; [assumption|].
    destruct (levels_known p Hk) as (n & Hn & _). exists n. split; [assumption|].
    destruct (Z.le_gt_cases n c) as [Hle|Hgt]; [|lia].
    rewrite Hrej in Hrun; [discriminate Hrun|].
    rewrite (level_le_numbers w p pc n c Hn Hc). now apply Z.leb_le.
Qed.

Lemma offered_upgrades_are_accepted_witness :
  In "Exclusive" ["Pro"; "Exclusive"] <->
  known_plan "Exclusive" /\
  exists r l,
    SubscriptionService.upgradeUserPlan (R := unit) (svc_world (VStr "Basic"))
      (VStr "user-1") (VStr "Exclusive") (VStr "ref_123") (VNum 5000)
    = (Val r,
       SvSelect "profiles" "*" "id" (VStr "user-1")
       :: SvInsert "payments"
            (payment_row (svc_world (VStr "Basic")) (VStr "user-1") (VStr "Exclusive")
               (VStr "ref_123") (VNum 5000) (VStr "Basic"))
       :: l).
Proof.
  apply (offered_upgrades_are_accepted unit (svc_world (VStr "Basic"))
           (VStr "user-1") (VStr "ref_123") (VNum 5000)
           (profile_of (VStr "Basic")) "Basic" 1 ["Pro"; "Exclusive"]
           [SvSelect "profiles" "plan_tier" "id" (VStr "user-1")]);
    reflexivity.
Defined.

(** ** A charge that upgrades nothing *)

Lemma levels_number_known (p : string) (n : Z) :
  SubscriptionService.levels p = SubscriptionService.LNumber n -> known_plan p.
Proof.
  unfold SubscriptionService.levels, known_plan.
  destruct (String.eqb_spec p "Basic"); [now left|].
  destruct (String.eqb_spec p "Pro"); [now right; left|].
  destruct (String.eqb_spec p "Exclusive"); [now right; right|].
  now destruct (existsb _ _).
Qed.

(** X10: a delivered [charge.success] for a plan that is not higher than the
    one the profile already has (a renewal of the same plan, say) is answered
    with 200 "Webhook processed", and all the service has done is read the
    profile: no payment is recorded and nothing is logged. *)
Theorem charge_for_plan_not_higher_records_nothing
    (w : SvcWorld) (req : PaystackWebhook.WebhookRequest)
    (payload data metadata userId amount user : value)
    (pn pc printed : string) (n c : Z) :
  method (PaystackWebhook.request req) = "POST" ->
  json (PaystackWebhook.request req) = Some payload ->
  member payload "event" = Returns (VStr "charge.success") ->
  member payload "data" = Returns data ->
  member data "metadata" = Returns metadata ->
  field metadata "user_id" = userId ->
  truthy userId = true ->
  field metadata "plan" = VStr pn ->
  member data "amount" = Returns amount ->
  to_string amount = Some printed ->
  profiles_select w = Returns (user, None) ->
  truthy user = true ->
  field user "plan_tier" = VStr pc ->
  SubscriptionService.levels pn = SubscriptionService.LNumber n ->
  SubscriptionService.levels pc = SubscriptionService.LNumber c ->
  n <= c ->
  PaystackWebhook.handler w req
  = (Val (text_response 200 "Webhook processed"),
     [SvReadBody; SvSelect "profiles" "*" "id" userId]).
Proof.
  intros Hm Hj He Hd Hmd Hid Hidt Hplan Ham Hpr Hs Hu Hp Hn Hc Hle.
  assert (Hpt : truthy (VStr pn) = true).
  { destruct (levels_number_known pn n Hn) as [-> | [-> | ->]]; reflexivity. }
  assert (Href : exists reference, member data "reference" = Returns reference).
  { destruct data; try discriminate Hmd; eexists; reflexivity. }
  destruct Href as [reference Href].
  unfold PaystackWebhook.handler, PaystackWebhook.handler_try,
    SubscriptionService.handlePaymentWebhook,
    SubscriptionService.handlePaymentWebhook_try,
    SubscriptionService.processSuccessfulCharge.
  unfold_fx. rewrite Hm, Hj. cbn. rewrite He, Hd. cbn.
  rewrite Hmd. cbn. rewrite Hid, Hidt, Hplan, Hpt. cbn.
  rewrite Href, Ham. cbn. rewrite Hpr. cbn.
  match goal with
  | |- context [SubscriptionService.upgradeUserPlan w userId (VStr pn) reference ?a] =>
      rewrite (proj1 (upgrade_validation unit w userId (VStr pn) reference
                        a user pn pc Hs Hu eq_refl ltac:(now rewrite Hp)))
  end.
  - reflexivity.
  - rewrite (level_le_numbers w pn pc n c Hn Hc). now apply Z.leb_le.
Qed.

Lemma charge_for_plan_not_higher_records_nothing_witness :
  PaystackWebhook.handler (svc_world (VStr "Pro"))
    (webhook_post (Some (charge_payload (VStr "Pro"))) None)
  = (Val (text_response 200 "Webhook processed"),
     [SvReadBody; SvSelect "profiles" "*" "id" (VStr "user-1")]).
Proof.
  apply (charge_for_plan_not_higher_records_nothing (svc_world (VStr "Pro"))
           (webhook_post (Some (charge_payload (VStr "Pro"))) None)
           (charge_payload (VStr "Pro"))
           (VObj [("reference", VStr "ref_123");
                  ("amount", VNum 500000);
                  ("metadata", VObj [("user_id", VStr "user-1");
                                     ("plan", VStr "Pro")])])
           (VObj [("user_id", VStr "user-1"); ("plan", VStr "Pro")])
           (VStr "user-1") (VNum 500000) (profile_of (VStr "Pro"))
           "Pro" "Pro" "500000" 2 2);
    first [reflexivity | discriminate].
Defined.

(** ** Reading the configuration *)

Lemma getEnvVar_usable (e : SupabaseConfig.Envs) (viteKey nodeKey fallback : string) :
  SupabaseConfig.getEnvVar e viteKey nodeKey fallback
  = default (default fallback (usable (SupabaseConfig.process_env e) nodeKey))
      (usable (SupabaseConfig.import_meta_env e) viteKey).
Proof.
  unfold SupabaseConfig.getEnvVar, SupabaseConfig.env_get, usable.
  destruct (SupabaseConfig.import_meta_env e) as [m1|],
           (SupabaseConfig.process_env e) as [m2|]; cbn;
    repeat (match goal with
            | |- context [?m !! ?k] => destruct (m !! k) as [[]|]
            | |- context [String.eqb ?s ?t] => destruct (String.eqb s t)
            | |- context [Z.eqb ?n 0] => destruct (Z.eqb n 0)
            | |- context [if ?b then _ else _] => is_var b; destruct b
            end; cbn);
    reflexivity.
Qed.

(** X11: [getEnvVar] returns the first of: the Vite value, the process
    value, the fallback, where a value counts only if it is a string and not
    empty (a boolean or an empty string under the Vite key does not hide the
    process value).  So it returns the empty string only when the fallback
    is empty. *)
Theorem getEnvVar_first_usable
    (e : SupabaseConfig.Envs) (viteKey nodeKey fallback : string) :
  SupabaseConfig.getEnvVar e viteKey nodeKey fallback
  = default (default fallback (usable (SupabaseConfig.process_env e) nodeKey))
      (usable (SupabaseConfig.import_meta_env e) viteKey) /\
  (fallback <> "" -> SupabaseConfig.getEnvVar e viteKey nodeKey fallback <> "").
Proof.
  assert (Hnonempty : forall env key s, usable env key = Some s -> s <> "").
  { intros [m|] key s; cbn; [|discriminate].
    destruct (m !! key) as [[]|]; try discriminate.
    destruct (String.eqb_spec s0 ""); [discriminate|congruence]. }
  split; [apply getEnvVar_usable|].
  intros Hf. rewrite getEnvVar_usable.
  destruct (usable (SupabaseConfig.import_meta_env e) viteKey) eqn:E1; cbn;
    [now apply Hnonempty in E1|].
  destruct (usable (SupabaseConfig.process_env e) nodeKey) eqn:E2; cbn;
    [now apply Hnonempty in E2|assumption].
Qed.

Lemma getEnvVar_first_usable_witness :
  "your-anon-key-here" <> "" /\
  SupabaseConfig.getEnvVar vite_only "DEV" "SUPABASE_URL" "your-anon-key-here" <> "".
Proof.
  split; [discriminate|].
  apply getEnvVar_first_usable. discriminate.
Defined.

(** X12: whenever either setting ends up at its built-in fallback, the check
    run at load time begins with the three-line warning about the default
    configuration; with nothing usable in either environment it prints that
    warning and the warning about a short key, and no error. *)
Theorem startup_warns_about_fallbacks (e : SupabaseConfig.Envs) :
  (SupabaseConfig.supabaseUrl e = SupabaseConfig.fallback_url \/
   SupabaseConfig.supabaseAnonKey e = SupabaseConfig.fallback_key ->
   exists rest,
     SupabaseConfig.startup e
     = (SupabaseConfig.default_configuration_warning ++ rest)%list) /\
  (usable (SupabaseConfig.import_meta_env e) "VITE_SUPABASE_URL" = None ->
   usable (SupabaseConfig.process_env e) "SUPABASE_URL" = None ->
   usable (SupabaseConfig.import_meta_env e) "VITE_SUPABASE_ANON_KEY" = None ->
   usable (SupabaseConfig.process_env e) "SUPABASE_ANON_KEY" = None ->
   SupabaseConfig.startup e
   = (SupabaseConfig.default_configuration_warning ++
      [SvConsoleWarn ["⚠️ Supabase key appears to be invalid or too short"]])%list).
Proof.
  split.
  - intros H. unfold SupabaseConfig.startup, SupabaseConfig.validateConfig.
    assert (Hw : includes (SupabaseConfig.supabaseUrl e) "your-project"
                 || includes (SupabaseConfig.supabaseAnonKey e) "your-anon-key" = true).
    { destruct H as [-> | ->]; [reflexivity|apply orb_true_r]. }
    rewrite Hw. eexists. reflexivity.
  - intros H1 H2 H3 H4.
    unfold SupabaseConfig.startup, SupabaseConfig.supabaseUrl,
      SupabaseConfig.supabaseAnonKey.
    rewrite !getEnvVar_usable, H1, H2, H3, H4.
    reflexivity.
Qed.

Lemma startup_warns_about_fallbacks_witness :
  exists rest,
    SupabaseConfig.startup vite_only
    = (SupabaseConfig.default_configuration_warning ++ rest)%list.
Proof.
  apply (proj1 (startup_warns_about_fallbacks vite_only)).
  right. reflexivity.
Defined.

(** ** Image URLs *)

Lemma append_cons (x : ascii) (a b : string) :
  String x a ++ b = String x (a ++ b).
Proof. reflexivity. Qed.


Lemma startsWith_app (p u r : string) :
  startsWith p u = true -> startsWith p (u ++ r) = true.
Proof.
  revert u. induction p as [|a p IH]; intros u; [reflexivity|].
  destruct u as [|b u]; [discriminate|].
  rewrite append_cons. cbn [startsWith].
  intros [Hab Hp]%andb_prop. rewrite Hab. now apply IH.
Qed.

Lemma startsWith_length (p u : string) :
  startsWith p u = true -> (String.length p <= String.length u)%nat.
Proof.
  revert u. induction p as [|a p IH]; intros u; cbn [startsWith String.length]; [lia|].
  destruct u as [|b u]; [discriminate|].
  intros [_ Hp]%andb_prop. cbn [String.length]. apply IH in Hp. lia.
Qed.

Lemma startsWith_app_long (p u r : string) :
  (String.length p <= String.length u)%nat ->
  startsWith p (u ++ r) = startsWith p u.
Proof.
  revert u. induction p as [|a p IH]; intros u Hlen; [reflexivity|].
  destruct u as [|b u]; cbn [String.length] in Hlen; [lia|].
  rewrite append_cons. cbn [startsWith]. rewrite IH by lia. reflexivity.
Qed.

Lemma includes_app (u r x : string) :
  includes u x = true -> includes (u ++ r) x = true.
Proof.
  induction u as [|b u IH].
  - cbn [includes]. rewrite orb_false_r. intros H.
    destruct x; [|discriminate]. now destruct r.
  - rewrite append_cons. cbn [includes]. intros [H|H]%orb_prop.
    + rewrite <- append_cons.
      now rewrite (startsWith_app x (String b u) r H).
    + rewrite (IH H). apply orb_true_r.
Qed.

Lemma includes_length (u x : string) :
  includes u x = true -> (String.length x <= String.length u)%nat.
Proof.
  induction u as [|b u IH]; cbn [includes].
  - rewrite orb_false_r. apply startsWith_length.
  - intros [H|H]%orb_prop; [now apply startsWith_length|].
    apply IH in H. cbn [String.length]. lia.
Qed.









(** X14: the function does not recognise its own output.  Applied to a URL
    it has already extended (or to any Supabase URL that already has a query
    string) it appends a second [?] and a second query instead of replacing
    the first. *)
Theorem optimizeImageUrl_twice (url : string)
    (w1 h1 w2 h2 : option PerformanceOptimizations.number)
    (f1 f2 : option PerformanceOptimizations.ImageFormat) :
  startsWith "data:" url = false ->
  includes url "supabase.co" = true ->
  PerformanceOptimizations.optimizeImageUrl
    (PerformanceOptimizations.optimizeImageUrl url w1 h1 f1) w2 h2 f2
  = PerformanceOptimizations.optimizeImageUrl url w1 h1 f1 ++ "?" ++
    PerformanceOptimizations.params_toString
      (PerformanceOptimizations.image_params w2 h2 f2).
Proof.
  intros Hd Hi.
  assert (Hlen : (String.length "data:" <= String.length url)%nat).
  { apply includes_length in Hi. cbn in *. lia. }
  assert (Hu : url <> "") by (intros ->; discriminate Hi).
  assert (E : exists q, PerformanceOptimizations.optimizeImageUrl url w1 h1 f1
                       = url ++ q).
  { eexists. unfold PerformanceOptimizations.optimizeImageUrl.
    rewrite Hd, Hi, orb_false_r.
    destruct (String.eqb_spec url "") as [E|_]; [contradiction|reflexivity]. }
  destruct E as [q ->].
  unfold PerformanceOptimizations.optimizeImageUrl.
  rewrite (startsWith_app_long "data:" url q Hlen), Hd.
  rewrite (includes_app url q "supabase.co" Hi), orb_false_r.
  destruct (String.eqb_spec (url ++ q) "") as [E|_]; [|reflexivity].
  destruct url; [contradiction|discriminate E].
Qed.

Lemma optimizeImageUrl_twice_witness :
  PerformanceOptimizations.optimizeImageUrl
    (PerformanceOptimizations.optimizeImageUrl "https://abc.supabase.co/c.jpg"
       (Some (PerformanceOptimizations.Int 300)) None None)
    (Some (PerformanceOptimizations.Int 600)) None None
  = "https://abc.supabase.co/c.jpg?w=300&format=webp&quality=80?w=600&format=webp&quality=80".
Proof.
  exact (optimizeImageUrl_twice "https://abc.supabase.co/c.jpg"
           (Some (PerformanceOptimizations.Int 300)) None
           (Some (PerformanceOptimizations.Int 600)) None None None eq_refl eq_refl).
Defined.

(** ** The window of a virtual list *)

Lemma run_of_In (start stop i : Z) :
  In (PerformanceOptimizations.XInt i) (run_of start stop) <-> start <= i <= stop.
Proof.
  unfold run_of. rewrite in_map_iff. split.
  - intros (k & [= <-] & Hk%in_seq). lia.
  - intros H. exists (Z.to_nat (i - start)). split; [f_equal; lia|].
    apply in_seq. lia.
Qed.

Lemma run_of_integers (start stop : Z) (x : PerformanceOptimizations.xnum) :
  In x (run_of start stop) ->
  exists i, x = PerformanceOptimizations.XInt i /\ start <= i <= stop.
Proof.
  unfold run_of. rewrite in_map_iff. intros (k & <- & Hk%in_seq).
  eexists. split; [reflexivity|lia].
Qed.

Lemma run_of_length (start stop : Z) :
  Z.of_nat (length (run_of start stop)) = Z.max 0 (stop - start + 1).
Proof. unfold run_of. rewrite length_map, length_seq. lia. Qed.

Lemma floor_bounds (a b : Z) :
  0 < b -> b * (a / b) <= a < b * (a / b) + b.
Proof.
  intros Hb.
  pose proof (Z.div_mod a b ltac:(lia)). pose proof (Z.mod_pos_bound a b Hb). lia.
Qed.

Lemma ceil_bounds (a b : Z) :
  0 < b -> b * (- ((- a) / b)) - b < a <= b * (- ((- a) / b)).
Proof.
  intros Hb.
  pose proof (Z.div_mod (- a) b ltac:(lia)).
  pose proof (Z.mod_pos_bound (- a) b Hb). lia.
Qed.

(** With an item height that is not 0, every number of the window is an
    integer, and the window is the run from its first to its last index when
    the array can be made. *)
Lemma useVirtualScroll_integers (itemCount itemHeight : Z) (overscan : option Z)
    (scrollTop viewport : Z) :
  itemHeight <> 0 ->
  let start := Z.max 0 (scrollTop / itemHeight - default 3 overscan) in
  let stop := Z.min (itemCount - 1)
                (start + (- ((- viewport) / itemHeight) + 2 * default 3 overscan)) in
  PerformanceOptimizations.useVirtualScroll itemCount itemHeight overscan
    scrollTop viewport
  = if Z.leb (stop - start + 1) (2 ^ 32 - 1)
    then Returns {| PerformanceOptimizations.startIndex := PerformanceOptimizations.XInt start;
                    PerformanceOptimizations.endIndex := PerformanceOptimizations.XInt stop;
                    PerformanceOptimizations.visibleItems := run_of start stop;
                    PerformanceOptimizations.totalHeight :=
                      PerformanceOptimizations.XInt (itemCount * itemHeight);
                    PerformanceOptimizations.offsetY :=
                      PerformanceOptimizations.XInt (start * itemHeight);
                    PerformanceOptimizations.viewportHeight := viewport |}
    else Throws "RangeError: Invalid array length".
Proof.
  intros Hh start stop.
  unfold PerformanceOptimizations.useVirtualScroll,
    PerformanceOptimizations.floor_div, PerformanceOptimizations.ceil_div.
  rewrite (proj2 (Z.eqb_neq itemHeight 0) Hh).
  cbn [PerformanceOptimizations.xsub PerformanceOptimizations.xneg
       PerformanceOptimizations.xadd PerformanceOptimizations.max0
       PerformanceOptimizations.xmin PerformanceOptimizations.xmul].
  replace (scrollTop / itemHeight + - default 3 overscan)
    with (scrollTop / itemHeight - default 3 overscan) by lia.
  fold start. fold stop.
  unfold PerformanceOptimizations.array_from, PerformanceOptimizations.array_length.
  replace (stop + - start + 1) with (stop - start + 1) by lia.
  destruct (Z.leb_spec (stop - start + 1) 0) as [Hempty|Hsome].
  - destruct (Z.leb_spec (stop - start + 1) (2 ^ 32 - 1)); [|lia].
    unfold run_of. replace (Z.to_nat (stop - start + 1)) with 0%nat by lia.
    reflexivity.
  - destruct (Z.leb_spec (stop - start + 1) (2 ^ 32 - 1)); reflexivity.
Qed.

(** X15: for integer arguments and whole-pixel measurements, with an item
    height that is not 0: whatever the scroll position, the first index of
    the window is an integer that is at least 0, the last is at most
    [itemCount - 1], and the list handed to the renderer is exactly the run
    of integers from the first to the last, each a valid index; so it is
    empty for an empty list and when the position is past the last item.
    With an item height of 0 and a position that is not negative the render
    returns no items, and a first index that is [NaN] at position 0 and
    [Infinity] beyond. *)
Theorem virtual_window_indices (itemCount itemHeight : Z) (overscan : option Z)
    (scrollTop viewport : Z) :
  (itemHeight <> 0 ->
   forall v,
     PerformanceOptimizations.useVirtualScroll itemCount itemHeight overscan
       scrollTop viewport = Returns v ->
     exists start stop,
       PerformanceOptimizations.startIndex v = PerformanceOptimizations.XInt start /\
       PerformanceOptimizations.endIndex v = PerformanceOptimizations.XInt stop /\
       0 <= start /\
       stop <= itemCount - 1 /\
       (forall i,
          In (PerformanceOptimizations.XInt i) (PerformanceOptimizations.visibleItems v)
          <-> start <= i <= stop) /\
       (forall x,
          In x (PerformanceOptimizations.visibleItems v) ->
          exists i, x = PerformanceOptimizations.XInt i /\ 0 <= i < itemCount) /\
       (itemCount <= start -> PerformanceOptimizations.visibleItems v = [])) /\
  (itemHeight = 0 ->
   0 <= scrollTop ->
   exists v,
     PerformanceOptimizations.useVirtualScroll itemCount itemHeight overscan
       scrollTop viewport = Returns v /\
     PerformanceOptimizations.visibleItems v = [] /\
     PerformanceOptimizations.startIndex v
     = if Z.eqb scrollTop 0 then PerformanceOptimizations.XNaN
       else PerformanceOptimizations.XInf).
Proof.
  split.
  - intros Hh v. rewrite (useVirtualScroll_integers _ _ _ _ _ Hh).
    set (start := Z.max 0 (scrollTop / itemHeight - default 3 overscan)).
    set (stop := Z.min (itemCount - 1)
                   (start + (- ((- viewport) / itemHeight) + 2 * default 3 overscan))).
    destruct (Z.leb (stop - start + 1) (2 ^ 32 - 1)); [|discriminate].
    intros [= <-]. exists start, stop. cbn.
    split; [reflexivity|]. split; [reflexivity|].
    split; [lia|]. split; [lia|].
    split; [intros i; apply run_of_In|]. split.
    + intros x (i & -> & Hi)%run_of_integers. exists i. split; [reflexivity|lia].
    + intros Hpast. unfold run_of.
      replace (Z.to_nat (stop - start + 1)) with 0%nat by lia. reflexivity.
  - intros -> Hs.
    unfold PerformanceOptimizations.useVirtualScroll,
      PerformanceOptimizations.floor_div, PerformanceOptimizations.ceil_div,
      PerformanceOptimizations.quotient_by_zero.
    cbn [Z.eqb].
    destruct (Z.eqb_spec scrollTop 0) as [-> |Hne].
    + destruct (Z.eqb viewport 0), (Z.ltb 0 viewport); cbn;
        eexists; repeat split; reflexivity.
    + destruct (Z.ltb_spec 0 scrollTop); [|lia].
      destruct (Z.eqb viewport 0), (Z.ltb 0 viewport); cbn;
        eexists; repeat split; reflexivity.
Qed.

Lemma virtual_window_indices_witness :
  exists start stop,
    PerformanceOptimizations.XInt 22 = PerformanceOptimizations.XInt start /\
    PerformanceOptimizations.XInt 36 = PerformanceOptimizations.XInt stop /\
    0 <= start /\
    stop <= 100 - 1 /\
    (forall i,
       In (PerformanceOptimizations.XInt i) (run_of 22 36) <-> start <= i <= stop) /\
    (forall x,
       In x (run_of 22 36) ->
       exists i, x = PerformanceOptimizations.XInt i /\ 0 <= i < 100) /\
    (100 <= start -> run_of 22 36 = []).
Proof.
  exact (proj1 (virtual_window_indices 100 40 None 1000 300)
           ltac:(discriminate)
           {| PerformanceOptimizations.startIndex := PerformanceOptimizations.XInt 22;
              PerformanceOptimizations.endIndex := PerformanceOptimizations.XInt 36;
              PerformanceOptimizations.visibleItems := run_of 22 36;
              PerformanceOptimizations.totalHeight := PerformanceOptimizations.XInt 4000;
              PerformanceOptimizations.offsetY := PerformanceOptimizations.XInt 880;
              PerformanceOptimizations.viewportHeight := 300 |}
           eq_refl).
Defined.

(** X16: for integer arguments and whole-pixel measurements, with a positive
    item height, an overscan that is not negative, a scroll position that is
    not negative, and a window of at most 2^32 - 1 rows: the render returns;
    every item of the list whose row meets the viewport is in the window;
    the window holds at most [ceil(viewport / itemHeight) + 2 * overscan + 1]
    items however long the list is; and the offset of the first rendered row
    is at or above the scroll position. *)
Theorem virtual_window_covers_viewport (itemCount itemHeight : Z)
    (overscan : option Z) (scrollTop viewport : Z) :
  0 < itemHeight ->
  0 <= default 3 overscan ->
  0 <= scrollTop ->
  - ((- viewport) / itemHeight) + 2 * default 3 overscan + 1 <= 2 ^ 32 - 1 ->
  exists v start,
    PerformanceOptimizations.useVirtualScroll itemCount itemHeight overscan
      scrollTop viewport = Returns v /\
    (forall i,
       0 <= i < itemCount ->
       i * itemHeight < scrollTop + viewport ->
       scrollTop < (i + 1) * itemHeight ->
       In (PerformanceOptimizations.XInt i) (PerformanceOptimizations.visibleItems v)) /\
    Z.of_nat (length (PerformanceOptimizations.visibleItems v))
    <= Z.max 0 (- ((- viewport) / itemHeight) + 2 * default 3 overscan + 1) /\
    PerformanceOptimizations.offsetY v = PerformanceOptimizations.XInt start /\
    start <= scrollTop.
Proof.
  intros Hh Ho Hs Hfit.
  assert (Hne : itemHeight <> 0) by lia.
  rewrite (useVirtualScroll_integers itemCount itemHeight overscan scrollTop viewport Hne).
  pose proof (floor_bounds scrollTop itemHeight Hh) as Hq.
  pose proof (ceil_bounds viewport itemHeight Hh) as Hk.
  set (q := scrollTop / itemHeight) in *.
  set (k := - ((- viewport) / itemHeight)) in *.
  set (o := default 3 overscan) in *.
  set (start := Z.max 0 (q - o)).
  set (stop := Z.min (itemCount - 1) (start + (k + 2 * o))).
  destruct (Z.leb_spec (stop - start + 1) (2 ^ 32 - 1)); [|lia].
  eexists _, (start * itemHeight). split; [reflexivity|]. cbn.
  split; [|split; [|split]].
  - intros i Hi Hlow Hhigh. apply run_of_In.
    assert (q <= i) by nia.
    assert (i <= q + k) by nia.
    lia.
  - rewrite run_of_length. lia.
  - reflexivity.
  - assert (0 <= q) by nia.
    unfold start. replace (Z.max 0 (q - o)) with (q - o + Z.max 0 (o - q)) by lia.
    nia.
Qed.

Lemma virtual_window_covers_viewport_witness :
  exists v start,
    PerformanceOptimizations.useVirtualScroll 100 40 None 1000 300 = Returns v /\
    In (PerformanceOptimizations.XInt 25) (PerformanceOptimizations.visibleItems v) /\
    In (PerformanceOptimizations.XInt 32) (PerformanceOptimizations.visibleItems v) /\
    PerformanceOptimizations.offsetY v = PerformanceOptimizations.XInt start /\
    start <= 1000.
Proof.
  destruct (virtual_window_covers_viewport 100 40 None 1000 300
              ltac:(lia) ltac:(cbn; lia) ltac:(lia) ltac:(vm_compute; discriminate))
    as (v & start & Hv & Hc & _ & Ho & Hs).
  exists v, start. split; [exact Hv|].
  split; [apply Hc; lia|]. split; [apply Hc; lia|]. split; assumption.
Defined.

(** ** Permission to download *)

Arguments DownloadService.getMaxDownloads : simpl never.
Arguments DownloadService.getPlanLevel : simpl never.
Arguments DownloadService.canDownloadFormat : simpl never.

Ltac run_download :=
  unfold DownloadService.canUserDownload, DownloadService.canUserDownload_try,
    DownloadService.getUserDownloadStats, DownloadService.getUserDownloadStats_try,
    DownloadService.recordDownload, DownloadService.recordDownload_try;
  cbv [Fx.bind Fx.ret Fx.throw Fx.finish Fx.emit Fx.when Fx.try_catch
       Fx.of_reply Fx.call
       DownloadService.console_error DownloadService.select_profile
       DownloadService.insert DownloadService.rpc DownloadService.str].

Lemma used_of_count (row : DownloadService.ProfileRow) :
  match DownloadService.download_count_this_month row with
  | Some n => if Z.eqb n 0 then 0 else n
  | None => 0
  end = used_of row.
Proof.
  unfold used_of. destruct (DownloadService.download_count_this_month row) as [n|];
    [|reflexivity].
  cbn. destruct (Z.eqb_spec n 0); congruence.
Qed.

(** X17: [canUserDownload] allows a download only when the profile was
    found, its plan is at least the tier of the beat, the plan includes the
    format, and the counter read for the statistics is below the plan's
    monthly maximum or the plan has none; what it reports as remaining is
    then that maximum less the counter. *)
Theorem download_allowed_only_if (R : Type) (w : DownloadService.DlWorld)
    (userId beatLicenseTier : value) (format : DownloadService.Format)
    (p : DownloadService.DownloadPermission) (l : list SvcEvent) :
  DownloadService.canUserDownload (R := R) w userId format beatLicenseTier = (Val p, l) ->
  DownloadService.allowed p = true ->
  exists user counted,
    DownloadService.permission_select w = Returns (Some user) /\
    DownloadService.stats_select w = Returns (Some counted, None) /\
    DownloadService.getPlanLevel beatLicenseTier
    <= DownloadService.getPlanLevel (DownloadService.plan_tier user) /\
    DownloadService.canDownloadFormat (DownloadService.plan_tier user) format = true /\
    (DownloadService.getMaxDownloads (DownloadService.plan_tier counted)
     = DownloadService.Infinity \/
     exists m,
       DownloadService.getMaxDownloads (DownloadService.plan_tier counted)
       = DownloadService.Finite m /\ used_of counted < m) /\
    DownloadService.remaining_downloads p
    = DownloadService.remaining_of
        (DownloadService.getMaxDownloads (DownloadService.plan_tier counted))
        (used_of counted).
Proof.
  run_download.
  destruct (DownloadService.permission_select w) as [[user|]|e] eqn:Hp; cbn;
    try (intros [= <- <-] H; discriminate H).
  destruct (Z.ltb_spec (DownloadService.getPlanLevel (DownloadService.plan_tier user))
              (DownloadService.getPlanLevel beatLicenseTier)) as [Hlt|Hge]; cbn.
  { destruct (to_string beatLicenseTier); cbn; intros [= <- <-] H; discriminate H. }
  destruct (DownloadService.canDownloadFormat (DownloadService.plan_tier user) format)
    eqn:Hf; cbn; [|intros [= <- <-] H; discriminate H].
  destruct (DownloadService.stats_select w) as [[[counted|] [err|]]|e] eqn:Hs; cbn;
    try (intros [= <- <-] H; discriminate H).
  rewrite used_of_count.
  destruct (DownloadService.getMaxDownloads (DownloadService.plan_tier counted))
    as [m|] eqn:Hm; cbn.
  - destruct (Z.leb_spec (Z.max 0 (m - used_of counted)) 0) as [Hle|Hgt]; cbn;
      intros [= <- <-] H; [discriminate H|].
    exists user, counted. rewrite Hm. cbn.
    repeat split; try assumption; try lia.
    right. exists m. split; [reflexivity|lia].
  - intros [= <- <-] _.
    exists user, counted. rewrite Hm. cbn.
    repeat split; try assumption; try lia.
    now left.
Qed.

Lemma download_allowed_only_if_witness :
  exists user counted,
    DownloadService.permission_select (dl_world (basic_row (Some 12)))
    = Returns (Some user) /\
    DownloadService.stats_select (dl_world (basic_row (Some 12)))
    = Returns (Some counted, None) /\
    DownloadService.getPlanLevel (VStr "Basic")
    <= DownloadService.getPlanLevel (DownloadService.plan_tier user) /\
    DownloadService.canDownloadFormat (DownloadService.plan_tier user)
      DownloadService.mp3 = true /\
    (DownloadService.getMaxDownloads (DownloadService.plan_tier counted)
     = DownloadService.Infinity \/
     exists m,
       DownloadService.getMaxDownloads (DownloadService.plan_tier counted)
       = DownloadService.Finite m /\ used_of counted < m) /\
    DownloadService.Finite 18
    = DownloadService.remaining_of
        (DownloadService.getMaxDownloads (DownloadService.plan_tier counted))
        (used_of counted).
Proof.
  exact (download_allowed_only_if unit (dl_world (basic_row (Some 12)))
           (VStr "user-1") (VStr "Basic") DownloadService.mp3
           {| DownloadService.allowed := true;
              DownloadService.reason := "";
              DownloadService.remaining_downloads := DownloadService.Finite 18;
              DownloadService.requiresUpgrade := false |}
           [profile_select_event (VStr "user-1");
            profile_select_event (VStr "user-1")]
           eq_refl eq_refl).
Defined.

(** X18: a Basic plan never gets WAV or stems, and a Pro plan never gets
    stems, whatever is left of the month's downloads: for a beat the plan may
    access, the request is refused before the counter is looked at, after
    one read of the profile, with the plan the format needs in the reason
    and a request to upgrade. *)
Theorem download_format_refused (R : Type) (w : DownloadService.DlWorld)
    (userId beatLicenseTier : value) (user : DownloadService.ProfileRow) :
  DownloadService.permission_select w = Returns (Some user) ->
  DownloadService.getPlanLevel beatLicenseTier
  <= DownloadService.getPlanLevel (DownloadService.plan_tier user) ->
  (DownloadService.plan_tier user = VStr "Basic" ->
   DownloadService.canUserDownload (R := R) w userId DownloadService.wav beatLicenseTier
   = (Val {| DownloadService.allowed := false;
             DownloadService.reason := "WAV downloads require Pro plan";
             DownloadService.remaining_downloads := DownloadService.Finite 0;
             DownloadService.requiresUpgrade := true |},
      [profile_select_event userId]) /\
   DownloadService.canUserDownload (R := R) w userId DownloadService.stems beatLicenseTier
   = (Val {| DownloadService.allowed := false;
             DownloadService.reason := "STEMS downloads require Exclusive plan";
             DownloadService.remaining_downloads := DownloadService.Finite 0;
             DownloadService.requiresUpgrade := true |},
      [profile_select_event userId])) /\
  (DownloadService.plan_tier user = VStr "Pro" ->
   DownloadService.canUserDownload (R := R) w userId DownloadService.stems beatLicenseTier
   = (Val {| DownloadService.allowed := false;
             DownloadService.reason := "STEMS downloads require Exclusive plan";
             DownloadService.remaining_downloads := DownloadService.Finite 0;
             DownloadService.requiresUpgrade := true |},
      [profile_select_event userId])).
Proof.
  intros Hp Hge.
  assert (Hrun : forall format,
    DownloadService.canDownloadFormat (DownloadService.plan_tier user) format = false ->
    DownloadService.canUserDownload (R := R) w userId format beatLicenseTier
    = (Val (DownloadService.no_permission
              (DownloadService.format_upper format ++ " downloads require " ++
               DownloadService.getRequiredPlanForFormat format ++ " plan") true),
       [profile_select_event userId])).
  { intros format Hf. run_download. rewrite Hp. cbn.
    destruct (Z.ltb_spec (DownloadService.getPlanLevel (DownloadService.plan_tier user))
                (DownloadService.getPlanLevel beatLicenseTier)); [lia|].
    cbn. rewrite Hf. reflexivity. }
  split.
  - intros E. split; (rewrite Hrun; [reflexivity|now rewrite E]).
  - intros E. rewrite Hrun; [reflexivity|now rewrite E].
Qed.

Lemma download_format_refused_witness :
  DownloadService.canUserDownload (R := unit) (dl_world (basic_row (Some 0)))
    (VStr "user-1") DownloadService.wav (VStr "Basic")
  = (Val {| DownloadService.allowed := false;
            DownloadService.reason := "WAV downloads require Pro plan";
            DownloadService.remaining_downloads := DownloadService.Finite 0;
            DownloadService.requiresUpgrade := true |},
     [profile_select_event (VStr "user-1")]).
Proof.
  exact (proj1 (proj1 (download_format_refused unit (dl_world (basic_row (Some 0)))
                         (VStr "user-1") (VStr "Basic") (basic_row (Some 0))
                         eq_refl ltac:(discriminate))
                  eq_refl)).
Defined.

(** X19: the monthly quota of the Basic plan.  When both queries find the
    same Basic profile and the beat asks for no more than Basic, an MP3
    download is allowed exactly while the counter is below 30 (a [null]
    counter counts as 0), with [30 - counter] reported as remaining; from 30
    on it is refused with the limit and the reset date in the reason and a
    request to upgrade. *)
Theorem basic_plan_quota (R : Type) (w : DownloadService.DlWorld)
    (userId beatLicenseTier : value) (user : DownloadService.ProfileRow) :
  DownloadService.permission_select w = Returns (Some user) ->
  DownloadService.stats_select w = Returns (Some user, None) ->
  DownloadService.plan_tier user = VStr "Basic" ->
  DownloadService.getPlanLevel beatLicenseTier <= 1 ->
  (used_of user < 30 ->
   DownloadService.canUserDownload (R := R) w userId DownloadService.mp3 beatLicenseTier
   = (Val {| DownloadService.allowed := true;
             DownloadService.reason := "";
             DownloadService.remaining_downloads :=
               DownloadService.Finite (30 - used_of user);
             DownloadService.requiresUpgrade := false |},
      [profile_select_event userId; profile_select_event userId])) /\
  (30 <= used_of user ->
   DownloadService.canUserDownload (R := R) w userId DownloadService.mp3 beatLicenseTier
   = (Val (DownloadService.no_permission
             ("Monthly download limit reached (30). Reset on " ++
              DownloadService.nextResetDate w) true),
      [profile_select_event userId; profile_select_event userId])).
Proof.
  intros Hp Hs Hplan Hbeat.
  assert (Hrun :
    DownloadService.canUserDownload (R := R) w userId DownloadService.mp3 beatLicenseTier
    = (if Z.leb (Z.max 0 (30 - used_of user)) 0
       then Val (DownloadService.no_permission
                   ("Monthly download limit reached (30). Reset on " ++
                    DownloadService.nextResetDate w) true)
       else Val {| DownloadService.allowed := true;
                   DownloadService.reason := "";
                   DownloadService.remaining_downloads :=
                     DownloadService.Finite (Z.max 0 (30 - used_of user));
                   DownloadService.requiresUpgrade := false |},
       [profile_select_event userId; profile_select_event userId])).
  { run_download. rewrite Hp. cbn. rewrite Hplan.
    change (DownloadService.getPlanLevel (VStr "Basic")) with 1.
    destruct (Z.ltb_spec 1 (DownloadService.getPlanLevel beatLicenseTier)); [lia|].
    cbn. change (DownloadService.canDownloadFormat (VStr "Basic") DownloadService.mp3)
      with true.
    cbn. rewrite Hs. cbn. rewrite used_of_count, Hplan.
    change (DownloadService.getMaxDownloads (VStr "Basic"))
      with (DownloadService.Finite 30).
    cbn. destruct (Z.leb (Z.max 0 (30 - used_of user)) 0); reflexivity. }
  rewrite Hrun. split; intros H.
  - destruct (Z.leb_spec (Z.max 0 (30 - used_of user)) 0); [lia|].
    now replace (Z.max 0 (30 - used_of user)) with (30 - used_of user) by lia.
  - destruct (Z.leb_spec (Z.max 0 (30 - used_of user)) 0); [reflexivity|lia].
Qed.

Lemma basic_plan_quota_witness :
  DownloadService.canUserDownload (R := unit) (dl_world (basic_row (Some 30)))
    (VStr "user-1") DownloadService.mp3 (VStr "Basic")
  = (Val (DownloadService.no_permission
            "Monthly download limit reached (30). Reset on 2026-02-01" true),
     [profile_select_event (VStr "user-1"); profile_select_event (VStr "user-1")]) /\
  DownloadService.canUserDownload (R := unit) (dl_world (basic_row None))
    (VStr "user-1") DownloadService.mp3 (VStr "Basic")
  = (Val {| DownloadService.allowed := true;
            DownloadService.reason := "";
            DownloadService.remaining_downloads := DownloadService.Finite 30;
            DownloadService.requiresUpgrade := false |},
     [profile_select_event (VStr "user-1"); profile_select_event (VStr "user-1")]).
Proof.
  split.
  - apply (proj2 (basic_plan_quota unit (dl_world (basic_row (Some 30)))
                    (VStr "user-1") (VStr "Basic") (basic_row (Some 30))
                    eq_refl eq_refl eq_refl ltac:(discriminate))).
    discriminate.
  - apply (proj1 (basic_plan_quota unit (dl_world (basic_row None))
                    (VStr "user-1") (VStr "Basic") (basic_row None)
                    eq_refl eq_refl eq_refl ltac:(discriminate))).
    reflexivity.
Defined.

(** X20: [recordDownload] reports success as soon as the download row was
    inserted: an error the database returns for either of the two counter
    increments is only logged.  When the insert returns an error, neither
    counter is touched and the result is false. *)
Theorem recordDownload_result (R : Type) (w : DownloadService.DlWorld)
    (userId beatId : value) (format : DownloadService.Format) :
  (forall beatError userError,
     DownloadService.downloads_insert w = Returns None ->
     DownloadService.increment_download w = Returns beatError ->
     DownloadService.increment_user_download w = Returns userError ->
     exists l,
       DownloadService.recordDownload (R := R) w userId beatId format = (Val true, l) /\
       In (SvRpc "increment_download"
             (VObj [("beat_id", beatId);
                    ("format_name", VStr (DownloadService.format_text format))])) l /\
       In (SvRpc "increment_user_download" (VObj [("user_id", userId)])) l) /\
  (forall err,
     DownloadService.downloads_insert w = Returns (Some err) ->
     exists row,
       DownloadService.recordDownload (R := R) w userId beatId format
       = (Val false,
          [SvInsert "downloads" row;
           SvConsoleError ["Error recording download:"; err]])).
Proof.
  split.
  - intros beatError userError Hi Hb Hu. run_download.
    rewrite Hi, Hb, Hu. cbn.
    destruct beatError, userError; cbn;
      (eexists; split; [reflexivity|];
       split; repeat first [left; reflexivity | right]).
  - intros err Hi. run_download. rewrite Hi. cbn. eexists. reflexivity.
Qed.

Lemma recordDownload_result_witness :
  exists l,
    DownloadService.recordDownload (R := unit) (dl_world (basic_row (Some 3)))
      (VStr "user-1") (VStr "beat-9") DownloadService.mp3 = (Val true, l) /\
    In (SvConsoleError ["Error updating user download count:"; "function not found"]) l.
Proof.
  destruct (proj1 (recordDownload_result unit (dl_world (basic_row (Some 3)))
                     (VStr "user-1") (VStr "beat-9") DownloadService.mp3)
              None (Some "function not found") eq_refl eq_refl eq_refl)
    as (l & Hrun & _).
  exists l. split; [exact Hrun|].
  cbv in Hrun. injection Hrun as <-.
  repeat first [left; reflexivity | right].
Defined.

(** ** Failed renewals and payouts *)

(** X21: a [subscription.not_renew] event that names a user marks that
    profile as failed and clears its next billing date, and the service
    reports success whatever the database answers: an error returned for the
    update is neither logged nor reported.  Without a user id nothing is
    written. *)
Theorem failed_renewal_is_not_checked (R : Type) (w : SvcWorld)
    (payload data metadata : value) :
  member payload "event" = Returns (VStr "subscription.not_renew") ->
  member payload "data" = Returns data ->
  member data "metadata" = Returns metadata ->
  (truthy (field metadata "user_id") = true ->
   forall error,
     profiles_update_failed w = Returns error ->
     SubscriptionService.handlePaymentWebhook (R := R) w payload
     = (Val webhook_ok,
        [SvUpdate "profiles" failed_patch "id" (field metadata "user_id")])) /\
  (truthy (field metadata "user_id") = false ->
   SubscriptionService.handlePaymentWebhook (R := R) w payload
   = (Val webhook_ok, [])).
Proof.
  intros He Hd Hm. split.
  - intros Hu error Hr. run_service. rewrite He, Hd. cbn.
    rewrite Hm. cbn. rewrite Hu, Hr. reflexivity.
  - intros Hu. run_service. rewrite He, Hd. cbn. rewrite Hm. cbn.
    rewrite Hu. reflexivity.
Qed.

Lemma failed_renewal_is_not_checked_witness :
  SubscriptionService.handlePaymentWebhook (R := unit) svc_world_writes_refused
    (VObj [("event", VStr "subscription.not_renew");
           ("data", VObj [("metadata", VObj [("user_id", VStr "user-1")])])])
  = (Val webhook_ok, [SvUpdate "profiles" failed_patch "id" (VStr "user-1")]).
Proof.
  exact (proj1 (failed_renewal_is_not_checked unit svc_world_writes_refused
                  (VObj [("event", VStr "subscription.not_renew");
                         ("data", VObj [("metadata",
                                         VObj [("user_id", VStr "user-1")])])])
                  (VObj [("metadata", VObj [("user_id", VStr "user-1")])])
                  (VObj [("user_id", VStr "user-1")])
                  eq_refl eq_refl eq_refl)
           eq_refl (Some "permission denied for table profiles") eq_refl).
Defined.

(** X22: a [transfer.success] event that names an affiliate and carries an
    integer amount of at most 15 digits records one completed payout for
    that affiliate, of the amount divided by 100: the quotient when the
    amount is a multiple of 100, and otherwise the number with its decimals
    ([2500.5] for 250050).  The service reports success even when the
    database returns an error for the row.  The amount is divided before the
    affiliate is looked at: an amount that cannot be converted to a number
    makes the service report a failure also when there is no affiliate to
    pay. *)
Theorem affiliate_payout_recorded (R : Type) (w : SvcWorld)
    (payload data metadata raw : value) :
  member payload "event" = Returns (VStr "transfer.success") ->
  member payload "data" = Returns data ->
  member data "metadata" = Returns metadata ->
  member data "amount" = Returns raw ->
  (forall n error,
     raw = VNum n ->
     Z.abs n < 10 ^ 15 ->
     truthy (field metadata "affiliate_id") = true ->
     affiliate_payouts_insert w = Returns error ->
     SubscriptionService.handlePaymentWebhook (R := R) w payload
     = (Val webhook_ok,
        [SvInsert "affiliate_payouts"
           (VObj [("affiliate_id", field metadata "affiliate_id");
                  ("amount", SubscriptionService.hundredth n);
                  ("status", VStr "completed");
                  ("paid_at", VStr (toISOString w "paid_at"))])]) /\
     (n mod 100 = 0 -> SubscriptionService.hundredth n = VNum (n / 100)) /\
     (n mod 100 <> 0 -> exists printed,
                          SubscriptionService.hundredth n = VFloat printed)) /\
  (forall printed,
     to_string raw = Some printed ->
     truthy (field metadata "affiliate_id") = false ->
     SubscriptionService.handlePaymentWebhook (R := R) w payload
     = (Val webhook_ok, [])) /\
  (to_string raw = None ->
   exists e,
     SubscriptionService.handlePaymentWebhook (R := R) w payload
     = (Val {| SubscriptionService.wh_success := false;
               SubscriptionService.wh_error := Some e |},
        [SvConsoleError ["Webhook error:"; e]])).
Proof.
  intros He Hd Hm Ha.
  split; [|split].
  - intros n error -> Hn Hu Hr. split; [|split].
    + run_service. rewrite He, Hd. cbn.
      rewrite Hm. cbn. rewrite Ha. cbn.
      rewrite (proj2 (Z.ltb_lt (Z.abs n) (10 ^ 15)) Hn).
      rewrite Hu, Hr. reflexivity.
    + intros H0. unfold SubscriptionService.hundredth.
      now rewrite (proj2 (Z.eqb_eq _ _) H0).
    + intros H0. unfold SubscriptionService.hundredth.
      rewrite (proj2 (Z.eqb_neq _ _) H0). now eexists.
  - intros printed Hp Hu. run_service. rewrite He, Hd. cbn.
    rewrite Hm. cbn. rewrite Ha. cbn. rewrite Hp. cbn. rewrite Hu. reflexivity.
  - intros Hp. run_service. rewrite He, Hd. cbn.
    rewrite Hm. cbn. rewrite Ha. cbn. rewrite Hp. cbn. eexists. reflexivity.
Qed.

Lemma affiliate_payout_recorded_witness :
  SubscriptionService.handlePaymentWebhook (R := unit) svc_world_writes_refused
    (VObj [("event", VStr "transfer.success");
           ("data", VObj [("amount", VNum 250050);
                          ("metadata", VObj [("affiliate_id", VStr "aff-7")])])])
  = (Val webhook_ok,
     [SvInsert "affiliate_payouts"
        (VObj [("affiliate_id", VStr "aff-7");
               ("amount", VFloat "2500.5");
               ("status", VStr "completed");
               ("paid_at", VStr "2026-01-31T10:00:00.000Z")])]) /\
  exists e,
    SubscriptionService.handlePaymentWebhook (R := unit) svc_world_writes_refused
      (VObj [("event", VStr "transfer.success");
             ("data", VObj [("amount", VObj [("toString", VNum 1)]);
                            ("metadata", VObj [])])])
    = (Val {| SubscriptionService.wh_success := false;
              SubscriptionService.wh_error := Some e |},
       [SvConsoleError ["Webhook error:"; e]]).
Proof.
  split.
  - exact (proj1 (proj1 (affiliate_payout_recorded unit svc_world_writes_refused
                    (VObj [("event", VStr "transfer.success");
                           ("data", VObj [("amount", VNum 250050);
                                          ("metadata",
                                           VObj [("affiliate_id", VStr "aff-7")])])])
                    (VObj [("amount", VNum 250050);
                           ("metadata", VObj [("affiliate_id", VStr "aff-7")])])
                    (VObj [("affiliate_id", VStr "aff-7")]) (VNum 250050)
                    eq_refl eq_refl eq_refl eq_refl)
             250050 (Some "relation does not exist") eq_refl eq_refl eq_refl eq_refl)).
  - exact (proj2 (proj2 (affiliate_payout_recorded unit svc_world_writes_refused
                    (VObj [("event", VStr "transfer.success");
                           ("data", VObj [("amount", VObj [("toString", VNum 1)]);
                                          ("metadata", VObj [])])])
                    (VObj [("amount", VObj [("toString", VNum 1)]);
                           ("metadata", VObj [])])
                    (VObj []) (VObj [("toString", VNum 1)])
                    eq_refl eq_refl eq_refl eq_refl))
             eq_refl).
Defined.

(** ** The statistics of a user *)

(** X23: [getUserDownloadStats] never throws.  When it returns statistics
    they are those of the row the query found: the plan's maximum, the
    counter with [null] read as 0, and as remaining the difference of the
    two but never less than 0, also when the counter has passed the
    maximum.  When it returns [null], it has logged one error after the
    query. *)
Theorem download_stats_of_row (R : Type) (w : DownloadService.DlWorld)
    (userId : value) :
  (exists r l,
     DownloadService.getUserDownloadStats (R := R) w userId = (Val r, l)) /\
  (forall stats l,
     DownloadService.getUserDownloadStats (R := R) w userId = (Val (Some stats), l) ->
     exists row,
       DownloadService.stats_select w = Returns (Some row, None) /\
       l = [profile_select_event userId] /\
       DownloadService.plan stats = DownloadService.plan_tier row /\
       DownloadService.usedThisMonth stats = used_of row /\
       DownloadService.maxDownloads stats
       = DownloadService.getMaxDownloads (DownloadService.plan_tier row) /\
       DownloadService.remaining stats
       = DownloadService.remaining_of (DownloadService.maxDownloads stats)
           (used_of row) /\
       forall n, DownloadService.remaining stats = DownloadService.Finite n ->
                 0 <= n) /\
  (forall l,
     DownloadService.getUserDownloadStats (R := R) w userId = (Val None, l) ->
     exists items, l = [profile_select_event userId; SvConsoleError items]).
Proof.
  run_download. unfold profile_select_event.
  destruct (DownloadService.stats_select w) as [[[row|] [msg|]]|e]; cbn;
    (split; [eexists _, _; reflexivity|]);
    (split; [intros stats l [= <- <-] || (intros stats l H; discriminate H)
            |intros l H; try discriminate H; injection H as <-;
             eexists; reflexivity]).
  exists row. rewrite used_of_count. cbn.
  repeat (split; [reflexivity|]).
  intros n. destruct (DownloadService.getMaxDownloads _); cbn; [|discriminate].
  intros [= <-]. lia.
Qed.

Lemma download_stats_of_row_witness :
  exists row,
    DownloadService.stats_select (dl_world (basic_row (Some 45)))
    = Returns (Some row, None) /\
    [profile_select_event (VStr "user-1")] = [profile_select_event (VStr "user-1")] /\
    VStr "Basic" = DownloadService.plan_tier row /\
    45 = used_of row /\
    DownloadService.Finite 30
    = DownloadService.getMaxDownloads (DownloadService.plan_tier row) /\
    DownloadService.Finite 0
    = DownloadService.remaining_of (DownloadService.Finite 30) (used_of row) /\
    forall n, DownloadService.Finite 0 = DownloadService.Finite n -> 0 <= n.
Proof.
  exact (proj1 (proj2 (download_stats_of_row unit (dl_world (basic_row (Some 45)))
                         (VStr "user-1")))
           {| DownloadService.plan := VStr "Basic";
              DownloadService.usedThisMonth := 45;
              DownloadService.maxDownloads := DownloadService.Finite 30;
              DownloadService.remaining := DownloadService.Finite 0;
              DownloadService.resetDate := "2026-02-01" |}
           [profile_select_event (VStr "user-1")] eq_refl).
Defined.

(** ** Cancelling and activating *)

Ltac run_account :=
  unfold SubscriptionService.cancelSubscription,
    SubscriptionService.cancelSubscription_try,
    SubscriptionService.activateFreeBasicPlan,
    SubscriptionService.activateFreeBasicPlan_try,
    SubscriptionService.throw_if;
  unfold_fx.

(** X24: [cancelSubscription] never throws and reports success exactly when
    the update of the profile returned without an error and the insert into
    the log did not throw; an error the log insert returns is ignored.  A
    refused update leaves the log untouched, but when the log insert throws
    the answer is "Cancellation failed" although the profile has already been
    set to cancelled and Basic. *)
Theorem cancelSubscription_result (R : Type) (a : AccountWorld) (userId : value) :
  (exists r l,
     SubscriptionService.cancelSubscription (R := R) a userId = (Val r, l) /\
     (SubscriptionService.success r = true <->
      account_update a = Returns None /\
      exists logError, account_log_insert a = Returns logError)) /\
  (forall e,
     account_update a = Returns (Some e) ->
     SubscriptionService.cancelSubscription (R := R) a userId
     = (Val (SubscriptionService.failure "Cancellation failed"),
        [SvUpdate "profiles" cancel_patch "id" userId;
         SvConsoleError ["Cancel error:"; e]])) /\
  (forall e,
     account_update a = Returns None ->
     account_log_insert a = Throws e ->
     exists row,
       SubscriptionService.cancelSubscription (R := R) a userId
       = (Val (SubscriptionService.failure "Cancellation failed"),
          [SvUpdate "profiles" cancel_patch "id" userId;
           SvInsert "subscription_logs" row;
           SvConsoleError ["Cancel error:"; e]])).
Proof.
  split; [|split].
  - run_account.
    destruct (account_update a) as [[e|]|e]; cbn;
      try (eexists _, _; split; [reflexivity|]; cbn;
           split; [discriminate|intros [H _]; discriminate H]).
    destruct (account_log_insert a) as [logError|e]; cbn;
      eexists _, _; (split; [reflexivity|]); cbn.
    + split; [|reflexivity]. intros _. split; [reflexivity|]. now eexists.
    + split; [discriminate|]. intros [_ [logError H]]. discriminate H.
  - intros e Hu. run_account. rewrite Hu. reflexivity.
  - intros e Hu Hl. run_account. rewrite Hu. cbn. rewrite Hl. cbn.
    eexists. reflexivity.
Qed.

Lemma cancelSubscription_result_witness :
  exists row,
    SubscriptionService.cancelSubscription (R := unit) account_world_log_lost
      (VStr "user-1")
    = (Val (SubscriptionService.failure "Cancellation failed"),
       [SvUpdate "profiles" cancel_patch "id" (VStr "user-1");
        SvInsert "subscription_logs" row;
        SvConsoleError ["Cancel error:"; "TypeError: fetch failed"]]).
Proof.
  exact (proj2 (proj2 (cancelSubscription_result unit account_world_log_lost
                         (VStr "user-1")))
           "TypeError: fetch failed" eq_refl eq_refl).
Defined.

(** X25: [activateFreeBasicPlan] never throws and reports the activation of
    the Basic plan exactly when the update of the profile returned without an
    error and the insert into the log did not throw.  Whenever it reports
    success, the first thing it did was to set the profile to Basic and
    active with the month's counter at 0; when the log insert throws it
    reports "Failed to activate free plan" after that update. *)
Theorem activateFreeBasicPlan_result (R : Type) (a : AccountWorld) (userId : value) :
  (exists r l,
     SubscriptionService.activateFreeBasicPlan (R := R) a userId = (Val r, l) /\
     (SubscriptionService.success r = true <->
      account_update a = Returns None /\
      exists logError, account_log_insert a = Returns logError) /\
     (SubscriptionService.success r = true ->
      SubscriptionService.newPlan r = Some (VStr "Basic") /\
      exists row,
        l = [SvUpdate "profiles" activate_patch "id" userId;
             SvInsert "subscription_logs" row])) /\
  (forall e,
     account_update a = Returns None ->
     account_log_insert a = Throws e ->
     exists row,
       SubscriptionService.activateFreeBasicPlan (R := R) a userId
       = (Val (SubscriptionService.failure "Failed to activate free plan"),
          [SvUpdate "profiles" activate_patch "id" userId;
           SvInsert "subscription_logs" row;
           SvConsoleError ["Activate free plan error:"; e]])).
Proof.
  split.
  - run_account.
    destruct (account_update a) as [[e|]|e]; cbn;
      try (eexists _, _; split; [reflexivity|]; cbn;
           split; [split; [discriminate|intros [H _]; discriminate H]
                  |discriminate]).
    destruct (account_log_insert a) as [logError|e]; cbn;
      eexists _, _; (split; [reflexivity|]); cbn.
    + split.
      * split; [|reflexivity]. intros _. split; [reflexivity|]. now eexists.
      * intros _. split; [reflexivity|]. eexists. reflexivity.
    + split; [|discriminate].
      split; [discriminate|]. intros [_ [logError H]]. discriminate H.
  - intros e Hu Hl. run_account. rewrite Hu. cbn. rewrite Hl. cbn.
    eexists. reflexivity.
Qed.

Lemma activateFreeBasicPlan_result_witness :
  exists row,
    SubscriptionService.activateFreeBasicPlan (R := unit) account_world_log_lost
      (VStr "user-1")
    = (Val (SubscriptionService.failure "Failed to activate free plan"),
       [SvUpdate "profiles" activate_patch "id" (VStr "user-1");
        SvInsert "subscription_logs" row;
        SvConsoleError ["Activate free plan error:"; "TypeError: fetch failed"]]).
Proof.
  exact (proj2 (activateFreeBasicPlan_result unit account_world_log_lost
                  (VStr "user-1"))
           "TypeError: fetch failed" eq_refl eq_refl).
Defined.
